(* ===== verification/_CoqProject ===== *)
-Q . S2P
Prelude.v
GoStrings.v
GoTime.v
GoFormat.v
GoSort.v
Parser.v
Aggregator.v
Reducer.v
Dispatcher.v
Printer.v
GoTests.v
