(* ===== verification/Prelude.v ===== *)
(** * A verification library for concurrent_log_analyzer (src/main.go)

    The program reads a batch of log files, one goroutine per file, parses
    every line of the form
      [<timestamp> | <severity> | <module>:<function>:<line> - <message>]
    computes per file a [LogAnalysis] (entry count, severity counts, five
    most frequent messages with their counts, start and end time), sends
    it on an unbuffered channel, and merges the analyses it receives into
    one global analysis.  [main] prints it.

    ** Parts of the program and the files that model them

    - [Prelude] (this file): Go's [int64] arithmetic with its wrap-around
      ([wrap64], [add64]); the [result] type for Go panics, with its bind
      [let*] in [loga_scope]; the [loga] hint databases; the tactics and
      list lemmas the other files share.
    - [GoStrings]: the library functions the parser calls, written from
      Go's definitions: [strings.Split] ([split]), [strings.TrimSpace]
      with Go's white space over UTF-8 bytes ([TrimSpace]), and
      [strconv.ParseInt]/[ParseUint] with base prefixes, underscores and
      range errors ([ParseInt]).
    - [GoTime]: [time.Parse] for the one layout the program uses,
      "2006-01-02 15:04:05.999" ([parse_time]: [getnum], [skip] where a
      layout space matches any run of spaces, the optional fraction, the
      range checks and the day-of-month check), a [Time] as its instant
      (seconds since 1 January of year 1, nanoseconds), [Before] and
      [After], and the minimum and maximum of the reducer's loops.
    - [GoFormat]: [Time.Format] for the same layout ([Format]): Go's
      [absDate] (400-, 100- and 4-year cycles, then month and day),
      [absClock], [appendInt] (zero padding) and [formatNano] (three
      digits of the fraction without trailing zeros).
    - [GoSort]: [sort.SliceStable] with the comparator of the program
      (descending count) as a stable insertion sort, with the theorem that
      every stable sort by the key gives its result; Go's unspecified map
      iteration order as a [MapIter], a choice of a permutation of the
      keys of every map, taken as a parameter by the code that ranges
      over a map.
    - [Parser]: [LogMessage] and [parseLogMessage] (main.go 17-24, 42-72),
      which returns the partly filled record together with its error as
      Go does, and [parseLogFile] (main.go 74-89) with [os.ReadFile] as a
      [FileSystem], a function from paths to contents.
    - [Aggregator]: [LogSeverityFrequency], [LogAnalysis] and the
      per-file functions [getNumEntries], [getLogSeverityFrequency] (the
      [switch] as [count_severity]), [getTopFiveLogMessages] (the
      counting map, the stable sort of the keys in map order, the copy
      into five slots), [getStartTime], [getEndTime] (their panics as
      [Err]) and the computing part of [analyzeLogFile] (main.go 91-173).
    - [Reducer]: [analyzeTopFiveLogMessages] (main.go 199-232; the slot
      loops, the index-out-of-range panic when a frequency slice is
      shorter) and [analyzelogAnalyses] (main.go 234-267; the panic on no
      analysis, the int64 sums, the minimum start and maximum end).
    - [Dispatcher]: [analyzeLogFiles] (main.go 269-286) with the send and
      [waitGroup.Done()] of [analyzeLogFile] (174-175), as a step
      relation [step] on a [World]: the main goroutine's program point,
      the goroutines in start order (running, blocked on the send, sent,
      exited), the package-level [WaitGroup] counter, the received
      analyses and the panic that ended the process.  The scheduler
      picks the goroutine that moves, the sender the main goroutine
      receives from, and each goroutine's map iteration order.
    - [Printer]: [printLogAnalysis] (main.go 178-197) as the list of
      lines [fmt.Println] writes, its slot loop with the index panic
      ([print_slot]), and [main] (288-292) as [main_prints]: a run of
      [analyzeLogFiles] on [os.Args[1:]] that returns, the line
      [fmt.Println(topFiveLogMessages)] of [analyzeTopFiveLogMessages]
      writes during the reduction (main.go 230, [println_strings]), then
      the lines of [printLogAnalysis].
    - [GoTests]: the Go tests (src/main-tests.go) as programs: the table
      and loop of TestParseLogMessage, [createTestLogFile] as an update
      of the file system, the goroutine harness of TestAnalyzeLogFile
      (Add, go, one receive, Wait) as the steps of [Dispatcher.step]
      before the reduction, and the checks of TestAnalyzeLogFile and
      TestAnalyzeLogFiles.  The data of the other tests are definitions
      of the files of the functions they test, each test a theorem there.

    ** What the theorems show

    - Dispatcher: the invariant [inv] holds in every reachable world
      (rule induction on [step]); the WaitGroup counter is the number of
      goroutines that have not called [Done] and never goes negative; the
      step relation is well founded (a [measure] decreases at every
      step); a reachable world is stuck exactly when the process has
      ended, and every run can be completed; the outcome refines the
      contract [analyzeLogFiles_spec] (the reduction of one analysis per
      path in an arrival order that is a permutation of the paths); all
      schedules and map orders agree on the counts and times; the
      reduction happens only after [Wait] has returned with every
      analysis received; some schedule reduces out of input order;
      TestAnalyzeLogFiles passes under every schedule.
    - Reducer: the counts are the int64 sums, the times the minimum and
      maximum, all independent of the order of the analyses; the global
      top five in closed form (placeholders included, no frequencies); no
      panic on well-formed analyses; an empty file makes the start time
      year 1; the slice printed at main.go 230 is the returned top five.
    - Aggregator: the severity counts as exact counts, independent of
      record order; the top five as the specification's first-seen ranking
      when the map is iterated in first-seen order, and their dependence
      on the map order otherwise; the five-slot shape of every analysis;
      the empty-file analysis and the start-time panic; the Go tests.
    - Printer: [printLogAnalysis] never panics and prints 9 + min(5, n)
      lines; every slot, the empty placeholder included, is a numbered
      line; two runs of [main] on the same readable files print the same
      counts and times and differ at most in the ranked messages (the
      slice of main.go 230 and the numbered lines, which list the same
      messages), and some runs print different rankings.
    - Parser: parsing a line written in the log format ([format_line])
      gives back its record; a line number with a leading zero is read
      in octal (base 0 of [ParseInt]); the line number is in
      [0, 32767]; the message holds no delimiter; the errors of
      malformed lines; a file written one record per line is read back
      by [parseLogFile] as its records, in order.
    - GoTests: TestAnalyzeLogFile and TestAnalyzeLogFiles pass for any
      file system the temporary files are created in, any (distinct)
      names, every schedule and map order: in the harness of
      TestAnalyzeLogFile no goroutine panics, every run that ends has
      passed through the return of [Wait], and [Wait] returns with
      exactly one analysis received.  TestGetTopFiveLogMessages passes
      exactly for the map orders that visit the messages seen once in
      the order the test lists them.  The runs depend on the file
      system only at their paths ([reachable_ext]).
    - GoFormat: [parse_time] reads back what [Format] writes, truncated
      to the millisecond; a time with no milliseconds is written with no
      fraction.

    ** Bounds and fuel

    The loops are structural recursions or folds over the input, and the
    goroutines and the main goroutine are a step relation whose
    termination is a theorem.  The one bounded recursion is [utoa], the
    digit loop of [strconv.FormatInt], with 20 iterations: an int64 has
    at most 19 digits, so the bound is never reached.  Checks by
    evaluation ([forall_range]) cover finite ranges only: the days of a
    year for [absMonthDay] and the thousand millisecond values for the
    fraction; [forall_permutations] checks a property of every order of
    a list of keys (the 720 orders of the six keys of
    TestGetTopFiveLogMessages), which covers every map order since a
    [MapIter] gives a permutation of the keys.  [ParseInt] keeps the
    uint64 accumulator of Go with its overflow checks; counters wrap at
    64 bits as Go's [int64] does, and the theorems that state counts as
    plain sums assume fewer than 2^63 records where needed.

    ** Not modelled

    The [fmt.Println] of a read error in [parseLogFile] (main.go 78)
    prints the text of an [os] error, which the file system model does
    not carry: [main_prints] covers command lines of readable files,
    where it does not print.  [main] is modelled only for the runs that
    return an analysis (a panic prints nothing to standard output).  The
    bodies of TestParseLogMessage, TestGetLogSeverityFrequency and
    TestGetStartAndEndTime are definitions of [GoTests] and
    [Aggregator] that evaluate on their fixed inputs.  In
    the tests, the [t.Fatal] branches of [createTestLogFile] (a failed
    write of a temporary file) and the deferred [os.Remove] are left
    out: the writes are taken to succeed and removal follows the
    checks.  The file system is fixed during a run.  Go's
    memory model is not needed: goroutines share only the channel and
    the WaitGroup, which the step relation models.

    ** Conventions

    Go strings are byte strings, modelled by Rocq's [string].  Go [int]
    and [int64] are [Z] with the wrap-around written out by [add64].  A Go
    [panic] is an [Err (GoPanic msg)] value of [result]; a Go [error]
    return is an [option] of the error kind next to the value the
    function returns with it. *)

From Stdlib Require Export Ascii String ZArith Lia.
From stdpp Require Export base list strings gmap sorting.

Declare Scope loga_scope.
Delimit Scope loga_scope with loga.
Open Scope loga_scope.

Create HintDb loga discriminated.
Create Rewrite HintDb loga_rw.

#[local] Open Scope Z_scope.

(** ** Go's 64-bit signed integers *)

(** Two's complement wrap-around of a mathematical integer into int64. *)
Definition wrap64 (z : Z) : Z := (z + 2 ^ 63) mod 2 ^ 64 - 2 ^ 63.

(** Go's [a + b] on [int] / [int64] (both 64 bits on the target). *)
Definition add64 (a b : Z) : Z := wrap64 (a + b).

Definition in_int64 (z : Z) : Prop := - 2 ^ 63 <= z < 2 ^ 63.

#[export] Instance in_int64_dec z : Decision (in_int64 z).
Proof. unfold in_int64. apply _. Defined.

(** ** Results: values, Go errors and panics *)

Inductive result (A E : Type) : Type :=
| Ok (a : A)
| Err (e : E).
Arguments Ok {A E} a.
Arguments Err {A E} e.

Definition rbind {A B E} (c : result A E) (k : A -> result B E) : result B E :=
  match c with
  | Ok a => k a
  | Err e => Err e
  end.

Notation "'let*' x := c 'in' k" := (rbind c (fun x => k))
  (at level 10, x name, c at level 100, k at level 200) : loga_scope.

(** A Go panic with its message. *)
Inductive Panic : Type :=
| GoPanic (msg : string).

#[export] Instance Panic_eq_dec : EqDecision Panic.
Proof. solve_decision. Defined.

(** ** Shared tactics *)

(** [Forall P l] on a concrete list, each element by [tac]. *)
Tactic Notation "Forall_by" tactic3(tac) := repeat (constructor; [tac|]); constructor.

(** Case on every boolean [if] of the goal and of the hypotheses. *)
Ltac case_ifs :=
  repeat match goal with
  | |- context [if ?b then _ else _] => destruct b eqn:?
  | H : context [if ?b then _ else _] |- _ => destruct b eqn:?
  end.

(** ** Lemmas on [wrap64] *)

Section Int64.

Lemma wrap64_small z : in_int64 z -> wrap64 z = z.
Proof.
  unfold in_int64, wrap64. intros Hz.
  rewrite Z.mod_small by lia. lia.
Qed.

Lemma wrap64_range z : in_int64 (wrap64 z).
Proof.
  unfold in_int64, wrap64.
  pose proof (Z.mod_pos_bound (z + 2 ^ 63) (2 ^ 64) ltac:(lia)). lia.
Qed.

Lemma add64_exact a b : in_int64 (a + b) -> add64 a b = a + b.
Proof. apply wrap64_small. Qed.

Lemma wrap64_add_l a b : wrap64 (wrap64 a + b) = wrap64 (a + b).
Proof.
  unfold wrap64.
  replace (((a + 2 ^ 63) mod 2 ^ 64 - 2 ^ 63 + b) + 2 ^ 63)
    with ((a + 2 ^ 63) mod 2 ^ 64 + b) by lia.
  rewrite Z.add_mod_idemp_l by lia.
  f_equal. f_equal. lia.
Qed.

(** [add64] is the addition of the ring of integers modulo 2^64:
    associative and commutative, which is what makes the reducer's sums
    independent of the order of the per-file analyses. *)
Lemma add64_comm a b : add64 a b = add64 b a.
Proof. unfold add64. f_equal. lia. Qed.

Lemma add64_assoc a b c : add64 (add64 a b) c = add64 a (add64 b c).
Proof.
  unfold add64. rewrite wrap64_add_l.
  rewrite (Z.add_comm a (wrap64 (b + c))), wrap64_add_l.
  f_equal. lia.
Qed.

End Int64.


(** ** Generic list lemmas *)

Section ListLemmas.

Context {A : Type}.

Lemma filter_Forall_not (P : A -> Prop) `{forall x, Decision (P x)} (l : list A) :
  Forall (fun x => ~ P x) l -> filter P l = [].
Proof.
  induction 1 as [|x l Hx _ IH]; [done|]. by rewrite filter_cons_False.
Qed.

Lemma filter_Forall_all (P : A -> Prop) `{forall x, Decision (P x)} (l : list A) :
  Forall P l -> filter P l = l.
Proof.
  induction 1 as [|x l Hx _ IH]; [done|]. by rewrite filter_cons_True, IH.
Qed.

(** Writing slot [k] of [l ++ defaults] when [l] has length [k]. *)
Lemma insert_slots_step (n k : nat) (d x : A) (l : list A) :
  length l = k -> (k < n)%nat ->
  <[k := x]> (l ++ replicate (n - k) d) = (l ++ [x]) ++ replicate (n - S k) d.
Proof.
  intros <- Hk. replace (n - length l)%nat with (S (n - S (length l))) by lia.
  rewrite <- (Nat.add_0_r (length l)) at 1. rewrite insert_app_r.
  by rewrite <- app_assoc.
Qed.

(** Sum of the integers [f x] over a list. *)
Definition sumZ (f : A -> Z) (l : list A) : Z := foldr (fun x acc => f x + acc) 0 l.

Lemma sumZ_app (f : A -> Z) l1 l2 : sumZ f (l1 ++ l2) = sumZ f l1 + sumZ f l2.
Proof. induction l1 as [|x l1 IH]; simpl; [done|]. unfold sumZ in *. simpl. lia. Qed.

#[export] Instance sumZ_perm (f : A -> Z) : Proper ((≡ₚ) ==> eq) (sumZ f).
Proof.
  intros l1 l2 Hp. unfold sumZ. induction Hp; simpl; lia.
Qed.

(** Overwriting the element [y] at index [i] by [x], seen through a
    weight: the total changes by the difference of the weights. *)
Lemma sum_list_fmap_insert (f : A -> nat) (l : list A) i x y :
  l !! i = Some y ->
  (sum_list (f <$> <[i := x]> l) + f y = f x + sum_list (f <$> l))%nat.
Proof.
  revert i. induction l as [|z l IH]; intros [|i] Hi; simplify_eq/=; [lia|].
  specialize (IH i Hi). lia.
Qed.

(** The same through a partial projection: the projections of the new
    list, with the old element's, are those of the old list with the new
    element's, up to order. *)
Lemma omap_insert_perm {B} (f : A -> option B) (l : list A) i x y :
  l !! i = Some y ->
  omap f (<[i := x]> l) ++ option_list (f y) ≡ₚ option_list (f x) ++ omap f l.
Proof.
  revert i. induction l as [|z l IH]; intros [|i] Hi; simplify_eq/=.
  - destruct (f x), (f y); simpl; rewrite ?app_nil_r; solve_Permutation.
  - specialize (IH i Hi). destruct (f z); simpl; [|done].
    rewrite IH. destruct (f x); simpl; solve_Permutation.
Qed.

Lemma lookup_sum_list_le (f : A -> nat) (l : list A) i y :
  l !! i = Some y -> (f y <= sum_list (f <$> l))%nat.
Proof.
  revert i. induction l as [|z l IH]; intros [|i] Hi; simplify_eq/=; [lia|].
  specialize (IH i Hi). lia.
Qed.

Lemma sum_list_pos_lookup (f : A -> nat) (l : list A) :
  sum_list (f <$> l) <> 0%nat -> exists i y, l !! i = Some y /\ f y <> 0%nat.
Proof.
  induction l as [|z l IH]; [done|]. rewrite fmap_cons. simpl. intros Hs.
  destruct (decide (f z = 0%nat)) as [Hz|Hz].
  - destruct IH as (i & y & Hi & Hy); [lia|]. by exists (S i), y.
  - by exists 0%nat, z.
Qed.

End ListLemmas.

(** Two lists related pointwise to the same list by a relation that
    determines [f] have the same image by [f]. *)
Lemma Forall2_fmap_det {A B C} (R : A -> B -> Prop) (f : B -> C) l L1 L2 :
  (forall x y z, R x y -> R x z -> f y = f z) ->
  Forall2 R l L1 -> Forall2 R l L2 -> f <$> L1 = f <$> L2.
Proof.
  intros Hdet H1. revert L2. induction H1 as [|x y l L1 Hxy _ IH]; intros L2 H2;
    inversion H2; subst; simpl; f_equal; eauto.
Qed.

Lemma sumZ_fmap {A B} (f : B -> Z) (g : A -> B) l : sumZ f (g <$> l) = sumZ (fun x => f (g x)) l.
Proof. induction l as [|x l IH]; [done|]. unfold sumZ in *. simpl. by f_equal. Qed.

(** ** Checking a property of every integer of a range by evaluation *)

(** [forall_range k lo f] checks [f] on [lo], ..., [lo + 2^k - 1],
    splitting the range in halves, so that the evaluation of a check on
    a range of a few hundred thousand integers has depth [k]. *)
Fixpoint forall_range (k : nat) (lo : Z) (f : Z -> bool) : bool :=
  match k with
  | O => f lo
  | S k' => forall_range k' lo f && forall_range k' (lo + 2 ^ Z.of_nat k') f
  end.

Lemma forall_range_spec k lo f x :
  forall_range k lo f = true -> lo <= x < lo + 2 ^ Z.of_nat k -> f x = true.
Proof.
  revert lo. induction k as [|k IH]; intros lo Hk Hx; simpl in Hk.
  - replace x with lo by (simpl in Hx; lia). done.
  - apply andb_true_iff in Hk as [H1 H2].
    rewrite Nat2Z.inj_succ, Z.pow_succ_r in Hx by lia.
    destruct (decide (x < lo + 2 ^ Z.of_nat k)); [apply (IH lo)|apply (IH (lo + 2 ^ Z.of_nat k))];
      auto with lia.
Qed.

(** ** Checking a property of every order of a list by evaluation *)

(** A decidable property of the permutations of [K], checked on the
    [length K]! orders [permutations K] lists, holds of every list that
    is a permutation of [K]: the orders a Go map may be ranged over. *)
Lemma forall_permutations {A} (P : list A -> Prop) `{!forall l, Decision (P l)} (K : list A) :
  forallb (fun l => bool_decide (P l)) (permutations K) = true -> forall l, l ≡ₚ K -> P l.
Proof.
  intros Hb l Hl. apply (bool_decide_eq_true_1 (P l)).
  apply (proj1 (forallb_forall (fun l => bool_decide (P l)) (permutations K)) Hb l).
  apply list_elem_of_In, permutations_Permutation. by symmetry.
Qed.

#[export] Hint Resolve wrap64_range : loga.
#[export] Hint Extern 1 (in_int64 (add64 _ _)) => apply wrap64_range : loga.
#[export] Hint Rewrite wrap64_add_l : loga_rw.

(** Nested [add64]s as one [wrap64] of the exact sum. *)
Ltac int64_norm := unfold add64; autorewrite with loga_rw.
