(* ===== verification/GoStrings.v ===== *)
(** * Go standard-library string functions called by the parser

    [split] is [strings.Split(s, sep)] for a one-byte separator (every
    separator the program passes is one byte: "|", ":", "-", "\n");
    [TrimSpace] is [strings.TrimSpace], which removes the leading and
    trailing runes for which [unicode.IsSpace] holds: the six ASCII white
    spaces and the UTF-8 encodings of U+0085, U+00A0, U+1680,
    U+2000..U+200A, U+2028, U+2029, U+202F, U+205F and U+3000;
    [ParseInt] is [strconv.ParseInt(s, base, bitSize)] with [ParseUint]
    and [underscoreOK] as in Go's strconv/atoi.go. *)

From S2P Require Import Prelude.

#[local] Set Warnings "-clear-no-such-hyp".

Module GoStrings.

(** ** strings.Split with a one-byte separator *)

(** Go returns the [n + 1] pieces around the [n] occurrences of [sep];
    splitting the empty string gives the one piece [""]. *)
Fixpoint split (sep : ascii) (s : string) : list string :=
  match s with
  | EmptyString => [EmptyString]
  | String c s' =>
      let parts := split sep s' in
      if Ascii.eqb c sep then EmptyString :: parts
      else match parts with
           | [] => [String c EmptyString]
           | p :: ps => String c p :: ps
           end
  end.

(** Number of occurrences of a byte in a string. *)
Fixpoint count_char (c : ascii) (s : string) : nat :=
  match s with
  | EmptyString => 0
  | String c' s' => (if Ascii.eqb c' c then 1 else 0) + count_char c s'
  end.

(** [strings.Join(parts, sep)] with a one-byte separator. *)
Fixpoint join (sep : ascii) (parts : list string) : string :=
  match parts with
  | [] => EmptyString
  | [p] => p
  | p :: ps => (p ++ String sep (join sep ps))%string
  end.

(** ** strings.TrimSpace *)

Definition code (c : ascii) : nat := nat_of_ascii c.

(** Go's [asciiSpace] table: '\t', '\n', '\v', '\f', '\r', ' '. *)
Definition asciiSpace (c : ascii) : bool :=
  match code c with
  | 9 | 10 | 11 | 12 | 13 | 32 => true
  | _ => false
  end.

(** Two-byte UTF-8 encodings of white space: U+0085, U+00A0. *)
Definition space2 (c1 c2 : ascii) : bool :=
  (code c1 =? 194)%nat && ((code c2 =? 133)%nat || (code c2 =? 160)%nat).

(** Three-byte UTF-8 encodings of white space: U+1680, U+2000..U+200A,
    U+2028, U+2029, U+202F, U+205F, U+3000. *)
Definition space3 (c1 c2 c3 : ascii) : bool :=
  ((code c1 =? 225) && (code c2 =? 154) && (code c3 =? 128))%nat
  || ((code c1 =? 226) && (code c2 =? 128)
      && (((128 <=? code c3) && (code c3 <=? 138)) || (code c3 =? 168)
          || (code c3 =? 169) || (code c3 =? 175)))%nat
  || ((code c1 =? 226) && (code c2 =? 129) && (code c3 =? 159))%nat
  || ((code c1 =? 227) && (code c2 =? 128) && (code c3 =? 128))%nat.

(** Drop white-space runes from the front ([strings.TrimLeftFunc] with
    [unicode.IsSpace]); [sp2] and [sp3] recognise the multi-byte ones. *)
Fixpoint trim_left_with (sp2 : ascii -> ascii -> bool)
    (sp3 : ascii -> ascii -> ascii -> bool) (l : list ascii) : list ascii :=
  match l with
  | [] => []
  | c1 :: l1 =>
      if asciiSpace c1 then trim_left_with sp2 sp3 l1 else
      match l1 with
      | [] => l
      | c2 :: l2 =>
          if sp2 c1 c2 then trim_left_with sp2 sp3 l2 else
          match l2 with
          | [] => l
          | c3 :: l3 => if sp3 c1 c2 c3 then trim_left_with sp2 sp3 l3 else l
          end
      end
  end.

Definition TrimLeftSpace (l : list ascii) : list ascii :=
  trim_left_with space2 space3 l.

(** [strings.TrimRightFunc] decodes the last rune with
    [utf8.DecodeLastRuneInString]; on the reversed bytes this is the front
    trimming with the encodings reversed. *)
Definition TrimRightSpace (l : list ascii) : list ascii :=
  reverse (trim_left_with (fun a b => space2 b a) (fun a b c => space3 c b a) (reverse l)).

(** [strings.TrimSpace]: Go's fast path scans ASCII bytes from both ends
    and falls back to [TrimFunc] / [TrimRightFunc] with [unicode.IsSpace]
    at the first non-ASCII byte; both paths remove the maximal prefix and
    the maximal suffix of white-space runes, front first. *)
Definition TrimSpace (s : string) : string :=
  string_of_list_ascii (TrimRightSpace (TrimLeftSpace (list_ascii_of_string s))).

(** ** strconv.ParseInt *)

(** The [Err] field of Go's [*strconv.NumError]. *)
Inductive NumError : Type :=
| ErrSyntax
| ErrRange
| ErrBase
| ErrBitSize.

#[export] Instance NumError_eq_dec : EqDecision NumError.
Proof. solve_decision. Defined.

(** Go's [lower(c) = c | ('x' - 'X')]. *)
Definition lower (c : ascii) : nat := Nat.lor (code c) 32.

(** The digit value of a byte in the loop of [ParseUint]. *)
Definition digit_val (c : ascii) : option nat :=
  if (48 <=? code c) && (code c <=? 57) then Some (code c - 48)
  else if (97 <=? lower c) && (lower c <=? 122) then Some (lower c - 97 + 10)
  else None.

Definition maxUint64 : Z := (2 ^ 64 - 1)%Z.

(** The digit loop of [ParseUint]: [n] is the uint64 accumulator and the
    boolean records whether an underscore was skipped.  Early returns give
    [(0, ErrSyntax)] or [(maxVal, ErrRange)]. *)
Fixpoint uint_loop (base : Z) (base0 : bool) (cutoff maxVal : Z)
    (s : list ascii) (n : Z) (underscores : bool) : Z * option NumError * bool :=
  match s with
  | [] => (n, None, underscores)
  | c :: s' =>
      if base0 && (code c =? 95)%nat then
        uint_loop base base0 cutoff maxVal s' n true
      else
        match digit_val c with
        | None => (0%Z, Some ErrSyntax, underscores)
        | Some d =>
            let d := Z.of_nat d in
            if (base <=? d)%Z then (0%Z, Some ErrSyntax, underscores)
            else if (cutoff <=? n)%Z then (maxVal, Some ErrRange, underscores)
            else
              let n := (n * base)%Z in
              let n1 := ((n + d) mod 2 ^ 64)%Z in
              if (n1 <? n)%Z || (maxVal <? n1)%Z then (maxVal, Some ErrRange, underscores)
              else uint_loop base base0 cutoff maxVal s' n1 underscores
        end
  end.

(** The last character class seen by [underscoreOK]:
    '^' start, '0' digit or base prefix, '_' underscore, '!' other. *)
Inductive saw_t : Type := SawStart | SawDigit | SawUnderscore | SawOther.

Definition is_dec_digit (c : ascii) : bool := (48 <=? code c) && (code c <=? 57).

Fixpoint underscore_loop (hex : bool) (saw : saw_t) (s : list ascii) : bool :=
  match s with
  | [] => match saw with SawUnderscore => false | _ => true end
  | c :: s' =>
      if is_dec_digit c || (hex && (97 <=? lower c) && (lower c <=? 102)) then
        underscore_loop hex SawDigit s'
      else if (code c =? 95)%nat then
        match saw with
        | SawDigit => underscore_loop hex SawUnderscore s'
        | _ => false
        end
      else match saw with
           | SawUnderscore => false
           | _ => underscore_loop hex SawOther s'
           end
  end.

(** Underscores must separate digits (or follow a base prefix). *)
Definition underscoreOK (s : list ascii) : bool :=
  let s := match s with
           | c :: t => if (code c =? 45) || (code c =? 43) then t else s
           | [] => s
           end in
  match s with
  | c0 :: c1 :: t =>
      if (code c0 =? 48) && ((lower c1 =? 98) || (lower c1 =? 111) || (lower c1 =? 120))
      then underscore_loop (lower c1 =? 120) SawDigit t
      else underscore_loop false SawStart s
  | _ => underscore_loop false SawStart s
  end.

(** [strconv.ParseUint(s, base, bitSize)]; base 0 reads the prefixes
    0b, 0o, 0x and a leading 0 (octal), and allows underscores. *)
Definition ParseUint (s : list ascii) (base bitSize : Z) : Z * option NumError :=
  match s with
  | [] => (0%Z, Some ErrSyntax)
  | c0 :: rest =>
      let base0 := (base =? 0)%Z in
      let pick : option (Z * list ascii) :=
        if (2 <=? base)%Z && (base <=? 36)%Z then Some (base, s)
        else if base0 then
          Some (if (code c0 =? 48)%nat then
                  match rest with
                  | c1 :: t =>
                      if (3 <=? length s) && (lower c1 =? 98) then (2%Z, t)
                      else if (3 <=? length s) && (lower c1 =? 111) then (8%Z, t)
                      else if (3 <=? length s) && (lower c1 =? 120) then (16%Z, t)
                      else (8%Z, rest)
                  | [] => (8%Z, rest)
                  end
                else (10%Z, s))
        else None in
      match pick with
      | None => (0%Z, Some ErrBase)
      | Some (b, digits) =>
          let bitSize := if (bitSize =? 0)%Z then 64%Z else bitSize in
          if (bitSize <? 0)%Z || (64 <? bitSize)%Z then (0%Z, Some ErrBitSize) else
          let cutoff := (maxUint64 / b + 1)%Z in
          let maxVal := (2 ^ bitSize - 1)%Z in
          match uint_loop b base0 cutoff maxVal digits 0 false with
          | (n, Some e, _) => (n, Some e)
          | (n, None, us) =>
              if us && negb (underscoreOK s) then (0%Z, Some ErrSyntax) else (n, None)
          end
      end
  end.

(** [strconv.ParseInt(s, base, bitSize)]: an optional sign, then
    [ParseUint] and the signed range check. *)
Definition ParseInt (str : string) (base bitSize : Z) : Z * option NumError :=
  let s := list_ascii_of_string str in
  match s with
  | [] => (0%Z, Some ErrSyntax)
  | c0 :: rest =>
      let '(neg, s1) :=
        if (code c0 =? 43)%nat then (false, rest)
        else if (code c0 =? 45)%nat then (true, rest)
        else (false, s) in
      let '(un, err) := ParseUint s1 base bitSize in
      let signed :=
        let bitSize := if (bitSize =? 0)%Z then 64%Z else bitSize in
        let cutoff := (2 ^ (bitSize - 1))%Z in
        if negb neg && (cutoff <=? un)%Z then ((cutoff - 1)%Z, Some ErrRange)
        else if neg && (cutoff <? un)%Z then ((- cutoff)%Z, Some ErrRange)
        else ((if neg then (- un)%Z else un), None) in
      match err with
      | None | Some ErrRange => signed
      | Some e => (0%Z, Some e)
      end
  end.

(** ** strconv.FormatInt with base 10 *)

(** The decimal digits of [n >= 0], most significant first, in front of
    [acc]: the loop of Go's [formatBits] for base 10.  [fuel] bounds the
    number of digits; 20 is enough for every int64. *)
Fixpoint utoa (fuel : nat) (n : Z) (acc : list ascii) : list ascii :=
  match fuel with
  | O => acc
  | S f =>
      let acc := ascii_of_nat (48 + Z.to_nat (n mod 10)) :: acc in
      if (n <? 10)%Z then acc else utoa f (n / 10) acc
  end.

(** [strconv.FormatInt(n, 10)] (and [strconv.Itoa]). *)
Definition FormatInt (n : Z) : string :=
  string_of_list_ascii ((if (n <? 0)%Z then ["-"%char] else []) ++ utoa 20 (Z.abs n) []).

(** ** Lemmas on the string functions *)

Section StringLemmas.

(** Every byte of a piece of [split] is a byte of the input other than the
    separator. *)
Lemma split_piece_chars sep s p c :
  p ∈ split sep s -> c ∈ list_ascii_of_string p ->
  c ∈ list_ascii_of_string s /\ c <> sep.
Proof.
  revert p. induction s as [|c0 s IH]; intros p Hp Hc; simpl in Hp.
  - apply list_elem_of_singleton in Hp as ->. simpl in Hc. set_solver.
  - remember (split sep s) as ps eqn:Hs. simpl.
    destruct (Ascii.eqb c0 sep) eqn:Hc0.
    + apply elem_of_cons in Hp as [->|Hp]; [simpl in Hc; set_solver|].
      destruct (IH p) as [??]; [done|done|]. set_solver.
    + apply Ascii.eqb_neq in Hc0. destruct ps as [|q qs].
      * apply list_elem_of_singleton in Hp as ->. simpl in Hc. set_solver.
      * apply elem_of_cons in Hp as [->|Hp].
        -- simpl in Hc. apply elem_of_cons in Hc as [->|Hc]; [set_solver|].
           destruct (IH q) as [??]; [by left|done|]. set_solver.
        -- destruct (IH p) as [??]; [by right|done|]. set_solver.
Qed.

Lemma split_no_sep sep s p :
  p ∈ split sep s -> sep ∉ list_ascii_of_string p.
Proof. intros Hp Hc. by destruct (split_piece_chars sep s p sep Hp Hc). Qed.

(** A byte absent from the input is absent from every piece. *)
Lemma split_not_elem sep s p c :
  p ∈ split sep s -> c ∉ list_ascii_of_string s -> c ∉ list_ascii_of_string p.
Proof. intros Hp Hs Hc. by destruct (split_piece_chars sep s p c Hp Hc). Qed.

Lemma split_not_nil sep s : split sep s <> [].
Proof.
  destruct s as [|c s]; simpl; [done|].
  destruct (Ascii.eqb c sep); [done|]. by destruct (split sep s).
Qed.

Lemma split_length sep s : length (split sep s) = S (count_char sep s).
Proof.
  induction s as [|c s IH]; simpl; [done|].
  pose proof (split_not_nil sep s) as Hne.
  destruct (Ascii.eqb c sep) eqn:E; simpl; [by rewrite IH|].
  destruct (split sep s); [done|]. simpl in *. lia.
Qed.

(** Splitting a prefix free of the separator. *)
Lemma split_app_sep sep x y :
  sep ∉ list_ascii_of_string x ->
  split sep (x ++ String sep y)%string = x :: split sep y.
Proof.
  induction x as [|c x IH]; intros Hx; simpl.
  - by rewrite Ascii.eqb_refl.
  - simpl in Hx. apply not_elem_of_cons in Hx as [Hc Hx].
    rewrite IH by done.
    destruct (Ascii.eqb c sep) eqn:E; [apply Ascii.eqb_eq in E; congruence|done].
Qed.

Lemma split_nosep sep x :
  sep ∉ list_ascii_of_string x -> split sep x = [x].
Proof.
  induction x as [|c x IH]; intros Hx; simpl; [done|].
  simpl in Hx. apply not_elem_of_cons in Hx as [Hc Hx].
  rewrite IH by done.
  destruct (Ascii.eqb c sep) eqn:E; [apply Ascii.eqb_eq in E; congruence|done].
Qed.

Lemma join_cons sep p ps :
  ps <> [] -> join sep (p :: ps) = (p ++ String sep (join sep ps))%string.
Proof. by destruct ps. Qed.

Lemma join_cons_char sep c p ps :
  join sep (String c p :: ps) = String c (join sep (p :: ps)).
Proof. by destruct ps. Qed.

(** Splitting what [strings.Join] joined gives the pieces back, when no
    piece holds the separator. *)
Lemma split_join sep parts :
  parts <> [] -> Forall (fun p => sep ∉ list_ascii_of_string p) parts ->
  split sep (join sep parts) = parts.
Proof.
  induction parts as [|p ps IH]; intros Hne Hps; [done|].
  apply Forall_cons in Hps as [Hp Hps].
  destruct ps as [|q qs]; [by apply split_nosep|].
  rewrite join_cons, split_app_sep by done. by rewrite IH.
Qed.

(** [strings.Split] loses nothing: joining its pieces with the
    separator gives the string back, [strings.Join(strings.Split(s, sep), sep) == s]. *)
Lemma join_split sep s : join sep (split sep s) = s.
Proof.
  induction s as [|c s IH]; simpl; [done|].
  pose proof (split_not_nil sep s) as Hne.
  destruct (Ascii.eqb c sep) eqn:E.
  - apply Ascii.eqb_eq in E as ->. rewrite join_cons by done. by rewrite IH.
  - destruct (split sep s) as [|p ps]; [done|].
    by rewrite join_cons_char, IH.
Qed.

Lemma trim_left_with_suffix sp2 sp3 l :
  trim_left_with sp2 sp3 l `suffix_of` l.
Proof.
  remember (length l) as n eqn:Hn. revert l Hn.
  induction (lt_wf n) as [n _ IH]; intros l ->.
  destruct l as [|c1 l1]; simpl; [done|].
  destruct (asciiSpace c1).
  { apply suffix_cons_r. apply (IH (length l1)); [simpl; lia|done]. }
  destruct l1 as [|c2 l2]; [done|].
  destruct (sp2 c1 c2).
  { do 2 apply suffix_cons_r. apply (IH (length l2)); [simpl; lia|done]. }
  destruct l2 as [|c3 l3]; [done|].
  destruct (sp3 c1 c2 c3); [|done].
  do 3 apply suffix_cons_r. apply (IH (length l3)); [simpl; lia|done].
Qed.

(** [TrimSpace] returns a factor of its argument: a byte absent from the
    argument is absent from the result. *)
Lemma TrimRightSpace_prefix l : TrimRightSpace l `prefix_of` l.
Proof.
  unfold TrimRightSpace.
  pose proof (proj1 (suffix_prefix_reverse _ _)
    (trim_left_with_suffix (fun a b => space2 b a) (fun a b c => space3 c b a) (reverse l))) as H.
  by rewrite reverse_involutive in H.
Qed.

Lemma TrimSpace_not_elem c s :
  c ∉ list_ascii_of_string s -> c ∉ list_ascii_of_string (TrimSpace s).
Proof.
  unfold TrimSpace. rewrite list_ascii_of_string_of_list_ascii. intros Hc Hin.
  apply Hc. eapply elem_of_suffix; [|apply trim_left_with_suffix].
  eapply elem_of_prefix; [exact Hin|apply TrimRightSpace_prefix].
Qed.

Lemma uint_loop_nonneg base base0 cutoff maxVal s n us m e us' :
  (0 <= n)%Z -> (0 <= maxVal)%Z ->
  uint_loop base base0 cutoff maxVal s n us = (m, e, us') -> (0 <= m)%Z.
Proof.
  revert n us. induction s as [|c s IH]; intros n us Hn Hmax Hl; simpl in Hl.
  - simplify_eq. lia.
  - destruct (base0 && (code c =? 95)%nat); [exact (IH _ _ Hn Hmax Hl)|].
    destruct (digit_val c) as [d|]; [|simplify_eq; lia].
    case_ifs; simplify_eq; try lia. eapply IH; [|done|exact Hl].
    pose proof (Z.mod_pos_bound (n * base + Z.of_nat d) (2 ^ 64) ltac:(lia)). lia.
Qed.

(** [ParseUint] returns a non-negative value, with or without error. *)
Lemma ParseUint_nonneg s base bitSize un e :
  ParseUint s base bitSize = (un, e) -> (0 <= un)%Z.
Proof.
  unfold ParseUint. intros H. repeat case_match; simplify_eq; try lia.
  all: eapply uint_loop_nonneg; [| |eassumption]; try lia.
Qed.

(** A successful [ParseInt] is in the signed range of [bitSize] bits. *)
Lemma ParseInt_ok_range s base bitSize n :
  (1 <= bitSize <= 64)%Z ->
  ParseInt s base bitSize = (n, None) ->
  (- 2 ^ (bitSize - 1) <= n < 2 ^ (bitSize - 1))%Z.
Proof.
  intros Hb. unfold ParseInt.
  destruct (list_ascii_of_string s) as [|c0 rest]; [done|].
  destruct (_ : bool * list ascii) as [neg s1].
  destruct (ParseUint s1 base bitSize) as [un err] eqn:Hu.
  pose proof (ParseUint_nonneg _ _ _ _ _ Hu) as Hun.
  intros Hp. destruct err as [[]|]; try done; case_ifs; simplify_eq; try lia.
Qed.

(** Without a minus sign in its input, a successful [ParseInt] is
    non-negative. *)
Lemma ParseInt_ok_nonneg s base bitSize n :
  "-"%char ∉ list_ascii_of_string s ->
  ParseInt s base bitSize = (n, None) -> (0 <= n)%Z.
Proof.
  unfold ParseInt. intros Hm.
  destruct (list_ascii_of_string s) as [|c0 rest] eqn:Hs; [done|].
  assert (Hneg : (code c0 =? 45)%nat = false).
  { apply Nat.eqb_neq. intros H45. apply Hm.
    assert (c0 = "-"%char) as ->; [|apply list_elem_of_here].
    rewrite <- (ascii_nat_embedding c0). unfold code in H45. by rewrite H45. }
  rewrite Hneg. destruct (code c0 =? 43)%nat.
  all: match goal with |- context [ParseUint ?x ?b ?k] =>
         destruct (ParseUint x b k) as [un err] eqn:Hu end.
  all: pose proof (ParseUint_nonneg _ _ _ _ _ Hu) as Hun.
  all: intros Hp; destruct err as [[]|]; try done; case_ifs; simplify_eq; lia.
Qed.

(** Appending a space to the input of the front trimming appends it to
    the result, unless everything was trimmed: a space cannot complete a
    multi-byte white-space rune. *)
Lemma trim_left_app_space sp2 sp3 l :
  (forall c, sp2 c " "%char = false) -> (forall c1 c2, sp3 c1 c2 " "%char = false) ->
  trim_left_with sp2 sp3 (l ++ [" "%char]) =
  match trim_left_with sp2 sp3 l with [] => [] | t => t ++ [" "%char] end.
Proof.
  intros H2 H3. remember (length l) as n eqn:Hn. revert l Hn.
  induction (lt_wf n) as [n _ IH]; intros l ->.
  destruct l as [|c1 l1]; simpl; [done|].
  destruct (asciiSpace c1) eqn:E1; [apply (IH (length l1)); [simpl; lia|done]|].
  destruct l1 as [|c2 l2]; simpl; [by rewrite H2|].
  destruct (sp2 c1 c2) eqn:E2; [apply (IH (length l2)); [simpl; lia|done]|].
  destruct l2 as [|c3 l3]; simpl; [by rewrite H3|].
  destruct (sp3 c1 c2 c3) eqn:E3; [apply (IH (length l3)); [simpl; lia|done]|done].
Qed.

Lemma list_ascii_of_string_app x y :
  list_ascii_of_string (x ++ y) = list_ascii_of_string x ++ list_ascii_of_string y.
Proof. induction x as [|c x IH]; simpl; [done|]. by rewrite IH. Qed.

(** [TrimSpace] ignores one space added in front or at the end. *)
Lemma TrimSpace_pad_l x : TrimSpace (String " " x) = TrimSpace x.
Proof. reflexivity. Qed.

Lemma TrimSpace_pad_r x : TrimSpace (x ++ " ") = TrimSpace x.
Proof.
  unfold TrimSpace, TrimLeftSpace. rewrite list_ascii_of_string_app. simpl.
  rewrite trim_left_app_space; cycle 1.
  { intros c. unfold space2. simpl. by rewrite andb_false_r. }
  { intros c1 c2. unfold space3. simpl. by rewrite !andb_false_r. }
  destruct (trim_left_with space2 space3 _) as [|c t]; [done|].
  unfold TrimRightSpace. by rewrite reverse_app.
Qed.

(** The digit byte of [d] in [0, 9]. *)
Definition dig (d : Z) : ascii := ascii_of_nat (48 + Z.to_nat d).

Lemma code_dig d : (0 <= d < 10)%Z -> code (dig d) = (48 + Z.to_nat d)%nat.
Proof. intros Hd. unfold code, dig. apply nat_ascii_embedding. lia. Qed.

Lemma is_dec_digit_dig d : (0 <= d < 10)%Z -> is_dec_digit (dig d) = true.
Proof.
  intros Hd. unfold is_dec_digit. rewrite code_dig by done.
  apply andb_true_iff. split; apply Nat.leb_le; lia.
Qed.

Lemma utoa_app f n acc : utoa f n acc = utoa f n [] ++ acc.
Proof.
  revert n acc. induction f as [|f IH]; intros n acc; simpl; [done|].
  case_match; [done|]. rewrite IH, (IH _ [_]). by rewrite <- app_assoc.
Qed.

Lemma utoa_S f n :
  utoa (S f) n [] = if (n <? 10)%Z then [dig (n mod 10)] else utoa f (n / 10) [] ++ [dig (n mod 10)].
Proof. simpl. case_match; [done|]. apply utoa_app. Qed.

Lemma utoa_digits f n :
  (0 <= n)%Z -> Forall (fun c => is_dec_digit c = true) (utoa f n []).
Proof.
  revert n. induction f as [|f IH]; intros n Hn; [constructor|]. rewrite utoa_S.
  assert (Hd : is_dec_digit (dig (n mod 10)) = true)
    by (apply is_dec_digit_dig, Z.mod_pos_bound; lia).
  case_match; [by constructor|]. apply Forall_app.
  split; [apply IH, Z.div_pos; lia|by constructor].
Qed.

Lemma utoa_head f n :
  (1 <= n < 10 ^ Z.of_nat f)%Z -> exists c t, utoa f n [] = c :: t /\ code c <> 48%nat.
Proof.
  revert n. induction f as [|f IH]; intros n Hn; [simpl in Hn; lia|]. rewrite utoa_S.
  destruct (n <? 10)%Z eqn:E.
  - apply Z.ltb_lt in E. exists (dig (n mod 10)), []. split; [done|].
    rewrite Z.mod_small by lia. rewrite code_dig by lia. lia.
  - apply Z.ltb_ge in E. rewrite Nat2Z.inj_succ, Z.pow_succ_r in Hn by lia.
    destruct (IH (n / 10)%Z) as (c & t & -> & Hc).
    { split; [apply Z.div_le_lower_bound; lia|apply Z.div_lt_upper_bound; lia]. }
    by exists c, (t ++ [dig (n mod 10)]).
Qed.

(** The digit loop of [ParseUint] over a concatenation. *)
Lemma uint_loop_app b b0 co mv l1 l2 v u :
  uint_loop b b0 co mv (l1 ++ l2) v u =
  match uint_loop b b0 co mv l1 v u with
  | (v', None, u') => uint_loop b b0 co mv l2 v' u'
  | r => r
  end.
Proof.
  revert v u. induction l1 as [|c l1 IH]; intros v u; simpl; [done|].
  destruct (b0 && _); [apply IH|].
  destruct (digit_val c) as [d|]; [|done].
  destruct (b <=? _)%Z; [done|]. destruct (co <=? v)%Z; [done|].
  destruct (_ || _); [done|]. apply IH.
Qed.

(** The cutoff of [ParseUint] for base [b], and the maximum for 16 bits. *)
Definition cutoff (b : Z) : Z := (maxUint64 / b + 1)%Z.
Definition cutoff10 : Z := cutoff 10.
Definition max16 : Z := (2 ^ 16 - 1)%Z.

(** One digit [d < b] of a base [b <= 10] while the value fits in 16
    bits: no early return. *)
Lemma uint_loop_dig_base b v d :
  (2 <= b <= 10)%Z -> (0 <= v)%Z -> (0 <= d < b)%Z -> (v * b + d <= max16)%Z ->
  uint_loop b true (cutoff b) max16 [dig d] v false = ((v * b + d)%Z, None, false).
Proof.
  intros Hb Hv Hd Hm. unfold max16 in Hm. cbn [uint_loop andb].
  rewrite code_dig by lia.
  replace ((48 + Z.to_nat d =? 95)%nat) with false by (symmetry; apply Nat.eqb_neq; lia).
  unfold digit_val. rewrite code_dig by lia.
  replace ((48 <=? 48 + Z.to_nat d) && (48 + Z.to_nat d <=? 57))%nat with true
    by (symmetry; apply andb_true_iff; split; apply Nat.leb_le; lia).
  cbv beta iota. rewrite Nat.add_comm, Nat.add_sub, Z2Nat.id by lia.
  assert (H16 : (2 ^ 16 = 65536)%Z) by reflexivity.
  assert (H64 : (2 ^ 64 = 18446744073709551616)%Z) by reflexivity.
  assert (Hc : (2 ^ 16 <= maxUint64 / b)%Z).
  { apply Z.div_le_lower_bound; [lia|]. unfold maxUint64. rewrite H16, H64. lia. }
  unfold cutoff. rewrite (proj2 (Z.leb_gt b d)), (proj2 (Z.leb_gt _ v)) by nia.
  rewrite Z.mod_small by nia.
  rewrite (proj2 (Z.ltb_ge _ _)), (proj2 (Z.ltb_ge (2 ^ 16 - 1) _)) by lia.
  done.
Qed.

Lemma uint_loop_dig v d :
  (0 <= v)%Z -> (0 <= d < 10)%Z -> (v * 10 + d <= max16)%Z ->
  uint_loop 10 true cutoff10 max16 [dig d] v false = ((v * 10 + d)%Z, None, false).
Proof. intros. apply uint_loop_dig_base; lia. Qed.

Lemma uint_loop_utoa f n :
  (0 <= n < 10 ^ Z.of_nat f)%Z -> (n <= max16)%Z ->
  uint_loop 10 true cutoff10 max16 (utoa f n []) 0 false = (n, None, false).
Proof.
  revert n. induction f as [|f IH]; intros n Hn Hm; [simpl in *; f_equal; f_equal; lia|].
  rewrite utoa_S. destruct (n <? 10)%Z eqn:E.
  - apply Z.ltb_lt in E. rewrite uint_loop_dig by (rewrite ?Z.mod_small; lia).
    by rewrite Z.mod_small by lia.
  - apply Z.ltb_ge in E. rewrite Nat2Z.inj_succ, Z.pow_succ_r in Hn by lia.
    rewrite uint_loop_app, IH.
    + rewrite uint_loop_dig.
      * f_equal. f_equal. pose proof (Z.div_mod n 10). lia.
      * apply Z.div_pos; lia.
      * apply Z.mod_pos_bound. lia.
      * pose proof (Z.div_mod n 10). lia.
    + split; [apply Z.div_pos; lia|apply Z.div_lt_upper_bound; lia].
    + apply Z.div_le_upper_bound; [lia|]. unfold max16 in *. lia.
Qed.

(** [ParseInt] with the parser's base 0 and size 16 reads back the
    decimal form of every number in [0, 32767]. *)
Lemma ParseInt_FormatInt n :
  (0 <= n <= 32767)%Z -> ParseInt (FormatInt n) 0 16 = (n, None).
Proof.
  intros Hn. unfold FormatInt. rewrite (proj2 (Z.ltb_ge n 0)) by lia.
  rewrite Z.abs_eq by lia. cbv iota. rewrite app_nil_l.
  destruct (decide (n = 0)%Z) as [->|Hn0]; [reflexivity|].
  destruct (utoa_head 20 n) as (c & t & Ht & Hc); [simpl; lia|].
  pose proof (utoa_digits 20 n ltac:(lia)) as Hdig. rewrite Ht in Hdig |- *.
  apply Forall_cons in Hdig as [Hcd _]. unfold is_dec_digit in Hcd.
  apply andb_true_iff in Hcd as [Hc1 Hc2]. apply Nat.leb_le in Hc1, Hc2.
  unfold ParseInt. rewrite list_ascii_of_string_of_list_ascii.
  rewrite (proj2 (Nat.eqb_neq (code c) 43)), (proj2 (Nat.eqb_neq (code c) 45)) by lia.
  unfold ParseUint. simpl. rewrite (proj2 (Nat.eqb_neq (code c) 48)) by done.
  change (maxUint64 / 10 + 1)%Z with cutoff10. change (2 ^ 16 - 1)%Z with max16.
  rewrite <- Ht, uint_loop_utoa by (unfold max16; simpl; lia). simpl.
  rewrite (proj2 (Z.leb_gt _ _)) by lia. done.
Qed.

(** The value of the octal digits [ds], most significant first, read
    after the value [v]. *)
Definition octal_value (v : Z) (ds : list Z) : Z := fold_left (fun n d => n * 8 + d)%Z ds v.

Lemma octal_value_ge v ds :
  (0 <= v)%Z -> Forall (fun d => 0 <= d < 8)%Z ds -> (v <= octal_value v ds)%Z.
Proof.
  revert v. induction ds as [|d ds IH]; intros v Hv Hds; simpl; [lia|].
  apply Forall_cons in Hds as [Hd Hds]. etransitivity; [|apply IH; [lia|done]]. lia.
Qed.

Lemma uint_loop_octal v ds :
  (0 <= v)%Z -> Forall (fun d => 0 <= d < 8)%Z ds -> (octal_value v ds <= max16)%Z ->
  uint_loop 8 true (cutoff 8) max16 (dig <$> ds) v false = (octal_value v ds, None, false).
Proof.
  revert v. induction ds as [|d ds IH]; intros v Hv Hds Hm; [done|].
  apply Forall_cons in Hds as [Hd Hds]. simpl in Hm.
  pose proof (octal_value_ge (v * 8 + d) ds ltac:(lia) Hds).
  change (dig <$> d :: ds) with ([dig d] ++ (dig <$> ds)).
  rewrite uint_loop_app, uint_loop_dig_base by lia. apply IH; [lia|done|done].
Qed.

(** Go's [lower] leaves a digit byte as it is. *)
Lemma lower_dig d : (0 <= d < 10)%Z -> lower (dig d) = code (dig d).
Proof.
  intros Hd. assert (d = 0 \/ d = 1 \/ d = 2 \/ d = 3 \/ d = 4 \/ d = 5 \/ d = 6 \/ d = 7 \/
    d = 8 \/ d = 9)%Z as Hc by lia.
  repeat destruct Hc as [->|Hc]; [reflexivity..|subst; reflexivity].
Qed.

(** [ParseInt] with the parser's base 0 and size 16 reads a leading
    zero as the octal prefix: "0" followed by octal digits is their octal
    value, when it is at most 32767. *)
Lemma ParseInt_octal ds :
  Forall (fun d => 0 <= d < 8)%Z ds -> (octal_value 0 ds <= 32767)%Z ->
  ParseInt (String "0" (string_of_list_ascii (dig <$> ds))) 0 16 = (octal_value 0 ds, None).
Proof.
  intros Hds Hm. unfold ParseInt. cbn [list_ascii_of_string].
  rewrite list_ascii_of_string_of_list_ascii. unfold ParseUint.
  assert (Hpick : forall c1 t, dig <$> ds = c1 :: t ->
    ((if (3 <=? length ("0"%char :: c1 :: t)) && (lower c1 =? 98) then (2%Z, t)
     else if (3 <=? length ("0"%char :: c1 :: t)) && (lower c1 =? 111) then (8%Z, t)
     else if (3 <=? length ("0"%char :: c1 :: t)) && (lower c1 =? 120) then (16%Z, t)
     else (8%Z, c1 :: t)) = (8%Z, c1 :: t))%nat).
  { intros c1 t Ht. destruct ds as [|d ds]; [done|]. injection Ht as <- _.
    apply Forall_cons in Hds as [Hd _].
    rewrite lower_dig, code_dig by lia.
    rewrite (proj2 (Nat.eqb_neq _ 98)), (proj2 (Nat.eqb_neq _ 111)), (proj2 (Nat.eqb_neq _ 120))
      by lia.
    by rewrite !andb_false_r. }
  destruct (dig <$> ds) as [|c1 t] eqn:Ht.
  - cbn. destruct ds; [reflexivity|done].
  - change (code "0"%char) with 48%nat. cbn -[uint_loop lower length Nat.leb].
    rewrite (Hpick c1 t eq_refl). change (code "0"%char) with 48%nat. cbn -[uint_loop].
    change (maxUint64 / 8 + 1)%Z with (cutoff 8). change (2 ^ 16 - 1)%Z with max16.
    rewrite <- Ht, uint_loop_octal by (unfold max16; lia || done). cbn -[octal_value].
    rewrite (proj2 (Z.leb_gt _ _)) by lia. done.
Qed.

(** The decimal form of a non-negative number is made of digit bytes:
    no white space and none of the parser's delimiters. *)
Lemma FormatInt_digits n :
  (0 <= n)%Z -> Forall (fun c => is_dec_digit c = true) (list_ascii_of_string (FormatInt n)).
Proof.
  intros Hn. unfold FormatInt. rewrite (proj2 (Z.ltb_ge n 0)), Z.abs_eq by lia.
  cbv iota. rewrite app_nil_l, list_ascii_of_string_of_list_ascii. by apply utoa_digits.
Qed.

Lemma digit_not_delim c :
  is_dec_digit c = true -> c ∉ ["|"; ":"; "-"]%char.
Proof.
  unfold is_dec_digit. intros Hd.
  apply andb_true_iff in Hd as [H1 H2]. apply Nat.leb_le in H1, H2.
  intros Hin. repeat (apply elem_of_cons in Hin as [->|Hin]; [cbv in H1, H2; lia|]).
  by apply not_elem_of_nil in Hin.
Qed.

Lemma trim_left_keep sp2 sp3 c t :
  asciiSpace c = false -> (forall c2, sp2 c c2 = false) -> (forall c2 c3, sp3 c c2 c3 = false) ->
  trim_left_with sp2 sp3 (c :: t) = c :: t.
Proof.
  intros H1 H2 H3. simpl. rewrite H1.
  destruct t as [|c2 [|c3 t]]; [done| |]; rewrite H2; [done|]. by rewrite H3.
Qed.

(** A digit byte starts and ends no white-space rune. *)
Lemma digit_not_space c :
  is_dec_digit c = true ->
  asciiSpace c = false /\ (forall x, space2 c x = false) /\ (forall x, space2 x c = false) /\
  (forall x y, space3 c x y = false) /\ (forall x y, space3 x y c = false).
Proof.
  unfold is_dec_digit. intros Hd. apply andb_true_iff in Hd as [H1 H2].
  apply Nat.leb_le in H1, H2.
  destruct (Nat.le_exists_sub 48 (code c)) as (k & Hk & _); [lia|].
  assert (Hk10 : (k < 10)%nat) by lia.
  unfold asciiSpace, space2, space3. rewrite Hk. clear -Hk10.
  do 10 (destruct k as [|k];
    [repeat split; intros; simpl; do 3 (rewrite ?andb_false_r, ?orb_false_r; simpl);
     reflexivity|]).
  lia.
Qed.

(** A string of digit bytes holds none of the parser's delimiters. *)
Lemma digits_not_delim s c :
  Forall (fun c => is_dec_digit c = true) (list_ascii_of_string s) ->
  c ∈ ["|"; ":"; "-"]%char -> c ∉ list_ascii_of_string s.
Proof.
  intros Hd Hc Hin. rewrite Forall_forall in Hd. by apply (digit_not_delim c (Hd c Hin)).
Qed.

Lemma digits_not_in s c :
  Forall (fun c => is_dec_digit c = true) (list_ascii_of_string s) ->
  is_dec_digit c = false -> c ∉ list_ascii_of_string s.
Proof.
  intros Hd Hc Hin. rewrite Forall_forall in Hd. specialize (Hd c Hin). congruence.
Qed.

Lemma FormatInt_not_delim n c :
  (0 <= n)%Z -> c ∈ ["|"; ":"; "-"]%char -> c ∉ list_ascii_of_string (FormatInt n).
Proof. intros Hn. apply digits_not_delim, FormatInt_digits, Hn. Qed.

(** "0" followed by octal digits is made of digit bytes. *)
Lemma octal_digits ds :
  Forall (fun d => 0 <= d < 8)%Z ds ->
  Forall (fun c => is_dec_digit c = true)
    (list_ascii_of_string (String "0" (string_of_list_ascii (dig <$> ds)))).
Proof.
  intros Hds. cbn [list_ascii_of_string]. rewrite list_ascii_of_string_of_list_ascii.
  constructor; [reflexivity|]. apply Forall_fmap. eapply Forall_impl; [exact Hds|].
  intros d Hd. apply is_dec_digit_dig. cbv beta in Hd. lia.
Qed.

(** A string of digits is its own [TrimSpace]. *)
Lemma TrimSpace_digits s :
  Forall (fun c => is_dec_digit c = true) (list_ascii_of_string s) -> TrimSpace s = s.
Proof.
  intros Hd. unfold TrimSpace, TrimLeftSpace, TrimRightSpace.
  destruct (list_ascii_of_string s) as [|c t] eqn:Hs.
  { simpl. by rewrite <- (string_of_list_ascii_of_string s), Hs. }
  pose proof (Forall_inv Hd) as Hc. destruct (digit_not_space c Hc) as (? & ? & _ & ? & _).
  rewrite trim_left_keep by done.
  destruct (reverse (c :: t)) as [|c' t'] eqn:Hr.
  { apply (f_equal length) in Hr. rewrite length_reverse in Hr. done. }
  assert (Hc' : is_dec_digit c' = true).
  { apply Forall_reverse in Hd. rewrite Hr in Hd. by apply Forall_inv in Hd. }
  destruct (digit_not_space c' Hc') as (? & _ & ? & _ & ?).
  rewrite trim_left_keep by auto. rewrite <- Hr, reverse_involutive, <- Hs.
  apply string_of_list_ascii_of_string.
Qed.

End StringLemmas.

End GoStrings.
