(* ===== verification/GoTime.v ===== *)
(** * Go's time.Time and time.Parse for the program's layout

    A [time.Time] produced by [time.Parse] without a zone, or the zero
    [time.Time{}], is the instant it denotes: seconds since 1 January of
    year 1, 00:00:00 UTC, and nanoseconds (the [sec()] and [nsec()] of Go's
    representation; the location is UTC in both cases).  [Before] and
    [After] compare instants as Go does.  [parse_time] is [time.Parse]
    specialised to the layout "2006-01-02 15:04:05.999" of main.go 14:
    the chunks stdLongYear, "-", stdZeroMonth, "-", stdZeroDay, " ",
    stdHour, ":", stdZeroMinute, ":", stdZeroSecond, stdFracSecond9 with
    Go's [getnum], [skip] (a space of the layout matches any run of
    spaces), range checks, the extra-text check and the final day check. *)

From S2P Require Import Prelude GoStrings.
Import GoStrings.

#[local] Set Warnings "-clear-no-such-hyp".

Module GoTime.

#[local] Open Scope Z_scope.

Record Time : Type := mkTime {
  t_sec : Z;
  t_nsec : Z
}.

#[export] Instance Time_eq_dec : EqDecision Time.
Proof. solve_decision. Defined.

(** [time.Time{}]: January 1, year 1, 00:00:00.000000000 UTC. *)
Definition zeroTime : Time := mkTime 0 0.

(** [t.Before(u)]. *)
Definition Before (t u : Time) : bool :=
  (t_sec t <? t_sec u) || ((t_sec t =? t_sec u) && (t_nsec t <? t_nsec u)).

(** [t.After(u)]. *)
Definition After (t u : Time) : bool := Before u t.

(** [t.Equal(u)]: the same instant. *)
Definition Equal (t u : Time) : bool := (t_sec t =? t_sec u) && (t_nsec t =? t_nsec u).

(** ** Calendar *)

Definition isLeap (year : Z) : bool :=
  (year mod 4 =? 0) && (negb (year mod 100 =? 0) || (year mod 400 =? 0)).

(** Go's [daysBefore] table: days before the first of each month in a
    non-leap year. *)
Definition daysBefore (month : Z) : Z :=
  nth (Z.to_nat month) [0; 0; 31; 59; 90; 120; 151; 181; 212; 243; 273; 304; 334; 365] 0.

Definition daysIn (month year : Z) : Z :=
  if (month =? 2) && isLeap year then 29 else daysBefore (month + 1) - daysBefore month.

(** Days from 1 January of year 1 to the given date (proleptic
    Gregorian calendar, floor division for years before 1). *)
Definition days_since_year1 (year month day : Z) : Z :=
  let y := year - 1 in
  365 * y + y / 4 - y / 100 + y / 400 + daysBefore month
  + (if isLeap year && (3 <=? month) then 1 else 0) + day - 1.

(** [time.Date(year, month, day, hour, min, sec, nsec, time.UTC)] for
    fields in range. *)
Definition Date (year month day hour min sec nsec : Z) : Time :=
  mkTime (days_since_year1 year month day * 86400 + hour * 3600 + min * 60 + sec) nsec.

(** ** The pieces of [time.Parse] *)

Definition dval (c : ascii) : Z := Z.of_nat (code c) - 48.

(** [getnum(s, fixed)]: one or two digits, exactly two when [fixed]. *)
Definition getnum (s : list ascii) (fixed : bool) : option (Z * list ascii) :=
  match s with
  | c0 :: rest =>
      if negb (is_dec_digit c0) then None else
      match rest with
      | c1 :: rest' =>
          if is_dec_digit c1 then Some (dval c0 * 10 + dval c1, rest')
          else if fixed then None else Some (dval c0, rest)
      | [] => if fixed then None else Some (dval c0, rest)
      end
  | [] => None
  end.

Definition is_space_char (c : ascii) : bool := (code c =? 32)%nat.

(** [cutspace]: drop leading spaces. *)
Fixpoint cutspace (s : list ascii) : list ascii :=
  match s with
  | c :: t => if is_space_char c then cutspace t else s
  | [] => []
  end.

(** [skip(value, prefix)]; [cut] records that the spaces at the front of
    the remaining prefix were already cut. *)
Fixpoint skip_go (cut : bool) (prefix value : list ascii) : option (list ascii) :=
  match prefix with
  | [] => Some value
  | p :: prefix' =>
      if is_space_char p then
        if cut then skip_go true prefix' value
        else match value with
             | v :: _ => if is_space_char v then skip_go true prefix' (cutspace value) else None
             | [] => skip_go true prefix' (cutspace value)
             end
      else match value with
           | v :: value' => if Ascii.eqb v p then skip_go false prefix' value' else None
           | [] => None
           end
  end.

Definition skip (value : list ascii) (prefix : string) : option (list ascii) :=
  skip_go false (list_ascii_of_string prefix) value.

(** stdLongYear: four bytes, the first a digit, read by [atoi], which
    requires them all to be digits. *)
Definition parse_year (s : list ascii) : option (Z * list ascii) :=
  match s with
  | c0 :: c1 :: c2 :: c3 :: rest =>
      if forallb is_dec_digit [c0; c1; c2; c3]
      then Some (((dval c0 * 10 + dval c1) * 10 + dval c2) * 10 + dval c3, rest)
      else None
  | _ => None
  end.

Fixpoint digits_value (ds : list ascii) (acc : Z) : Z :=
  match ds with
  | [] => acc
  | d :: ds' => digits_value ds' (acc * 10 + dval d)
  end.

Fixpoint take_digits (s : list ascii) : list ascii :=
  match s with
  | c :: t => if is_dec_digit c then c :: take_digits t else []
  | [] => []
  end.

Definition commaOrPeriod (c : ascii) : bool := (code c =? 46)%nat || (code c =? 44)%nat.

(** stdFracSecond9: a '.' or ',' and at least one digit, else the
    fraction is omitted; all digits are consumed, the first nine count
    ([parseNanoseconds] scales to nanoseconds). *)
Definition parse_frac (s : list ascii) : Z * list ascii :=
  match s with
  | c0 :: c1 :: _ =>
      if commaOrPeriod c0 && is_dec_digit c1 then
        let ds := take_digits (tail s) in
        let nbytes := Nat.min (1 + length ds) 10 in
        (digits_value (take (nbytes - 1) ds) 0 * 10 ^ Z.of_nat (10 - nbytes),
         drop (1 + length ds) s)
      else (0, s)
  | _ => (0, s)
  end.

Definition guard (b : bool) : option unit := if b then Some tt else None.

(** [time.Parse("2006-01-02 15:04:05.999", value)]: [None] for any
    parse error. *)
Definition parse_time (value : string) : option Time :=
  let v := list_ascii_of_string value in
  '(year, v) ← parse_year v;
  v ← skip v "-";
  '(month, v) ← getnum v true;
  guard ((1 <=? month) && (month <=? 12));;
  v ← skip v "-";
  '(day, v) ← getnum v true;
  v ← skip v " ";
  '(hour, v) ← getnum v false;
  guard ((0 <=? hour) && (hour <? 24));;
  v ← skip v ":";
  '(min, v) ← getnum v true;
  guard ((0 <=? min) && (min <? 60));;
  v ← skip v ":";
  '(sec, v) ← getnum v true;
  guard ((0 <=? sec) && (sec <? 60));;
  let '(nsec, v) := parse_frac v in
  guard (bool_decide (v = []));;
  guard ((1 <=? day) && (day <=? daysIn month year));;
  Some (Date year month day hour min sec nsec).

(** ** [Before] is a strict total order on instants *)

Section Order.

Lemma Before_spec t u :
  Before t u = true <->
  t_sec t < t_sec u \/ (t_sec t = t_sec u /\ t_nsec t < t_nsec u).
Proof.
  unfold Before. rewrite orb_true_iff, andb_true_iff, Z.ltb_lt, Z.eqb_eq, Z.ltb_lt.
  done.
Qed.

Lemma Before_irrefl t : Before t t = false.
Proof. apply not_true_iff_false. rewrite Before_spec. lia. Qed.

Lemma Before_trans t u w :
  Before t u = true -> Before u w = true -> Before t w = true.
Proof. rewrite !Before_spec. lia. Qed.

Lemma Before_asym t u : Before t u = true -> Before u t = false.
Proof. rewrite Before_spec. intros H. apply not_true_iff_false. rewrite Before_spec. lia. Qed.

Lemma Before_total t u :
  Before t u = false -> Before u t = false -> t = u.
Proof.
  rewrite <- !not_true_iff_false, !Before_spec. intros H1 H2.
  destruct t as [s1 n1], u as [s2 n2]; simpl in *. f_equal; lia.
Qed.

End Order.

#[export] Hint Resolve Before_irrefl Before_asym : loga.

(** ** Earliest and latest instants of a list *)

Section MinMax.

(** [t] is the earliest instant of [S]: no instant of [S] is before it. *)
Definition is_min_time (t : Time) (S : list Time) : Prop :=
  t ∈ S /\ forall x, x ∈ S -> Before x t = false.

(** [t] is the latest instant of [S]. *)
Definition is_max_time (t : Time) (S : list Time) : Prop :=
  t ∈ S /\ forall x, x ∈ S -> Before t x = false.

#[export] Instance is_min_time_proper t : Proper ((≡ₚ) ==> iff) (is_min_time t).
Proof.
  intros S1 S2 Hp. unfold is_min_time. setoid_rewrite Hp. done.
Qed.

#[export] Instance is_max_time_proper t : Proper ((≡ₚ) ==> iff) (is_max_time t).
Proof.
  intros S1 S2 Hp. unfold is_max_time. setoid_rewrite Hp. done.
Qed.

Lemma is_min_time_cons_elem t t0 S :
  t0 ∈ S -> is_min_time t (t0 :: S) <-> is_min_time t S.
Proof.
  intros H0. unfold is_min_time. split.
  - intros [Hin Hle]. split; [set_solver|]. intros x Hx. apply Hle. set_solver.
  - intros [Hin Hle]. split; [set_solver|]. intros x Hx. apply Hle. set_solver.
Qed.

Lemma is_max_time_cons_elem t t0 S :
  t0 ∈ S -> is_max_time t (t0 :: S) <-> is_max_time t S.
Proof.
  intros H0. unfold is_max_time. split.
  - intros [Hin Hle]. split; [set_solver|]. intros x Hx. apply Hle. set_solver.
  - intros [Hin Hle]. split; [set_solver|]. intros x Hx. apply Hle. set_solver.
Qed.

Lemma is_min_time_unique t1 t2 S : is_min_time t1 S -> is_min_time t2 S -> t1 = t2.
Proof.
  intros [H1 H1'] [H2 H2']. apply Before_total; [by apply H2'|by apply H1'].
Qed.

Lemma is_max_time_unique t1 t2 S : is_max_time t1 S -> is_max_time t2 S -> t1 = t2.
Proof.
  intros [H1 H1'] [H2 H2']. apply Before_total; [by apply H1'|by apply H2'].
Qed.

(** "Not before" is transitive (it is "at or after"). *)
Lemma not_Before_trans a b c :
  Before a b = false -> Before b c = false -> Before a c = false.
Proof. rewrite <- !not_true_iff_false, !Before_spec. lia. Qed.

(** A loop [if cur.After(x) { cur = x }] (resp. [cur.Before(x)]) over the
    instants [S] from [t0] ends with the earliest (resp. latest) instant
    of [t0 :: S]. *)
Lemma fold_min_time S t0 :
  is_min_time (fold_left (fun cur x => if After cur x then x else cur) S t0) (t0 :: S).
Proof.
  revert t0. induction S as [|x S IH]; intros t0; simpl.
  - split; [set_solver|]. intros y Hy. apply list_elem_of_singleton in Hy as ->.
    apply Before_irrefl.
  - set (t1 := if After t0 x then x else t0).
    assert (Ht1 : t1 ∈ [t0; x] /\ Before t0 t1 = false /\ Before x t1 = false).
    { unfold t1, After. destruct (Before x t0) eqn:E; repeat split; try set_solver;
        auto using Before_irrefl, Before_asym. }
    destruct (IH t1) as [Hin Hle]. split.
    + apply elem_of_cons in Hin as [->|Hin]; set_solver.
    + intros y Hy. apply elem_of_cons in Hy as [->|Hy];
        [|apply elem_of_cons in Hy as [->|Hy]]; try (apply Hle; set_solver).
      * apply (not_Before_trans _ t1); [apply Ht1|apply Hle; set_solver].
      * apply (not_Before_trans _ t1); [apply Ht1|apply Hle; set_solver].
Qed.

Lemma fold_max_time S t0 :
  is_max_time (fold_left (fun cur x => if Before cur x then x else cur) S t0) (t0 :: S).
Proof.
  revert t0. induction S as [|x S IH]; intros t0; simpl.
  - split; [set_solver|]. intros y Hy. apply list_elem_of_singleton in Hy as ->.
    apply Before_irrefl.
  - set (t1 := if Before t0 x then x else t0).
    assert (Ht1 : t1 ∈ [t0; x] /\ Before t1 t0 = false /\ Before t1 x = false).
    { unfold t1. destruct (Before t0 x) eqn:E; repeat split; try set_solver;
        auto using Before_irrefl, Before_asym. }
    destruct (IH t1) as [Hin Hle]. split.
    + apply elem_of_cons in Hin as [->|Hin]; set_solver.
    + intros y Hy. apply elem_of_cons in Hy as [->|Hy];
        [|apply elem_of_cons in Hy as [->|Hy]]; try (apply Hle; set_solver).
      * apply (not_Before_trans _ t1); [apply Hle; set_solver|apply Ht1].
      * apply (not_Before_trans _ t1); [apply Hle; set_solver|apply Ht1].
Qed.

End MinMax.

End GoTime.
