(* ===== verification/GoFormat.v ===== *)
(** * Go's time.Time.Format for the program's layout

    [Format] is [t.Format("2006-01-02 15:04:05.999")] (main.go 14, 195,
    196) for a [Time] in UTC: Go's [absDate] splits the days since
    1 January of year 1 into 400-, 100- and 4-year cycles and years, and
    the day of the year into month and day; [absClock] gives the time of
    day; [appendInt] writes a field zero-padded to its width; [formatNano]
    writes the first three digits of the nanoseconds without their
    trailing zeros, and nothing when they are all zero (stdFracSecond9).

    The theorems: [absDate] is the inverse of the calendar of [GoTime]
    (the year part by arithmetic on the cycles, the month part checked
    by evaluation on every day of a leap and a common year); [parse_time]
    reads back what [Format] writes, the instant truncated to the
    millisecond, for the years 0 to 9999 that four digits hold; a time
    with no milliseconds is written without a fraction. *)

From S2P Require Import Prelude GoStrings GoTime.
Import GoStrings GoTime.

Module GoFormat.

#[local] Open Scope Z_scope.

(** ** The calendar date of a day *)

Definition secondsPerDay : Z := 86400.
Definition daysPer400Years : Z := 365 * 400 + 97.
Definition daysPer100Years : Z := 365 * 100 + 24.
Definition daysPer4Years : Z := 365 * 4 + 1.

(** The year part of Go's [absDate]: the year of day [d] (days since
    1 January of year 1) and the day of that year, from 0. *)
Definition absYear (d : Z) : Z * Z :=
  let n := d / daysPer400Years in
  let y := 400 * n in
  let d := d - daysPer400Years * n in
  let n := d / daysPer100Years in
  let n := n - Z.shiftr n 2 in
  let y := y + 100 * n in
  let d := d - daysPer100Years * n in
  let n := d / daysPer4Years in
  let y := y + 4 * n in
  let d := d - daysPer4Years * n in
  let n := d / 365 in
  let n := n - Z.shiftr n 2 in
  let y := y + n in
  let d := d - 365 * n in
  (y + 1, d).

(** The month part of [absDate]: month and day of the day [yday] of a
    year.  Go's [daysBefore[i]] is [daysBefore (i + 1)] of [GoTime]. *)
Definition absMonthDay (leap : bool) (yday : Z) : Z * Z :=
  let day := yday in
  if leap && (day =? 31 + 29 - 1) then (2, 29) else
  let day := if leap && (31 + 29 - 1 <? day) then day - 1 else day in
  let month := day / 31 in
  let end_ := daysBefore (month + 2) in
  let '(month, begin) :=
    if end_ <=? day then (month + 1, end_) else (month, daysBefore (month + 1)) in
  (month + 1, day - begin + 1).

(** [absDate]: year, month and day of day [d]. *)
Definition absDate (d : Z) : Z * Z * Z :=
  let '(year, yday) := absYear d in
  let '(month, day) := absMonthDay (isLeap year) yday in
  (year, month, day).

(** [absClock]: hour, minute and second of an instant. *)
Definition absClock (sec : Z) : Z * Z * Z :=
  let sec := sec mod secondsPerDay in
  let hour := sec / 3600 in
  let sec := sec - hour * 3600 in
  let min := sec / 60 in
  let sec := sec - min * 60 in
  (hour, min, sec).

(** [t.Year()]. *)
Definition Year (t : Time) : Z := (absDate (t_sec t / secondsPerDay)).1.1.

(** ** Writing the fields *)

(** The low [k] decimal digits of [u], most significant first, in front
    of [acc]: the buffer loop of [formatNano], and [appendInt]'s output
    for a number that fits its width. *)
Fixpoint fixed_digits (k : nat) (u : Z) (acc : list ascii) : list ascii :=
  match k with
  | O => acc
  | S k' => fixed_digits k' (u / 10) (dig (u mod 10) :: acc)
  end.

(** [appendInt(b, x, width)]: the sign, zeros up to the width, the
    digits. *)
Definition appendInt (x : Z) (width : nat) : list ascii :=
  let ds := utoa 20 (Z.abs x) [] in
  (if x <? 0 then ["-"%char] else []) ++ repeat "0"%char (width - length ds) ++ ds.

(** The loop [for n > 0 && buf[n-1] == '0' { n-- }]. *)
Fixpoint trim_zeros (n : nat) (buf : list ascii) : nat :=
  match n with
  | O => O
  | S n' => if Ascii.eqb (nth n' buf "0"%char) "0"%char then trim_zeros n' buf else n
  end.

(** [formatNano(b, nanosec, stdFracSecond9 with 3 digits)]. *)
Definition formatNano (nanosec : Z) : list ascii :=
  let buf := fixed_digits 9 nanosec [] in
  let n := trim_zeros 3 buf in
  if (n =? 0)%nat then [] else "."%char :: take n buf.

(** [t.Format("2006-01-02 15:04:05.999")]. *)
Definition Format (t : Time) : string :=
  let '(year, month, day) := absDate (t_sec t / secondsPerDay) in
  let '(hour, min, sec) := absClock (t_sec t) in
  string_of_list_ascii
    (appendInt year 4 ++ "-"%char :: appendInt month 2 ++ "-"%char :: appendInt day 2 ++
     " "%char :: appendInt hour 2 ++ ":"%char :: appendInt min 2 ++ ":"%char ::
     appendInt sec 2 ++ formatNano (t_nsec t)).

(** ** [absDate] inverts the calendar *)

Section Calendar.

(** The year and day of the year of day [d]: [d] is the day of
    1 January of that year plus the day of the year, which is less than
    the length of the year. *)
Lemma absYear_spec d :
  let '(y, yd) := absYear d in
  days_since_year1 y 1 1 + yd = d /\ 0 <= yd < 365 + (if isLeap y then 1 else 0).
Proof.
  unfold absYear; cbv zeta. rewrite !Z.shiftr_div_pow2 by lia. change (2 ^ 2) with 4.
  remember (d / daysPer400Years) as q eqn:Hq. remember (d - daysPer400Years * q) as r eqn:Hr.
  remember (r / daysPer100Years) as n1 eqn:Hn1. remember (n1 - n1 / 4) as a eqn:Ha.
  remember (r - daysPer100Years * a) as r1 eqn:Hr1. remember (r1 / daysPer4Years) as b eqn:Hb.
  remember (r1 - daysPer4Years * b) as r2 eqn:Hr2. remember (r2 / 365) as n3 eqn:Hn3.
  remember (n3 - n3 / 4) as c eqn:Hc.
  unfold daysPer400Years, daysPer100Years, daysPer4Years, days_since_year1, isLeap in *.
  cbn [daysBefore nth Z.to_nat]. Z.to_euclidean_division_equations.
  repeat case_match; lia.
Qed.

(** The month part on every day of a year, checked by evaluation. *)
Definition absMonthDay_ok (leap : bool) (yd : Z) : bool :=
  let '(m, dd) := absMonthDay leap yd in
  (1 <=? m) && (m <=? 12) && (1 <=? dd) &&
  (dd <=? (if (m =? 2) && leap then 29 else daysBefore (m + 1) - daysBefore m)) &&
  (daysBefore m + (if leap && (3 <=? m) then 1 else 0) + dd - 1 =? yd).

Lemma absMonthDay_spec (leap : bool) (yd : Z) :
  0 <= yd < 365 + (if leap then 1 else 0) ->
  let '(m, dd) := absMonthDay leap yd in
  1 <= m <= 12 /\ 1 <= dd <= (if (m =? 2) && leap then 29 else daysBefore (m + 1) - daysBefore m) /\
  daysBefore m + (if leap && (3 <=? m) then 1 else 0) + dd - 1 = yd.
Proof.
  intros Hyd.
  assert (Hc : ((365 + (if leap then 1 else 0) <=? yd) || absMonthDay_ok leap yd) = true).
  { apply (forall_range_spec 9 0
      (fun yd => (365 + (if leap then 1 else 0) <=? yd) || absMonthDay_ok leap yd)).
    - by destruct leap; vm_compute.
    - change (2 ^ Z.of_nat 9) with 512. destruct leap; lia. }
  assert (Hn : (365 + (if leap then 1 else 0) <=? yd) = false) by (apply Z.leb_gt; destruct leap; lia).
  rewrite Hn in Hc.
  unfold absMonthDay_ok in Hc. destruct (absMonthDay leap yd) as [m dd].
  cbv iota beta in Hc. rewrite orb_false_l, !andb_true_iff, !Z.leb_le, Z.eqb_eq in Hc. lia.
Qed.

(** [absDate d] is a valid date whose day number is [d]. *)
Lemma absDate_spec d :
  let '(y, m, dd) := absDate d in
  1 <= m <= 12 /\ 1 <= dd <= daysIn m y /\ days_since_year1 y m dd = d.
Proof.
  unfold absDate. pose proof (absYear_spec d) as Hy.
  destruct (absYear d) as [y yd]. destruct Hy as [Hd Hyd].
  pose proof (absMonthDay_spec (isLeap y) yd Hyd) as Hm.
  destruct (absMonthDay (isLeap y) yd) as [m dd]. unfold daysIn.
  rewrite <- Hd. unfold days_since_year1. change (daysBefore 1) with 0.
  change (3 <=? 1) with false. rewrite andb_false_r. lia.
Qed.

(** The time of day: hour, minute and second in range, and the instant
    is its day's first second plus them. *)
Lemma absClock_spec s :
  let '(h, mi, se) := absClock s in
  0 <= h < 24 /\ 0 <= mi < 60 /\ 0 <= se < 60 /\
  s = s / secondsPerDay * secondsPerDay + h * 3600 + mi * 60 + se.
Proof.
  unfold absClock, secondsPerDay; cbv zeta. Z.to_euclidean_division_equations. lia.
Qed.

End Calendar.

(** ** Writing and reading the digits *)

Section Digits.

Lemma fixed_digits_app k u acc : fixed_digits k u acc = fixed_digits k u [] ++ acc.
Proof.
  revert u acc. induction k as [|k IH]; intros u acc; simpl; [done|].
  rewrite IH, (IH _ [_]). by rewrite <- app_assoc.
Qed.

Lemma fixed_digits_length k u : length (fixed_digits k u []) = k.
Proof.
  revert u. induction k as [|k IH]; intros u; simpl; [done|].
  rewrite fixed_digits_app, length_app, IH. simpl. lia.
Qed.

Lemma fixed_digits_zero k : fixed_digits k 0 [] = repeat "0"%char k.
Proof.
  induction k as [|k IH]; [done|]. cbn [fixed_digits]. rewrite fixed_digits_app.
  change (0 / 10) with 0. change (dig (0 mod 10)) with "0"%char.
  rewrite IH. symmetry. apply repeat_cons.
Qed.

(** The low [b + k] digits are the low [k] digits of [u / 10^b] followed
    by the low [b] digits of [u]. *)
Lemma fixed_digits_split b k u :
  fixed_digits (b + k) u [] = fixed_digits k (u / 10 ^ Z.of_nat b) [] ++ fixed_digits b u [].
Proof.
  rewrite <- fixed_digits_app. generalize (@nil ascii). revert u.
  induction b as [|b IH]; intros u acc; simpl; [by rewrite Z.div_1_r|].
  rewrite IH, Z.div_div by lia. do 2 f_equal. rewrite Nat2Z.inj_succ, Z.pow_succ_r by lia. lia.
Qed.

(** [utoa]'s digits padded with zeros to width [k] are the [k] low
    digits, for a number of at most [k] digits. *)
Lemma pad_utoa k f x :
  (1 <= k <= f)%nat -> 0 <= x < 10 ^ Z.of_nat k ->
  repeat "0"%char (k - length (utoa f x [])) ++ utoa f x [] = fixed_digits k x [].
Proof.
  revert f x. induction k as [|k IH]; intros f x Hk Hx; [lia|].
  destruct f as [|f]; [lia|]. rewrite utoa_S. simpl fixed_digits. rewrite fixed_digits_app.
  destruct (x <? 10) eqn:E.
  - rewrite Z.div_small by lia. rewrite fixed_digits_zero. simpl.
    by replace (k - 0)%nat with k by lia.
  - apply Z.ltb_ge in E. destruct k as [|k]; [simpl in Hx; lia|].
    rewrite length_app. simpl length. rewrite <- (IH f (x / 10)); [|lia|].
    + rewrite app_assoc. do 2 f_equal. f_equal. lia.
    + split; [apply Z.div_pos; lia|]. apply Z.div_lt_upper_bound; [lia|].
      rewrite Nat2Z.inj_succ, Z.pow_succ_r in Hx by lia. lia.
Qed.

(** [appendInt] of a number that fits the width writes its low digits. *)
Lemma appendInt_fixed x k :
  (1 <= k <= 20)%nat -> 0 <= x < 10 ^ Z.of_nat k -> appendInt x k = fixed_digits k x [].
Proof.
  intros Hk Hx. unfold appendInt. rewrite (proj2 (Z.ltb_ge x 0)), Z.abs_eq by lia.
  by apply pad_utoa.
Qed.

Lemma dval_dig d : 0 <= d < 10 -> dval (dig d) = d.
Proof. intros Hd. unfold dval. rewrite code_dig by done. lia. Qed.

Lemma is_space_char_dig d : 0 <= d < 10 -> is_space_char (dig d) = false.
Proof. intros Hd. unfold is_space_char. rewrite code_dig by done. apply Nat.eqb_neq. lia. Qed.

Lemma fixed_digits_2 x : fixed_digits 2 x [] = [dig (x / 10 mod 10); dig (x mod 10)].
Proof. reflexivity. Qed.

(** Go's [getnum] reads back a two-digit field. *)
Lemma getnum_fixed2 x fixed rest :
  0 <= x < 100 -> getnum (fixed_digits 2 x [] ++ rest) fixed = Some (x, rest).
Proof.
  intros Hx. rewrite fixed_digits_2.
  assert (H1 : 0 <= x / 10 mod 10 < 10) by (apply Z.mod_pos_bound; lia).
  assert (H2 : 0 <= x mod 10 < 10) by (apply Z.mod_pos_bound; lia).
  cbn [app]. unfold getnum. rewrite !is_dec_digit_dig by done. cbn [negb].
  rewrite !dval_dig by done. do 2 f_equal. Z.to_euclidean_division_equations; lia.
Qed.

(** stdLongYear reads back a four-digit year. *)
Lemma parse_year_fixed4 y rest :
  0 <= y < 10000 -> parse_year (fixed_digits 4 y [] ++ rest) = Some (y, rest).
Proof.
  intros Hy. change (fixed_digits 4 y []) with
    [dig (y / 10 / 10 / 10 mod 10); dig (y / 10 / 10 mod 10); dig (y / 10 mod 10); dig (y mod 10)].
  assert (Hd : forall z, 0 <= z mod 10 < 10) by (intros; apply Z.mod_pos_bound; lia).
  cbn [app]. unfold parse_year. cbn [forallb]. rewrite !is_dec_digit_dig by done. cbn [andb].
  rewrite !dval_dig by done. do 2 f_equal. Z.to_euclidean_division_equations; lia.
Qed.

(** A layout space skips the value's space; a digit stops [cutspace]. *)
Lemma skip_space_fixed2 x rest :
  skip (" "%char :: fixed_digits 2 x [] ++ rest) " " = Some (fixed_digits 2 x [] ++ rest).
Proof.
  rewrite fixed_digits_2. unfold skip. cbn [app list_ascii_of_string skip_go].
  change (is_space_char " ") with true. cbn [cutspace].
  by rewrite is_space_char_dig by (apply Z.mod_pos_bound; lia).
Qed.

Lemma trim_zeros_app n p s :
  (n <= length p)%nat -> trim_zeros n (p ++ s) = trim_zeros n p.
Proof.
  induction n as [|n IH]; intros Hn; simpl; [done|].
  rewrite app_nth1 by lia. by rewrite IH by lia.
Qed.

Lemma trim_zeros_le n buf : (trim_zeros n buf <= n)%nat.
Proof. induction n as [|n IH]; simpl; [done|]. case_match; lia. Qed.

(** [formatNano] only reads the milliseconds. *)
Lemma formatNano_ms ns :
  formatNano ns =
  let buf := fixed_digits 3 (ns / 10 ^ 6) [] in
  let n := trim_zeros 3 buf in
  if (n =? 0)%nat then [] else "."%char :: take n buf.
Proof.
  unfold formatNano. rewrite (fixed_digits_split 6 3). change (Z.of_nat 6) with 6. cbv zeta.
  rewrite trim_zeros_app by (rewrite fixed_digits_length; lia). case_match; [done|].
  rewrite take_app_le; [done|]. rewrite fixed_digits_length. apply trim_zeros_le.
Qed.

(** stdFracSecond9 reads back the fraction [formatNano] writes: the
    milliseconds, checked by evaluation on all thousand of them. *)
Definition frac_ok (ms : Z) : bool :=
  let buf := fixed_digits 3 ms [] in
  let n := trim_zeros 3 buf in
  match parse_frac (if (n =? 0)%nat then [] else "."%char :: take n buf) with
  | (v, []) => v =? ms * 10 ^ 6
  | _ => false
  end.

Lemma parse_frac_formatNano ns :
  0 <= ns < 10 ^ 9 -> parse_frac (formatNano ns) = (ns / 10 ^ 6 * 10 ^ 6, []).
Proof.
  intros Hns. rewrite formatNano_ms.
  assert (Hms : 0 <= ns / 10 ^ 6 < 1000) by (Z.to_euclidean_division_equations; lia).
  assert (Hc : ((1000 <=? ns / 10 ^ 6) || frac_ok (ns / 10 ^ 6)) = true).
  { apply (forall_range_spec 10 0 (fun ms => (1000 <=? ms) || frac_ok ms)); [by vm_compute|].
    change (2 ^ Z.of_nat 10) with 1024. lia. }
  rewrite (proj2 (Z.leb_gt _ _)), orb_false_l in Hc by lia. unfold frac_ok in Hc.
  cbv zeta in Hc |- *. destruct (parse_frac _) as [v [|c l]]; [|done].
  apply Z.eqb_eq in Hc. by subst.
Qed.
End Digits.


(** ** [parse_time] reads back what [Format] writes

    For a time of year 0 to 9999 with nanoseconds in range, parsing the
    formatted text gives the same second and the nanoseconds truncated
    to the millisecond: [Format] and [parse_time] use the same layout,
    and the layout's ".999" keeps three digits of the fraction. *)

Section RoundTrip.

Lemma skip_char c rest : is_space_char c = false -> skip (c :: rest) (String c EmptyString) = Some rest.
Proof. intros Hc. unfold skip. simpl. rewrite Hc, Ascii.eqb_refl. done. Qed.

Lemma guard_true b : b = true -> guard b = Some tt.
Proof. by intros ->. Qed.

Lemma daysIn_le_31 m y : 1 <= m <= 12 -> daysIn m y <= 31.
Proof.
  intros Hm. unfold daysIn. destruct (_ && _); [lia|].
  assert (m = 1 \/ m = 2 \/ m = 3 \/ m = 4 \/ m = 5 \/ m = 6 \/ m = 7 \/ m = 8 \/
          m = 9 \/ m = 10 \/ m = 11 \/ m = 12) as Hc by lia.
  repeat destruct Hc as [->|Hc]; [..|subst m]; vm_compute; congruence.
Qed.

(** [time.Parse] with the program's layout reads back what
    [Format] writes with the same layout: for a time of year 0 to 9999
    (Go's [t.Year()]) with nanoseconds in [0, 10^9), the same instant with
    the nanoseconds truncated to the millisecond. *)
Lemma parse_time_Format t :
  0 <= t_nsec t < 10 ^ 9 -> 0 <= Year t <= 9999 ->
  parse_time (Format t) = Some (mkTime (t_sec t) (t_nsec t / 10 ^ 6 * 10 ^ 6)).
Proof.
  intros Hns Hy. unfold Format, Year in *.
  pose proof (absDate_spec (t_sec t / secondsPerDay)) as Hd.
  destruct (absDate _) as [[y m] dd]. simpl in Hy. destruct Hd as (Hm & Hdd & Hdays).
  pose proof (absClock_spec (t_sec t)) as Hc.
  destruct (absClock _) as [[h mi] se]. destruct Hc as (Hh & Hmi & Hse & Ht).
  pose proof (daysIn_le_31 m y Hm).
  rewrite !appendInt_fixed by (change (10 ^ Z.of_nat 2) with 100; change (10 ^ Z.of_nat 4) with 10000; lia).
  unfold parse_time. rewrite list_ascii_of_string_of_list_ascii.
  rewrite parse_year_fixed4 by lia.
  repeat first [ progress cbn [mbind option_bind]
               | rewrite getnum_fixed2 by lia
               | rewrite skip_char by reflexivity
               | rewrite skip_space_fixed2
               | rewrite parse_frac_formatNano by lia
               | rewrite guard_true by (first [lia | by apply bool_decide_eq_true_2]) ].
  unfold Date. rewrite Hdays. unfold secondsPerDay in *. do 2 f_equal. lia.
Qed.

Lemma length_string_of_list_ascii l : String.length (string_of_list_ascii l) = length l.
Proof. induction l as [|c l IH]; simpl; [done|]. by rewrite IH. Qed.

Lemma appendInt_length x k :
  (1 <= k <= 20)%nat -> 0 <= x < 10 ^ Z.of_nat k -> length (appendInt x k) = k.
Proof. intros Hk Hx. rewrite appendInt_fixed by done. apply fixed_digits_length. Qed.

(** A time whose milliseconds are zero is written without a
    fraction, in the 19 bytes of "2006-01-02 15:04:05": the layout's
    ".999" drops the fraction when its digits are all zero. *)
Lemma Format_no_fraction t :
  0 <= t_nsec t < 10 ^ 6 -> 0 <= Year t <= 9999 -> String.length (Format t) = 19%nat.
Proof.
  intros Hns Hy. unfold Format, Year in *.
  pose proof (absDate_spec (t_sec t / secondsPerDay)) as Hd.
  destruct (absDate _) as [[y m] dd]. simpl in Hy. destruct Hd as (Hm & Hdd & _).
  pose proof (absClock_spec (t_sec t)) as Hc.
  destruct (absClock _) as [[h mi] se]. destruct Hc as (Hh & Hmi & Hse & _).
  pose proof (daysIn_le_31 m y Hm).
  assert (Hf : formatNano (t_nsec t) = []).
  { rewrite formatNano_ms, Z.div_small by lia. reflexivity. }
  rewrite length_string_of_list_ascii, Hf.
  repeat first [ rewrite length_app | rewrite length_cons
               | rewrite appendInt_length by (change (10 ^ Z.of_nat 2) with 100;
                                              change (10 ^ Z.of_nat 4) with 10000; lia) ].
  reflexivity.
Qed.

End RoundTrip.

End GoFormat.
