(* ===== verification/GoSort.v ===== *)
(** * Go's sort.SliceStable and map iteration, as the program uses them

    Both calls of [sort.SliceStable] in main.go (125-127 and 218-220) sort
    a slice of messages with [less(i, j) = count[i] > count[j]]: descending
    by a key.  Go implements it with insertion sorts of blocks of 20 and
    [symMerge]; [sort_stable] is a stable insertion sort, and
    [sort_stable_unique] shows that every stable sort by the key gives
    its result, so the choice of algorithm does not matter.

    A [for k := range m] over a Go map visits the keys in an unspecified
    order; [MapIter] is a choice of that order for every map, a
    permutation of its keys, and the functions that range over a map take
    one as argument.  [canonical_iter] is one such choice (stdpp's). *)

From S2P Require Import Prelude.

#[local] Set Warnings "-clear-no-such-hyp".

Module GoSort.

#[local] Open Scope Z_scope.

Section StableSort.

Context {A : Type} (key : A -> Z).

(** The comparator [key a > key b] of the program's calls. *)
Definition less (a b : A) : bool := key b <? key a.

(** Insert [x], which comes after every element of [l] in the input,
    before the first element it is [less] than. *)
Fixpoint insert_stable (x : A) (l : list A) : list A :=
  match l with
  | [] => [x]
  | y :: l' => if less x y then x :: l else y :: insert_stable x l'
  end.

Definition sort_stable (l : list A) : list A :=
  fold_left (fun acc x => insert_stable x acc) l [].

(** Non-increasing keys. *)
Definition desc (a b : A) : Prop := key b <= key a.

#[local] Instance desc_trans : Transitive desc.
Proof. unfold desc. intros ???. lia. Qed.

Lemma insert_stable_perm x l : insert_stable x l ≡ₚ x :: l.
Proof.
  induction l as [|y l IH]; simpl; [done|].
  destruct (less x y); [done|]. rewrite IH. apply Permutation_swap.
Qed.

Lemma fold_insert_perm l acc :
  fold_left (fun acc x => insert_stable x acc) l acc ≡ₚ l ++ acc.
Proof.
  revert acc. induction l as [|x l IH]; intros acc; simpl; [done|].
  rewrite IH, insert_stable_perm. by rewrite Permutation_middle.
Qed.

Lemma sort_stable_perm l : sort_stable l ≡ₚ l.
Proof. unfold sort_stable. by rewrite fold_insert_perm, app_nil_r. Qed.

Lemma insert_stable_sorted x l :
  StronglySorted desc l -> StronglySorted desc (insert_stable x l).
Proof.
  induction l as [|y l IH]; intros Hs; simpl.
  - repeat constructor.
  - apply StronglySorted_cons in Hs as [Hy Hl]. unfold less.
    destruct (key y <? key x) eqn:E.
    + apply Z.ltb_lt in E. apply StronglySorted_cons. split; [|by constructor].
      constructor; [unfold desc; lia|].
      eapply Forall_impl; [exact Hy|]. unfold desc. intros. lia.
    + apply Z.ltb_ge in E. apply StronglySorted_cons. split; [|by apply IH].
      eapply Permutation_Forall; [symmetry; apply insert_stable_perm|].
      constructor; [unfold desc; lia|done].
Qed.

Lemma sort_stable_sorted l : StronglySorted desc (sort_stable l).
Proof.
  unfold sort_stable.
  cut (forall acc, StronglySorted desc acc ->
         StronglySorted desc (fold_left (fun acc x => insert_stable x acc) l acc)).
  { intros H. apply H. constructor. }
  induction l as [|x l IH]; intros acc Hacc; simpl; [done|].
  apply IH. by apply insert_stable_sorted.
Qed.

(** Elements with key [k], in order. *)
Definition with_key (k : Z) (l : list A) : list A := filter (fun y => key y = k) l.

Lemma insert_stable_with_key x l k :
  StronglySorted desc l ->
  with_key k (insert_stable x l) = with_key k l ++ with_key k [x].
Proof.
  unfold with_key. induction l as [|y l IH]; intros Hs; simpl; [done|].
  apply StronglySorted_cons in Hs as [Hy Hl]. unfold less.
  destruct (key y <? key x) eqn:E.
  - apply Z.ltb_lt in E. rewrite filter_cons.
    destruct (decide (key x = k)) as [<-|Hk].
    + rewrite (filter_Forall_not _ (y :: l)); [by rewrite filter_cons_True|].
      apply Forall_cons. split; [lia|].
      eapply Forall_impl; [exact Hy|]. unfold desc. intros. lia.
    + rewrite (filter_cons_False _ x []) by done. by rewrite filter_nil, app_nil_r.
  - rewrite !filter_cons. rewrite IH by done.
    by case_decide.
Qed.

Lemma sort_stable_with_key l k : with_key k (sort_stable l) = with_key k l.
Proof.
  unfold sort_stable.
  cut (forall acc, StronglySorted desc acc ->
         with_key k (fold_left (fun acc x => insert_stable x acc) l acc)
         = with_key k acc ++ with_key k l).
  { intros H. by rewrite H by constructor. }
  induction l as [|x l IH]; intros acc Hacc; simpl.
  - by rewrite app_nil_r.
  - rewrite IH by (by apply insert_stable_sorted).
    rewrite insert_stable_with_key by done. rewrite <- app_assoc. f_equal.
    unfold with_key. by rewrite <- filter_app.
Qed.

Lemma sorted_head_max a l x :
  StronglySorted desc (a :: l) -> x ∈ a :: l -> key x <= key a.
Proof.
  intros Hs Hx. apply StronglySorted_cons in Hs as [Ha _].
  apply elem_of_cons in Hx as [->|Hx]; [lia|].
  rewrite Forall_forall in Ha. by apply Ha.
Qed.

Lemma with_key_elem k l x : x ∈ with_key k l <-> key x = k /\ x ∈ l.
Proof. unfold with_key. by rewrite list_elem_of_filter. Qed.

(** Two lists sorted by non-increasing key that agree on the elements of
    every key, in order, are equal. *)
Lemma sorted_with_key_unique l1 l2 :
  StronglySorted desc l1 -> StronglySorted desc l2 ->
  (forall k, with_key k l1 = with_key k l2) -> l1 = l2.
Proof.
  revert l2. induction l1 as [|a l1 IH]; intros l2 H1 H2 Hk.
  - destruct l2 as [|b l2]; [done|]. specialize (Hk (key b)).
    unfold with_key in Hk. by rewrite filter_cons_True in Hk.
  - destruct l2 as [|b l2].
    { specialize (Hk (key a)). unfold with_key in Hk. by rewrite filter_cons_True in Hk. }
    assert (Hab : key a = key b).
    { assert (b ∈ a :: l1).
      { apply (with_key_elem (key b)). rewrite Hk. apply with_key_elem. set_solver. }
      assert (a ∈ b :: l2).
      { apply (with_key_elem (key a)). rewrite <- Hk. apply with_key_elem. set_solver. }
      pose proof (sorted_head_max a l1 b H1 ltac:(done)).
      pose proof (sorted_head_max b l2 a H2 ltac:(done)). lia. }
    pose proof (Hk (key a)) as Hka. unfold with_key in Hka.
    rewrite !filter_cons_True in Hka by done. injection Hka as <- _.
    apply StronglySorted_cons in H1 as [_ H1]. apply StronglySorted_cons in H2 as [_ H2].
    f_equal. apply IH; [done|done|]. intros k. specialize (Hk k).
    unfold with_key in *. rewrite !filter_cons in Hk. case_decide; [by injection Hk|done].
Qed.

(** every stable sort by the key is [sort_stable]: a list sorted by
    non-increasing key that keeps the input order of the elements of each
    key is [sort_stable] of the input. *)
Theorem sort_stable_unique l l' :
  StronglySorted desc l' -> (forall k, with_key k l' = with_key k l) ->
  l' = sort_stable l.
Proof.
  intros Hs Hk. apply sorted_with_key_unique; [done|apply sort_stable_sorted|].
  intros k. by rewrite Hk, sort_stable_with_key.
Qed.

#[local] Instance Z_ge_antisymm : AntiSymm (=) (fun a b : Z => b <= a).
Proof. intros ???. lia. Qed.

#[local] Instance Z_ge_trans : Transitive (fun a b : Z => b <= a).
Proof. intros ???. lia. Qed.

(** The sequence of keys of the sorted list does not depend on the
    order of the input. *)
Lemma sort_stable_keys l1 l2 :
  l1 ≡ₚ l2 -> key <$> sort_stable l1 = key <$> sort_stable l2.
Proof.
  intros Hp. apply (StronglySorted_unique (fun a b : Z => b <= a)).
  - eapply StronglySorted_fmap; [|apply sort_stable_sorted]. done.
  - eapply StronglySorted_fmap; [|apply sort_stable_sorted]. done.
  - by rewrite !sort_stable_perm, Hp.
Qed.

(** An element whose key is larger than every other element's comes
    first, whatever the input order. *)
Lemma sort_stable_head_max `{EqDecision A} l k :
  k ∈ l -> (forall x, x ∈ l -> x <> k -> key x < key k) ->
  head (sort_stable l) = Some k.
Proof.
  intros Hk Hmax. pose proof (sort_stable_perm l) as Hp.
  pose proof (sort_stable_sorted l) as Hs.
  destruct (sort_stable l) as [|h t]; simpl.
  - apply Permutation_nil in Hp. subst. by apply not_elem_of_nil in Hk.
  - f_equal. destruct (decide (h = k)) as [|Hne]; [done|]. exfalso.
    assert (Hh : h ∈ l) by (rewrite <- Hp; left).
    assert (Hkt : k ∈ h :: t) by (by rewrite Hp).
    pose proof (sorted_head_max _ _ _ Hs Hkt). specialize (Hmax h Hh Hne). lia.
Qed.

End StableSort.


Section SortExt.
Context {A : Type}.

Lemma insert_stable_ext (k1 k2 : A -> Z) x l :
  (forall y, k1 y = k2 y) -> insert_stable k1 x l = insert_stable k2 x l.
Proof.
  intros Hk. induction l as [|y l IH]; simpl; [done|].
  unfold less. rewrite !Hk, IH. done.
Qed.

Lemma sort_stable_ext (k1 k2 : A -> Z) l :
  (forall y, k1 y = k2 y) -> sort_stable k1 l = sort_stable k2 l.
Proof.
  intros Hk. unfold sort_stable. generalize (@nil A).
  induction l as [|x l IH]; intros acc; simpl; [done|].
  by rewrite IH, (insert_stable_ext k1 k2).
Qed.

End SortExt.

(** ** Map iteration order *)

(** The order in which [for k := range m] visits the keys of a
    [map[string]int64]: for every map, a permutation of its keys. *)
Record MapIter : Type := {
  iter_keys : gmap string Z -> list string;
  iter_keys_perm : forall m, iter_keys m ≡ₚ (map_to_list m).*1
}.

Definition canonical_iter : MapIter :=
  {| iter_keys := fun m => (map_to_list m).*1; iter_keys_perm := fun m => reflexivity _ |}.

(** Ranging over the empty map visits nothing. *)
Lemma iter_keys_empty (it : MapIter) : iter_keys it ∅ = [].
Proof.
  apply Permutation_nil_r. rewrite iter_keys_perm. by rewrite map_to_list_empty.
Qed.

(** ** Iteration in a given order *)

(** The distinct elements of a list in the order of their first
    occurrence. *)
Fixpoint first_seen_go (seen : list string) (l : list string) : list string :=
  match l with
  | [] => []
  | x :: l' =>
      if decide (x ∈ seen) then first_seen_go seen l'
      else x :: first_seen_go (x :: seen) l'
  end.

Definition first_seen (l : list string) : list string := first_seen_go [] l.

Lemma first_seen_go_spec seen l :
  NoDup (first_seen_go seen l) /\
  (forall x, x ∈ first_seen_go seen l <-> x ∈ l /\ x ∉ seen).
Proof.
  revert seen. induction l as [|y l IH]; intros seen; simpl.
  - split; [constructor|set_solver].
  - case_decide as Hy.
    + destruct (IH seen) as [Hn Hx]. split; [done|]. intros x.
      rewrite elem_of_cons, Hx. destruct (decide (x = y)) as [->|?]; naive_solver.
    + destruct (IH (y :: seen)) as [Hn Hx]. split.
      * constructor; [|done]. rewrite Hx. set_solver.
      * intros x. rewrite !elem_of_cons, Hx, not_elem_of_cons.
        destruct (decide (x = y)) as [->|?]; naive_solver.
Qed.

Lemma first_seen_NoDup l : NoDup (first_seen l).
Proof. apply first_seen_go_spec. Qed.

Lemma elem_of_first_seen l x : x ∈ first_seen l <-> x ∈ l.
Proof. unfold first_seen. rewrite (proj2 (first_seen_go_spec [] l)). set_solver. Qed.

Lemma elem_of_map_keys (m : gmap string Z) k :
  k ∈ (map_to_list m).*1 <-> is_Some (m !! k).
Proof.
  rewrite list_elem_of_fmap. split.
  - intros [[k' v] [-> Hin]]. apply elem_of_map_to_list in Hin. simpl. by eexists.
  - intros [v Hv]. exists (k, v). split; [done|]. by apply elem_of_map_to_list.
Qed.

(** The keys of [m] that occur in [order], in the order of their first
    occurrence there, then the other keys. *)
Definition order_keys (order : list string) (m : gmap string Z) : list string :=
  filter (fun k => is_Some (m !! k)) (first_seen order)
  ++ filter (fun k => k ∉ order) (map_to_list m).*1.

Lemma order_keys_perm order m : order_keys order m ≡ₚ (map_to_list m).*1.
Proof.
  unfold order_keys. apply NoDup_Permutation.
  - apply NoDup_app. split; [apply NoDup_filter, first_seen_NoDup|]. split.
    + intros x. rewrite !list_elem_of_filter, elem_of_first_seen. tauto.
    + apply NoDup_filter, NoDup_fst_map_to_list.
  - apply NoDup_fst_map_to_list.
  - intros x. rewrite elem_of_app, !list_elem_of_filter, elem_of_first_seen, elem_of_map_keys.
    destruct (decide (x ∈ order)); tauto.
Qed.

Definition iter_of_order (order : list string) : MapIter :=
  {| iter_keys := order_keys order; iter_keys_perm := order_keys_perm order |}.

(** When every key occurs in [order], they are visited in the order of
    their first occurrence. *)
Lemma iter_of_order_keys order (m : gmap string Z) :
  (forall k, is_Some (m !! k) <-> k ∈ order) ->
  iter_keys (iter_of_order order) m = first_seen order.
Proof.
  intros Hk. simpl. unfold order_keys.
  rewrite (filter_Forall_not (fun k => k ∉ order)), app_nil_r.
  - apply filter_Forall_all, Forall_forall. intros x Hx.
    apply Hk. by apply elem_of_first_seen.
  - apply Forall_forall. intros x Hx. apply elem_of_map_keys, Hk in Hx. tauto.
Qed.

End GoSort.
