(* ===== verification/Parser.v ===== *)
(** * The line parser and the file reader (src/main.go)

    [LogMessage] is the struct of main.go 17-24, [parseLogMessage] the
    function of main.go 42-72 and [parseLogFile] the function of main.go
    74-89.  Go returns the partly filled record together with the error;
    the model returns the same pair.  The file system read by
    [os.ReadFile] is a function from paths to contents ([None] for a read
    error). *)

From S2P Require Import Prelude GoStrings.
Import GoStrings.

#[local] Set Warnings "-clear-no-such-hyp".

Module Parser.

Record LogMessage : Type := mkLogMessage {
  timestamp : string;
  severity : string;
  module : string;
  function : string;
  lineNumber : Z;
  message : string
}.

(** The zero value [LogMessage{}]. *)
Definition zeroLogMessage : LogMessage :=
  mkLogMessage "" "" "" "" 0 "".

(** [reflect.DeepEqual] on [LogMessage] values is field-wise equality. *)
#[export] Instance LogMessage_eq_dec : EqDecision LogMessage.
Proof. solve_decision. Defined.

(** The errors [parseLogMessage] returns: [errors.New("Empty Message")],
    [errors.New("Malformed message")] and the error of
    [strconv.ParseInt]. *)
Inductive ParseError : Type :=
| ErrEmptyMessage
| ErrMalformedMessage
| ErrLineNumber (e : NumError).

Definition parseLogMessage (logRow : string) : LogMessage * option ParseError :=
  match split "|" logRow with
  | [p0; p1; p2] =>
      let ts := TrimSpace p0 in
      let sev := TrimSpace p1 in
      if String.eqb sev "" then (mkLogMessage ts sev "" "" 0 "", Some ErrMalformedMessage)
      else
        match split ":" p2 with
        | r0 :: r1 :: r2 :: _ =>
            let md := TrimSpace r0 in
            let fn := TrimSpace r1 in
            match split "-" r2 with
            | lineNumRaw :: msg :: _ =>
                let '(lineNum, err) := ParseInt (TrimSpace lineNumRaw) 0 16 in
                (mkLogMessage ts sev md fn lineNum (TrimSpace msg),
                 option_map ErrLineNumber err)
            | _ => (mkLogMessage ts sev md fn 0 "", Some ErrMalformedMessage)
            end
        | _ => (mkLogMessage ts sev "" "" 0 "", Some ErrMalformedMessage)
        end
  | _ => (zeroLogMessage, Some ErrEmptyMessage)
  end.

(** [os.ReadFile]: the contents of a path, or [None] on a read error. *)
Definition FileSystem : Type := string -> option string.

(** One iteration of the loop of [parseLogFile]: keep the record when
    [parseLogMessage] returns no error. *)
Definition keep_parsed (logMessages : list LogMessage) (logRow : string)
    : list LogMessage :=
  match parseLogMessage logRow with
  | (lm, None) => logMessages ++ [lm]
  | (_, Some _) => logMessages
  end.

Definition newline : ascii := "010"%char.

(** A read error prints a message and returns the nil slice. *)
Definition parseLogFile (fs : FileSystem) (logPath : string) : list LogMessage :=
  match fs logPath with
  | None => []
  | Some data => fold_left keep_parsed (split newline data) []
  end.

(** [parseLogFile] reads the file system only at its path. *)
Lemma parseLogFile_ext fs1 fs2 p1 p2 :
  fs1 p1 = fs2 p2 -> parseLogFile fs1 p1 = parseLogFile fs2 p2.
Proof. intros H. unfold parseLogFile. by rewrite H. Qed.

(** ** The line format *)

(** A log line in the format of the README and of the Go tests,
    [<timestamp> | <severity> | <module>: <function>: <line> - <message>],
    with the line number as the text [num]. *)
Definition format_row (ts sev md fn num msg : string) : string :=
  (ts ++ " ") ++ String "|" ((" " ++ sev ++ " ") ++ String "|"
  ((" " ++ md) ++ String ":" ((" " ++ fn) ++ String ":"
  ((" " ++ num ++ " ") ++ String "-" (" " ++ msg))))).

(** A record written as a line, with the line number in decimal. *)
Definition format_line (lm : LogMessage) : string :=
  format_row (timestamp lm) (severity lm) (module lm) (function lm)
    (FormatInt (lineNumber lm)) (message lm).

(** A field that is its own [TrimSpace] and holds none of the bytes
    [forbidden]. *)
Definition field_ok (forbidden : list ascii) (f : string) : Prop :=
  TrimSpace f = f /\ Forall (fun c => c ∉ forbidden) (list_ascii_of_string f).

(** The records the format can carry: no field contains a delimiter that
    the parser splits it at, fields carry no surrounding white space, the
    severity is not empty and the line number fits in 16 signed bits
    without a sign. *)
Definition well_formed (lm : LogMessage) : Prop :=
  field_ok ["|"]%char (timestamp lm) /\ field_ok ["|"]%char (severity lm) /\
  severity lm <> "" /\
  field_ok ["|"; ":"]%char (module lm) /\ field_ok ["|"; ":"]%char (function lm) /\
  field_ok ["|"; ":"; "-"]%char (message lm) /\ (0 <= lineNumber lm <= 32767)%Z.

(** The records that fit on one line of a file: no field holds a
    newline. *)
Definition no_newline (lm : LogMessage) : Prop :=
  Forall (fun f => newline ∉ list_ascii_of_string f)
    [timestamp lm; severity lm; module lm; function lm; message lm].

(** ** Properties of [parseLogMessage] *)

Section ParseProps.

(** What a successful parse is made of: the three [|]-pieces, the
    [:]-pieces of the third one, the [-]-pieces of the third of those, and
    the fields as their trimmed values. *)
Lemma parseLogMessage_ok_inv row lm :
  parseLogMessage row = (lm, None) ->
  exists p0 p1 p2 r0 r1 r2 rs lineNumRaw msg ms,
    split "|" row = [p0; p1; p2] /\
    split ":" p2 = r0 :: r1 :: r2 :: rs /\
    split "-" r2 = lineNumRaw :: msg :: ms /\
    TrimSpace p1 <> "" /\
    ParseInt (TrimSpace lineNumRaw) 0 16 = (lineNumber lm, None) /\
    lm = mkLogMessage (TrimSpace p0) (TrimSpace p1) (TrimSpace r0)
           (TrimSpace r1) (lineNumber lm) (TrimSpace msg).
Proof.
  unfold parseLogMessage. intros H.
  repeat case_match; simplify_eq.
  match goal with Hs : String.eqb _ _ = false |- _ => apply String.eqb_neq in Hs end.
  match goal with Ho : option_map _ ?o = None |- _ => destruct o; [done|] end.
  repeat eexists; eauto.
Qed.

(** C34: a successfully parsed record has a line number in [0, 32767]:
    ParseInt's 16-bit range, and no sign, since the raw line number is
    the text before the first ['-'] of its piece. *)
Theorem parseLogMessage_lineNumber_range row lm :
  parseLogMessage row = (lm, None) -> (0 <= lineNumber lm <= 32767)%Z.
Proof.
  intros H.
  destruct (parseLogMessage_ok_inv _ _ H)
    as (p0 & p1 & p2 & r0 & r1 & r2 & rs & lr & msg & ms & _ & _ & Hs3 & _ & Hint & _).
  split.
  - eapply ParseInt_ok_nonneg; [|exact Hint].
    apply TrimSpace_not_elem. eapply split_no_sep. rewrite Hs3. set_solver.
  - pose proof (ParseInt_ok_range _ 0 16 _ ltac:(lia) Hint) as Hr.
    change (2 ^ (16 - 1))%Z with 32768%Z in Hr. lia.
Qed.

(** C36: the message of a successfully parsed record contains none of the
    bytes ['|'], [':'] and ['-']: the code keeps only the text between
    the first ['-'] and the next ['-'] of the third [':']-piece. *)
Theorem parseLogMessage_message_no_delimiters row lm c :
  parseLogMessage row = (lm, None) ->
  c ∈ ["|"; ":"; "-"]%char ->
  c ∉ list_ascii_of_string (message lm).
Proof.
  intros H Hc.
  destruct (parseLogMessage_ok_inv _ _ H)
    as (p0 & p1 & p2 & r0 & r1 & r2 & rs & lr & msg & ms & Hs1 & Hs2 & Hs3 & _ & _ & ->).
  simpl. apply TrimSpace_not_elem.
  assert (Hmsg : msg ∈ split "-" r2) by (rewrite Hs3; set_solver).
  assert (Hr2 : r2 ∈ split ":" p2) by (rewrite Hs2; set_solver).
  assert (Hp2 : p2 ∈ split "|" row) by (rewrite Hs1; set_solver).
  repeat (apply elem_of_cons in Hc as [->|Hc]).
  - eapply split_not_elem; [exact Hmsg|]. eapply split_not_elem; [exact Hr2|].
    by apply split_no_sep in Hp2.
  - eapply split_not_elem; [exact Hmsg|]. by apply split_no_sep in Hr2.
  - by apply split_no_sep in Hmsg.
  - by apply not_elem_of_nil in Hc.
Qed.

(** C37: a line with a number of ['|'] other than two is rejected with
    "Empty Message" and the zero record. *)
Theorem parseLogMessage_pipe_count row :
  count_char "|" row <> 2 ->
  parseLogMessage row = (zeroLogMessage, Some ErrEmptyMessage).
Proof.
  intros Hc. unfold parseLogMessage.
  pose proof (split_length "|" row) as Hl.
  destruct (split "|" row) as [|? [|? [|? [|]]]]; simpl in Hl; try done; lia.
Qed.

Lemma not_in_app c x y :
  c ∉ list_ascii_of_string x -> c ∉ list_ascii_of_string y ->
  c ∉ list_ascii_of_string (x ++ y).
Proof. rewrite list_ascii_of_string_app. set_solver. Qed.

Lemma not_in_String c c' y :
  c <> c' -> c ∉ list_ascii_of_string y -> c ∉ list_ascii_of_string (String c' y).
Proof. simpl. set_solver. Qed.

Lemma not_in_empty c : c ∉ list_ascii_of_string "".
Proof. apply not_elem_of_nil. Qed.

Lemma field_not_in forbidden f c :
  field_ok forbidden f -> c ∈ forbidden -> c ∉ list_ascii_of_string f.
Proof. intros [_ Hf] Hc Hin. rewrite Forall_forall in Hf. by apply (Hf c Hin). Qed.

Lemma TrimSpace_lead f : TrimSpace (" " ++ f) = TrimSpace f.
Proof. apply TrimSpace_pad_l. Qed.

Lemma TrimSpace_pad f : TrimSpace (" " ++ f ++ " ") = TrimSpace f.
Proof.
  change (" " ++ f ++ " ")%string with (String " " (f ++ " ")).
  by rewrite TrimSpace_pad_l, TrimSpace_pad_r.
Qed.

(** A byte is absent from a line built of pieces: split the line into
    its pieces, literal bytes, decimal numbers and fields. *)
Ltac notin :=
  repeat match goal with
  | |- _ ∉ list_ascii_of_string (_ ++ _) => apply not_in_app
  | |- _ ∉ list_ascii_of_string (String _ _) => apply not_in_String; [discriminate|]
  | |- _ ∉ list_ascii_of_string "" => apply not_in_empty
  | |- _ ∉ list_ascii_of_string (FormatInt _) => apply FormatInt_not_delim; [lia|set_solver]
  | H : Forall (fun c => is_dec_digit c = true) (list_ascii_of_string ?f)
    |- _ ∉ list_ascii_of_string ?f => apply (digits_not_delim _ _ H); set_solver
  | H : field_ok _ ?f |- _ ∉ list_ascii_of_string ?f => apply (field_not_in _ _ _ H); set_solver
  end.

(** The general form: a line of the format whose line number is a text
    of digit bytes parses to its fields and the value [ParseInt] reads
    from that text. *)
Lemma parseLogMessage_format_row ts sev md fn num msg n :
  field_ok ["|"]%char ts -> field_ok ["|"]%char sev -> sev <> "" ->
  field_ok ["|"; ":"]%char md -> field_ok ["|"; ":"]%char fn ->
  field_ok ["|"; ":"; "-"]%char msg ->
  Forall (fun c => is_dec_digit c = true) (list_ascii_of_string num) ->
  ParseInt num 0 16 = (n, None) ->
  parseLogMessage (format_row ts sev md fn num msg) = (mkLogMessage ts sev md fn n msg, None).
Proof.
  intros Hts Hsev Hne Hmd Hfn Hmsg Hnum Hn.
  unfold parseLogMessage, format_row.
  rewrite split_app_sep by notin.
  rewrite split_app_sep by notin.
  rewrite (split_nosep "|"%char) by notin.
  rewrite TrimSpace_pad_r, TrimSpace_pad, (proj1 Hts), (proj1 Hsev).
  rewrite (proj2 (String.eqb_neq sev "") Hne).
  rewrite split_app_sep by notin.
  rewrite split_app_sep by notin.
  rewrite (split_nosep ":"%char) by notin.
  rewrite split_app_sep by notin.
  rewrite (split_nosep "-"%char) by notin.
  rewrite TrimSpace_pad, TrimSpace_digits, Hn by done.
  rewrite !TrimSpace_lead, (proj1 Hmd), (proj1 Hfn), (proj1 Hmsg). done.
Qed.

(** [well_formed] of a record given by its fields, by evaluation. *)
Ltac well_formed_record :=
  unfold well_formed, field_ok; cbn -[TrimSpace];
  repeat split; try (vm_compute; reflexivity); try discriminate; try lia;
    apply (bool_decide_unpack _); vm_compute; reflexivity.

(** C33: parsing a line written in the format gives back the record, for
    every record the format can carry: the fields, trimmed of the padding
    around the delimiters, and the line number read back from its
    decimal form. *)
Theorem parseLogMessage_format_line lm :
  well_formed lm -> parseLogMessage (format_line lm) = (lm, None).
Proof.
  destruct lm as [ts sev md fn n msg]. intros (Hts & Hsev & Hne & Hmd & Hfn & Hmsg & Hn).
  unfold format_line. cbn [timestamp severity module function lineNumber message] in *.
  apply parseLogMessage_format_row; try done.
  - apply FormatInt_digits. lia.
  - by apply ParseInt_FormatInt.
Qed.

Lemma parseLogMessage_format_line_witness :
  parseLogMessage (format_line
    (mkLogMessage "2024-01-02 15:04:05.999" "INFO" "app.module" "function" 123 "User logged in"))
  = (mkLogMessage "2024-01-02 15:04:05.999" "INFO" "app.module" "function" 123 "User logged in",
     None).
Proof. apply parseLogMessage_format_line. well_formed_record. Defined.

(** [parseLogMessage] as a partial function: the record when no error. *)
Definition parsed_row (row : string) : option LogMessage :=
  match parseLogMessage row with
  | (lm, None) => Some lm
  | (_, Some _) => None
  end.

Lemma fold_keep_parsed rows acc :
  fold_left keep_parsed rows acc = acc ++ omap parsed_row rows.
Proof.
  revert acc. induction rows as [|row rows IH]; intros acc; simpl.
  - by rewrite app_nil_r.
  - rewrite IH. unfold keep_parsed, parsed_row.
    destruct (parseLogMessage row) as [lm [e|]]; simpl; [done|].
    by rewrite <- app_assoc.
Qed.

(** C35: [strconv.ParseInt] is called with base 0, so a line number
    written with a leading zero is read in octal: for every record the
    format can carry, the line whose line number is "0" followed by the
    octal digits [ds] parses to the record with their octal value ("017"
    gives 15 where a decimal reading gives 17). *)
Theorem parseLogMessage_octal_lineNumber lm ds :
  well_formed lm -> Forall (fun d => 0 <= d < 8)%Z ds -> (octal_value 0 ds <= 32767)%Z ->
  parseLogMessage (format_row (timestamp lm) (severity lm) (module lm) (function lm)
                     (String "0" (string_of_list_ascii (dig <$> ds))) (message lm)) =
  (mkLogMessage (timestamp lm) (severity lm) (module lm) (function lm) (octal_value 0 ds)
     (message lm), None).
Proof.
  intros (Hts & Hsev & Hne & Hmd & Hfn & Hmsg & _) Hds Hm.
  apply parseLogMessage_format_row; try done.
  - by apply octal_digits.
  - by apply ParseInt_octal.
Qed.

(** A record written as a line holds a newline only where a field does. *)
Lemma format_line_no_newline lm :
  no_newline lm -> (0 <= lineNumber lm)%Z -> newline ∉ list_ascii_of_string (format_line lm).
Proof.
  destruct lm as [ts sev md fn n msg]. unfold no_newline, format_line, format_row.
  cbn [timestamp severity module function lineNumber message].
  intros Hf Hn. repeat apply Forall_cons in Hf as [? Hf].
  repeat match goal with
  | |- _ ∉ list_ascii_of_string (_ ++ _) => apply not_in_app
  | |- _ ∉ list_ascii_of_string (String _ _) => apply not_in_String; [discriminate|]
  | |- _ ∉ list_ascii_of_string "" => apply not_in_empty
  | |- _ ∉ list_ascii_of_string (FormatInt _) =>
      apply digits_not_in; [apply FormatInt_digits, Hn|reflexivity]
  | H : ?c ∉ list_ascii_of_string ?f |- ?c ∉ list_ascii_of_string ?f => exact H
  end.
Qed.

(** The lines written from well-formed records parse back to them. *)
Lemma omap_parsed_format_lines lms :
  Forall well_formed lms -> omap parsed_row (format_line <$> lms) = lms.
Proof.
  induction lms as [|[ts sev md fn n msg] lms IH]; intros Hw; [done|].
  apply Forall_cons in Hw as [(Hts & Hsev & Hne & Hmd & Hfn & Hmsg & Hn) Hw].
  cbn [fmap list_fmap omap list_omap]. unfold parsed_row at 1, format_line at 1.
  cbn [timestamp severity module function lineNumber message] in *.
  rewrite (parseLogMessage_format_row _ _ _ _ _ _ n); try done.
  - by rewrite IH.
  - apply FormatInt_digits. lia.
  - by apply ParseInt_FormatInt.
Qed.

(** C38: a log file written one record per line, the lines joined with
    ['\n'], is read back by [parseLogFile] as exactly its records, in
    order, for records the format can carry whose fields hold no
    newline; the file of no record gives none. *)
Theorem parseLogFile_format_lines fs logPath lms :
  Forall well_formed lms -> Forall no_newline lms ->
  fs logPath = Some (join newline (format_line <$> lms)) ->
  parseLogFile fs logPath = lms.
Proof.
  intros Hw Hnl Hfs. unfold parseLogFile. rewrite Hfs.
  destruct lms as [|lm lms']; [vm_compute; reflexivity|].
  rewrite split_join, fold_keep_parsed, app_nil_l; [|done|].
  - by apply omap_parsed_format_lines.
  - apply Forall_fmap. eapply Forall_impl; [apply Forall_and; split; [exact Hw|exact Hnl]|].
    intros x [(_ & _ & _ & _ & _ & _ & Hx) Hn]. apply format_line_no_newline; [done|lia].
Qed.

Lemma parseLogMessage_lineNumber_range_witness :
  (0 <= lineNumber (fst (parseLogMessage
    "2024-01-02 15:04:05.999 | INFO | app.module: function: 123 - User logged in"))
   <= 32767)%Z.
Proof.
  apply (parseLogMessage_lineNumber_range
    "2024-01-02 15:04:05.999 | INFO | app.module: function: 123 - User logged in").
  vm_compute. reflexivity.
Defined.

(** A message with a ['-'] and a [':'] is cut to the text before them. *)
Lemma parseLogMessage_message_no_delimiters_witness :
  message (fst (parseLogMessage
    "2024-01-02 15:04:05.999 | INFO | app.module: function: 12 - re-try: now"))
  = "re" /\
  "-"%char ∉ list_ascii_of_string (message (fst (parseLogMessage
    "2024-01-02 15:04:05.999 | INFO | app.module: function: 12 - re-try: now"))).
Proof.
  split; [vm_compute; reflexivity|].
  apply (parseLogMessage_message_no_delimiters
    "2024-01-02 15:04:05.999 | INFO | app.module: function: 12 - re-try: now").
  - vm_compute. reflexivity.
  - set_solver.
Defined.

Lemma parseLogMessage_pipe_count_witness :
  count_char "|" "a | b | c | d" <> 2 /\
  parseLogMessage "a | b | c | d" = (zeroLogMessage, Some ErrEmptyMessage).
Proof.
  split; [vm_compute; discriminate|].
  apply parseLogMessage_pipe_count. vm_compute. discriminate.
Defined.

(** "017": the line number 15. *)
Lemma parseLogMessage_octal_lineNumber_witness :
  let lm := mkLogMessage "2024-01-02 15:04:05.999" "INFO" "app.module" "function" 0 "User logged in" in
  (well_formed lm /\ Forall (fun d => 0 <= d < 8)%Z [1; 7]%Z /\ (octal_value 0 [1; 7]%Z <= 32767)%Z) /\
  parseLogMessage (format_row (timestamp lm) (severity lm) (module lm) (function lm)
                     (String "0" (string_of_list_ascii (dig <$> [1; 7]%Z))) (message lm)) =
  (mkLogMessage (timestamp lm) (severity lm) (module lm) (function lm) (octal_value 0 [1; 7]%Z)
     (message lm), None) /\ octal_value 0 [1; 7]%Z = 15%Z.
Proof.
  cbv zeta.
  assert (H : well_formed (mkLogMessage "2024-01-02 15:04:05.999" "INFO" "app.module" "function" 0
                "User logged in") /\ Forall (fun d => 0 <= d < 8)%Z [1; 7]%Z /\
              (octal_value 0 [1; 7]%Z <= 32767)%Z).
  { split; [well_formed_record|]. split; [repeat constructor; lia|vm_compute; discriminate]. }
  split; [exact H|]. destruct H as (H1 & H2 & H3).
  split; [exact (parseLogMessage_octal_lineNumber _ _ H1 H2 H3)|reflexivity].
Defined.

(** A file of two records. *)
Definition example_records : list LogMessage :=
  [mkLogMessage "2024-01-02 15:04:05.999" "INFO" "app.module" "function" 123 "User logged in";
   mkLogMessage "2024-01-02 15:05:00.000" "ERROR" "db" "connect" 7 "Database error"].

Definition example_fs : FileSystem := fun p =>
  if String.eqb p "app.log" then Some (join newline (format_line <$> example_records)) else None.

Lemma parseLogFile_format_lines_witness :
  (Forall well_formed example_records /\ Forall no_newline example_records /\
   example_fs "app.log" = Some (join newline (format_line <$> example_records))) /\
  parseLogFile example_fs "app.log" = example_records.
Proof.
  assert (H : Forall well_formed example_records /\ Forall no_newline example_records /\
              example_fs "app.log" = Some (join newline (format_line <$> example_records))).
  { split; [repeat constructor; well_formed_record|].
    split; [|reflexivity]. repeat constructor; apply (bool_decide_unpack _); vm_compute; exact I. }
  split; [exact H|]. destruct H as (H1 & H2 & H3).
  exact (parseLogFile_format_lines _ _ _ H1 H2 H3).
Defined.

End ParseProps.

End Parser.
