(* ===== verification/Aggregator.v ===== *)
(** * The per-file aggregator (src/main.go 26-40, 91-176)

    [LogSeverityFrequency] and [LogAnalysis] are the structs of main.go
    26-40; [getNumEntries], [getLogSeverityFrequency],
    [getTopFiveLogMessages], [getStartTime] and [getEndTime] the functions
    of main.go 91-164, and [analyzeLogFile] the computation of main.go
    166-173 (the send on the channel and [waitGroup.Done()] of lines
    174-175 are steps of the dispatcher, file Dispatcher).  Counters are
    Go [int64]s incremented with [add64].  The [map[string]int64] of
    [getTopFiveLogMessages] is a [gmap string Z] and its iteration order a
    [MapIter]; the [panic]s of [getStartTime] and [getEndTime] are [Err]
    values. *)

From S2P Require Import Prelude GoStrings GoTime GoSort Parser.
Import GoStrings GoTime GoSort Parser.

#[local] Set Warnings "-clear-no-such-hyp".

Module Aggregator.

#[local] Open Scope Z_scope.

Record LogSeverityFrequency : Type := mkFreq {
  debug : Z;
  info : Z;
  warning : Z;
  error : Z
}.

Definition zeroFreq : LogSeverityFrequency := mkFreq 0 0 0 0.

#[export] Instance LogSeverityFrequency_eq_dec : EqDecision LogSeverityFrequency.
Proof. solve_decision. Defined.

Record LogAnalysis : Type := mkAnalysis {
  numEntries : Z;
  logSeverityFrequency : LogSeverityFrequency;
  topFiveLogMessages : list string;
  topFiveLogMessageFrequencies : list Z;
  startTime : Time;
  endTime : Time
}.

Definition getNumEntries (logMessages : list LogMessage) : Z :=
  Z.of_nat (length logMessages).

(** One iteration of the [switch] of [getLogSeverityFrequency]. *)
Definition count_severity (f : LogSeverityFrequency) (lm : LogMessage)
    : LogSeverityFrequency :=
  if String.eqb (severity lm) "DEBUG" then
    mkFreq (add64 (debug f) 1) (info f) (warning f) (error f)
  else if String.eqb (severity lm) "INFO" then
    mkFreq (debug f) (add64 (info f) 1) (warning f) (error f)
  else if String.eqb (severity lm) "WARNING" then
    mkFreq (debug f) (info f) (add64 (warning f) 1) (error f)
  else if String.eqb (severity lm) "ERROR" then
    mkFreq (debug f) (info f) (warning f) (add64 (error f) 1)
  else f.

Definition getLogSeverityFrequency (logMessages : list LogMessage) : LogSeverityFrequency :=
  fold_left count_severity logMessages zeroFreq.

(** [rankedLogMessages[logMessage.message] += 1]. *)
Definition rank_message (ranked : gmap string Z) (lm : LogMessage) : gmap string Z :=
  <[message lm := add64 (default 0 (ranked !! message lm)) 1]> ranked.

Definition rankLogMessages (logMessages : list LogMessage) : gmap string Z :=
  fold_left rank_message logMessages ∅.

(** [rankedLogMessages[m]]: the zero value for an absent key. *)
Definition count_of (ranked : gmap string Z) (m : string) : Z :=
  default 0 (ranked !! m).

(** The loop [for index := 0; index < maxMessages; index++] that writes
    the first [maxMessages] sorted messages and their counts into the
    five slots. *)
Definition fill_top (ranked : gmap string Z) (messages : list string) (maxMessages : nat)
    (slots : list string * list Z) : list string * list Z :=
  fold_left
    (fun '(tops, freqs) index =>
       (<[index := nth index messages ""]> tops,
        <[index := count_of ranked (nth index messages "")]> freqs))
    (seq 0 maxMessages) slots.

Definition getTopFiveLogMessages (it : MapIter) (logMessages : list LogMessage)
    : list string * list Z :=
  let ranked := rankLogMessages logMessages in
  let slots := (replicate 5 "", replicate 5 0) in
  let messages := sort_stable (count_of ranked) (iter_keys it ranked) in
  if (length messages =? 0)%nat then slots
  else
    let maxMessages := if (5 <=? length messages)%nat then 5%nat else length messages in
    fill_top ranked messages maxMessages slots.

Definition getStartTime (logMessages : list LogMessage) : result Time Panic :=
  match logMessages with
  | [] => Ok zeroTime
  | lm :: _ =>
      match parse_time (timestamp lm) with
      | Some t => Ok t
      | None => Err (GoPanic "Unable to parse start time")
      end
  end.

Definition getEndTime (logMessages : list LogMessage) : result Time Panic :=
  match last logMessages with
  | None => Ok zeroTime
  | Some lm =>
      match parse_time (timestamp lm) with
      | Some t => Ok t
      | None => Err (GoPanic "Unable to parse end time")
      end
  end.

(** The computation of [analyzeLogFile], in the code's order. *)
Definition analyzeLogFile (fs : FileSystem) (it : MapIter) (logPath : string)
    : result LogAnalysis Panic :=
  let logMessages := parseLogFile fs logPath in
  let n := getNumEntries logMessages in
  let sev := getLogSeverityFrequency logMessages in
  let '(tops, freqs) := getTopFiveLogMessages it logMessages in
  let* st := getStartTime logMessages in
  let* et := getEndTime logMessages in
  Ok (mkAnalysis n sev tops freqs st et).

(** ** The five slots of [getTopFiveLogMessages] *)

Section TopFive.

Lemma fill_top_spec ranked messages k :
  (k <= 5)%nat -> (k <= length messages)%nat ->
  fill_top ranked messages k (replicate 5 "", replicate 5 0) =
  (take k messages ++ replicate (5 - k) "",
   (count_of ranked <$> take k messages) ++ replicate (5 - k) 0).
Proof.
  induction k as [|k IH]; intros H5 Hl; [done|].
  unfold fill_top. rewrite seq_S, fold_left_app. simpl.
  change (fold_left _ (seq 0 k) _) with
    (fill_top ranked messages k (replicate 5 "", replicate 5 0)).
  rewrite IH by lia. simpl.
  destruct (nth_lookup_or_length messages k "") as [Hk|]; [|lia].
  rewrite (take_S_r _ _ _ Hk), fmap_app.
  assert (Hlen : length (take k messages) = k) by (apply length_take_le; lia).
  assert (Hlen' : length (count_of ranked <$> take k messages) = k)
    by (by rewrite length_fmap).
  replace (4 - k)%nat with (5 - S k)%nat by lia.
  f_equal; by apply insert_slots_step.
Qed.

(** [getTopFiveLogMessages] in closed form: the first (at most) five
    messages of the stable sort of the map's keys, in iteration order, by
    count, padded with [""] and [0] to five slots. *)
Lemma getTopFiveLogMessages_spec it logMessages :
  getTopFiveLogMessages it logMessages =
  (let ranked := rankLogMessages logMessages in
   let top := take 5 (sort_stable (count_of ranked) (iter_keys it ranked)) in
   (top ++ replicate (5 - length top) "",
    (count_of ranked <$> top) ++ replicate (5 - length top) 0)).
Proof.
  unfold getTopFiveLogMessages. cbv zeta.
  set (ranked := rankLogMessages logMessages).
  set (messages := sort_stable (count_of ranked) (iter_keys it ranked)).
  destruct (length messages =? 0)%nat eqn:E0.
  - apply Nat.eqb_eq, nil_length_inv in E0. by rewrite E0.
  - apply Nat.eqb_neq in E0. rewrite length_take.
    destruct (5 <=? length messages)%nat eqn:E5.
    + apply Nat.leb_le in E5. rewrite fill_top_spec by lia. by rewrite Nat.min_l by lia.
    + apply Nat.leb_gt in E5. rewrite fill_top_spec by lia.
      rewrite Nat.min_r by lia. by rewrite !take_ge by lia.
Qed.

(** C26: the five frequencies do not depend on the order in which Go
    iterates over the map: they are the five largest counts. *)
Theorem getTopFiveLogMessages_freqs_order_independent it1 it2 logMessages :
  snd (getTopFiveLogMessages it1 logMessages) = snd (getTopFiveLogMessages it2 logMessages).
Proof.
  rewrite !getTopFiveLogMessages_spec. simpl.
  set (ranked := rankLogMessages logMessages).
  assert (Hk : count_of ranked <$> sort_stable (count_of ranked) (iter_keys it1 ranked)
             = count_of ranked <$> sort_stable (count_of ranked) (iter_keys it2 ranked)).
  { apply sort_stable_keys. by rewrite !iter_keys_perm. }
  rewrite <- !(length_fmap (count_of ranked) (take 5 _)), !fmap_take, Hk. done.
Qed.

(** With at most five distinct messages, the five slots hold every
    message with its count, then placeholders [("", 0)]: only their order
    depends on the map iteration order. *)
Lemma getTopFiveLogMessages_slots_small it logMessages :
  let ranked := rankLogMessages logMessages in
  (map_size ranked <= 5)%nat ->
  zip (getTopFiveLogMessages it logMessages).1 (getTopFiveLogMessages it logMessages).2
  ≡ₚ ((fun m => (m, count_of ranked m)) <$> (map_to_list ranked).*1)
     ++ replicate (5 - map_size ranked) ("", 0).
Proof.
  cbv zeta. intros H5. rewrite getTopFiveLogMessages_spec. cbv zeta. simpl.
  set (ranked := rankLogMessages logMessages) in *.
  set (sorted := sort_stable (count_of ranked) (iter_keys it ranked)).
  assert (Hp : sorted ≡ₚ (map_to_list ranked).*1)
    by (unfold sorted; by rewrite sort_stable_perm, iter_keys_perm).
  assert (Hl : length sorted = map_size ranked)
    by (by rewrite Hp, length_fmap, length_map_to_list).
  rewrite take_ge by lia. rewrite Hl.
  rewrite zip_with_app by (by rewrite length_fmap). rewrite zip_with_replicate.
  rewrite zip_with_fmap_r, zip_with_diag. by rewrite Hp.
Qed.

End TopFive.

(** ** The counts of [rankLogMessages] *)

Section Ranking.

(** Number of records with message [m]. *)
Definition occurrences (m : string) (logMessages : list LogMessage) : nat :=
  length (filter (fun lm => message lm = m) logMessages).

Lemma occurrences_cons m lm l :
  occurrences m (lm :: l) = ((if decide (message lm = m) then 1 else 0) + occurrences m l)%nat.
Proof. unfold occurrences. rewrite filter_cons. by case_decide. Qed.

Lemma rank_fold_count l r m :
  (forall k, in_int64 (count_of r k)) ->
  count_of (fold_left rank_message l r) m
  = wrap64 (count_of r m + Z.of_nat (occurrences m l)).
Proof.
  revert r. induction l as [|lm l IH]; intros r Hr; simpl.
  - unfold occurrences. rewrite filter_nil. simpl. rewrite Z.add_0_r. by rewrite wrap64_small.
  - rewrite IH.
    + unfold rank_message, count_of at 1. rewrite lookup_insert, occurrences_cons.
      case_decide as Hm; subst; simpl.
      * int64_norm. unfold count_of. f_equal. lia.
      * done.
    + intros k. unfold rank_message, count_of. rewrite lookup_insert.
      case_decide; cbn [default id]; [auto with loga|apply Hr].
Qed.

(** The map counts every message: the count of [m] is its number of
    occurrences as a Go int64. *)
Lemma rankLogMessages_count l m :
  count_of (rankLogMessages l) m = wrap64 (Z.of_nat (occurrences m l)).
Proof.
  unfold rankLogMessages. rewrite rank_fold_count; [done|].
  intros k. unfold count_of. rewrite lookup_empty. simpl. unfold in_int64. lia.
Qed.

Lemma rank_fold_keys l r m :
  is_Some (fold_left rank_message l r !! m) <-> is_Some (r !! m) \/ m ∈ message <$> l.
Proof.
  revert r. induction l as [|lm l IH]; intros r; simpl.
  - set_solver.
  - rewrite IH. unfold rank_message. rewrite lookup_insert. case_decide; subst.
    + split; [intros _; right; left|intros _; by left].
    + rewrite elem_of_cons. naive_solver.
Qed.

Lemma rankLogMessages_keys l m :
  is_Some (rankLogMessages l !! m) <-> m ∈ message <$> l.
Proof.
  unfold rankLogMessages. rewrite rank_fold_keys, lookup_empty.
  split; [intros [[? ?]|?]; done|by right].
Qed.

Lemma occurrences_le m l : (occurrences m l <= length l)%nat.
Proof. apply length_filter. Qed.

End Ranking.

(** ** The ranking of the specification *)

Section TopFiveSpec.

(** Spec 4.2: count the messages, rank by count, break ties by the order
    in which the distinct messages are first seen, keep five. *)
Definition topFive_spec (logMessages : list LogMessage) : list string :=
  take 5 (sort_stable (fun m => Z.of_nat (occurrences m logMessages))
                      (first_seen (message <$> logMessages))).

(** C24: when Go's map iteration happens to visit the messages in the
    order they are first seen, and there are fewer than 2^63 records,
    [getTopFiveLogMessages] returns the specification's ranking, padded
    to five slots. *)
Theorem getTopFiveLogMessages_first_seen it logMessages :
  iter_keys it (rankLogMessages logMessages) = first_seen (message <$> logMessages) ->
  (Z.of_nat (length logMessages) < 2 ^ 63)%Z ->
  fst (getTopFiveLogMessages it logMessages)
  = topFive_spec logMessages ++ replicate (5 - length (topFive_spec logMessages)) "".
Proof.
  intros Hit Hlen. rewrite getTopFiveLogMessages_spec. simpl. rewrite Hit.
  unfold topFive_spec.
  rewrite (sort_stable_ext (count_of (rankLogMessages logMessages))
             (fun m => Z.of_nat (occurrences m logMessages))); [done|].
  intros m. rewrite rankLogMessages_count. apply wrap64_small.
  pose proof (occurrences_le m logMessages). unfold in_int64. lia.
Qed.

(** The records of TestGetTopFiveLogMessages (main-tests.go 88-112). *)
Definition test_top_five_logs : list LogMessage :=
  (fun m => mkLogMessage "" "" "" "" 0 m) <$>
  ["Error 1"; "Error 1"; "Error 2"; "Error 3"; "Error 3"; "Error 3";
   "Error 4"; "Error 5"; "Error 6"].

Lemma getTopFiveLogMessages_first_seen_witness :
  fst (getTopFiveLogMessages (iter_of_order (message <$> test_top_five_logs))
         test_top_five_logs)
  = ["Error 3"; "Error 1"; "Error 2"; "Error 4"; "Error 5"].
Proof.
  rewrite (getTopFiveLogMessages_first_seen _ test_top_five_logs).
  - vm_compute. reflexivity.
  - vm_compute. reflexivity.
  - vm_compute. reflexivity.
Defined.

End TopFiveSpec.

(** ** Severity counts *)

Section Severity.

(** Number of records whose severity is exactly [sev]. *)
Definition severity_count (sev : string) (logMessages : list LogMessage) : Z :=
  Z.of_nat (length (filter (fun lm => severity lm = sev) logMessages)).

Definition sev_ind (sev : string) (lm : LogMessage) : Z :=
  if decide (severity lm = sev) then 1 else 0.

Definition freq_in_range (f : LogSeverityFrequency) : Prop :=
  in_int64 (debug f) /\ in_int64 (info f) /\ in_int64 (warning f) /\ in_int64 (error f).

Lemma severity_count_cons sev lm l :
  severity_count sev (lm :: l) = sev_ind sev lm + severity_count sev l.
Proof.
  unfold severity_count, sev_ind. rewrite filter_cons.
  case_decide; simpl; lia.
Qed.

(** One step of the [switch]: each counter grows by one exactly when the
    severity is its token. *)
Lemma count_severity_spec f lm :
  freq_in_range f ->
  count_severity f lm =
  mkFreq (add64 (debug f) (sev_ind "DEBUG" lm)) (add64 (info f) (sev_ind "INFO" lm))
         (add64 (warning f) (sev_ind "WARNING" lm)) (add64 (error f) (sev_ind "ERROR" lm)).
Proof.
  intros (Hd & Hi & Hw & He). unfold count_severity, sev_ind, add64.
  destruct f as [d i w e]; simpl in *.
  destruct (String.eqb_spec (severity lm) "DEBUG") as [->|H1];
  [|destruct (String.eqb_spec (severity lm) "INFO") as [->|H2];
  [|destruct (String.eqb_spec (severity lm) "WARNING") as [->|H3];
  [|destruct (String.eqb_spec (severity lm) "ERROR") as [->|H4]]]];
  repeat case_decide; simplify_eq; f_equal; rewrite ?Z.add_0_r;
    (reflexivity || (symmetry; by apply wrap64_small)).
Qed.

Lemma fold_count_severity l f :
  freq_in_range f ->
  fold_left count_severity l f =
  mkFreq (wrap64 (debug f + severity_count "DEBUG" l))
         (wrap64 (info f + severity_count "INFO" l))
         (wrap64 (warning f + severity_count "WARNING" l))
         (wrap64 (error f + severity_count "ERROR" l)).
Proof.
  revert f. induction l as [|lm l IH]; intros f Hf; simpl.
  - destruct f as [d i w e], Hf as (?&?&?&?); simpl in *.
    unfold severity_count. rewrite !filter_nil. simpl. rewrite !Z.add_0_r.
    f_equal; symmetry; by apply wrap64_small.
  - rewrite count_severity_spec by done.
    rewrite IH by (unfold freq_in_range; split_and!; cbn [debug info warning error]; auto with loga).
    simpl. int64_norm. rewrite !severity_count_cons.
    f_equal; f_equal; lia.
Qed.

(** C22: the severity counters are the numbers of records whose severity
    is exactly the token, as Go int64s; other severities are counted
    nowhere. *)
Theorem getLogSeverityFrequency_counts logMessages :
  getLogSeverityFrequency logMessages =
  mkFreq (wrap64 (severity_count "DEBUG" logMessages))
         (wrap64 (severity_count "INFO" logMessages))
         (wrap64 (severity_count "WARNING" logMessages))
         (wrap64 (severity_count "ERROR" logMessages)).
Proof.
  unfold getLogSeverityFrequency. rewrite fold_count_severity.
  - done.
  - repeat split; unfold in_int64; simpl; lia.
Qed.

(** The records of TestGetLogSeverityFrequency (main-tests.go 65-73). *)
Definition test_severity_logs : list LogMessage :=
  (fun sev => mkLogMessage "" sev "" "" 0 "") <$>
  ["DEBUG"; "INFO"; "INFO"; "WARNING"; "ERROR"; "ERROR"; "INVALID"].

Lemma severity_count_perm sev l1 l2 :
  l1 ≡ₚ l2 -> severity_count sev l1 = severity_count sev l2.
Proof. intros Hp. unfold severity_count. by rewrite Hp. Qed.

(** C23: the severity counts do not depend on the order of the records. *)
Theorem getLogSeverityFrequency_perm l1 l2 :
  l1 ≡ₚ l2 -> getLogSeverityFrequency l1 = getLogSeverityFrequency l2.
Proof.
  intros Hp. unfold getLogSeverityFrequency.
  rewrite !fold_count_severity by (repeat split; unfold in_int64; simpl; lia).
  by rewrite !(severity_count_perm _ l1 l2 Hp).
Qed.

Lemma getLogSeverityFrequency_perm_witness :
  getLogSeverityFrequency (test_severity_logs ++ [mkLogMessage "" "ERROR" "" "" 0 ""])
  = getLogSeverityFrequency (mkLogMessage "" "ERROR" "" "" 0 "" :: test_severity_logs).
Proof.
  apply getLogSeverityFrequency_perm. by rewrite Permutation_app_comm.
Defined.

End Severity.

(** ** The analysis of one file *)

Section AnalyzeFile.

(** The analysis of a file with no record. *)
Definition emptyAnalysis : LogAnalysis :=
  mkAnalysis 0 zeroFreq (replicate 5 "") (replicate 5 0) zeroTime zeroTime.

(** What every per-file analysis satisfies: five message slots and five
    frequency slots. *)
Definition wf_analysis (a : LogAnalysis) : Prop :=
  length (topFiveLogMessages a) = 5%nat /\ length (topFiveLogMessageFrequencies a) = 5%nat.

Lemma getTopFiveLogMessages_length it logMessages :
  length (fst (getTopFiveLogMessages it logMessages)) = 5%nat /\
  length (snd (getTopFiveLogMessages it logMessages)) = 5%nat.
Proof.
  rewrite getTopFiveLogMessages_spec. simpl.
  rewrite !length_app, !length_replicate, length_fmap, length_take. lia.
Qed.

(** C28: an unreadable file, an empty file or a file of which no line
    parses gives the zero counts, five empty slots and the zero time. *)
Theorem analyzeLogFile_no_records fs it logPath :
  parseLogFile fs logPath = [] -> analyzeLogFile fs it logPath = Ok emptyAnalysis.
Proof.
  intros H. unfold analyzeLogFile. rewrite H, getTopFiveLogMessages_spec. simpl.
  unfold rankLogMessages. simpl. by rewrite iter_keys_empty.
Qed.

(** C29: when the first record's timestamp is not in the layout, the
    goroutine panics: [parseLogMessage] accepts any non-empty timestamp. *)
Theorem analyzeLogFile_start_panic fs it logPath lm rest :
  parseLogFile fs logPath = lm :: rest ->
  parse_time (timestamp lm) = None ->
  analyzeLogFile fs it logPath = Err (GoPanic "Unable to parse start time").
Proof.
  intros H Ht. unfold analyzeLogFile. rewrite H.
  destruct (getTopFiveLogMessages it (lm :: rest)). simpl. by rewrite Ht.
Qed.

(** a returned analysis has the record count, the severity counts,
    the five slots of [getTopFiveLogMessages] and the parsed timestamps
    of the first and the last record. *)
Theorem analyzeLogFile_ok fs it logPath a :
  analyzeLogFile fs it logPath = Ok a ->
  let logMessages := parseLogFile fs logPath in
  numEntries a = Z.of_nat (length logMessages) /\
  logSeverityFrequency a = getLogSeverityFrequency logMessages /\
  (topFiveLogMessages a, topFiveLogMessageFrequencies a) = getTopFiveLogMessages it logMessages /\
  wf_analysis a /\
  getStartTime logMessages = Ok (startTime a) /\
  getEndTime logMessages = Ok (endTime a).
Proof.
  unfold analyzeLogFile. cbv zeta.
  pose proof (getTopFiveLogMessages_length it (parseLogFile fs logPath)) as [H1 H2].
  destruct (getTopFiveLogMessages it _) as [tops freqs] eqn:Ht.
  destruct (getStartTime _) as [st|]; [|done]. destruct (getEndTime _) as [et|]; [|done].
  intros [= <-]. simpl in *. by repeat split.
Qed.

Lemma analyzeLogFile_no_records_witness :
  analyzeLogFile (fun _ => None) canonical_iter "missing.log" = Ok emptyAnalysis.
Proof. apply analyzeLogFile_no_records. reflexivity. Defined.

Lemma analyzeLogFile_start_panic_witness :
  analyzeLogFile (fun _ => Some "yesterday | INFO | m: f: 1 - up") canonical_iter "x.log"
  = Err (GoPanic "Unable to parse start time").
Proof.
  apply (analyzeLogFile_start_panic _ _ _ (mkLogMessage "yesterday" "INFO" "m" "f" 1 "up") []).
  - vm_compute. reflexivity.
  - vm_compute. reflexivity.
Defined.

(** C27: every analysis [analyzeLogFile] returns has five message slots
    and five frequency slots, the shape [analyzeTopFiveLogMessages]
    indexes without bound checks. *)
Theorem analyzeLogFile_wf fs it logPath a :
  analyzeLogFile fs it logPath = Ok a -> wf_analysis a.
Proof. intros H. by destruct (analyzeLogFile_ok _ _ _ _ H) as (_ & _ & _ & ? & _). Qed.

Lemma analyzeLogFile_wf_witness :
  wf_analysis (match analyzeLogFile (fun _ => Some "2024-01-01 00:00:00.000 | INFO | m: f: 1 - up")
                       canonical_iter "x.log" with Ok a => a | Err _ => emptyAnalysis end).
Proof. apply (analyzeLogFile_wf (fun _ => Some "2024-01-01 00:00:00.000 | INFO | m: f: 1 - up")
                                canonical_iter "x.log"). vm_compute. reflexivity. Defined.

(** When the first and last timestamps parse, the analysis is made of the
    record count, the severity counts, the five slots and the two
    times. *)
Lemma analyzeLogFile_eq fs it logPath st et :
  getStartTime (parseLogFile fs logPath) = Ok st ->
  getEndTime (parseLogFile fs logPath) = Ok et ->
  analyzeLogFile fs it logPath =
  Ok (mkAnalysis (Z.of_nat (length (parseLogFile fs logPath)))
        (getLogSeverityFrequency (parseLogFile fs logPath))
        (getTopFiveLogMessages it (parseLogFile fs logPath)).1
        (getTopFiveLogMessages it (parseLogFile fs logPath)).2 st et).
Proof.
  intros Hs He. unfold analyzeLogFile. rewrite Hs, He.
  by destruct (getTopFiveLogMessages it _).
Qed.

(** [analyzeLogFile] reads the file system only at its path. *)
Lemma analyzeLogFile_ext fs1 fs2 it p1 p2 :
  fs1 p1 = fs2 p2 -> analyzeLogFile fs1 it p1 = analyzeLogFile fs2 it p2.
Proof. intros H. unfold analyzeLogFile. by rewrite (parseLogFile_ext fs1 fs2 p1 p2 H). Qed.

(** A message counted more often than every other comes first, whatever
    the map iteration order. *)
Lemma getTopFiveLogMessages_head it logMessages k :
  let ranked := rankLogMessages logMessages in
  is_Some (ranked !! k) ->
  (forall m, is_Some (ranked !! m) -> m <> k -> count_of ranked m < count_of ranked k) ->
  head (getTopFiveLogMessages it logMessages).1 = Some k.
Proof.
  cbv zeta. intros Hk Hmax. rewrite getTopFiveLogMessages_spec. cbv zeta. simpl.
  set (ranked := rankLogMessages logMessages) in *.
  assert (Hh : head (sort_stable (count_of ranked) (iter_keys it ranked)) = Some k).
  { apply sort_stable_head_max; [apply _| |].
    - rewrite iter_keys_perm. by apply elem_of_map_keys.
    - intros m Hm. rewrite iter_keys_perm, elem_of_map_keys in Hm. by apply Hmax. }
  destruct (sort_stable _ _); simplify_eq/=. done.
Qed.

(** The file of TestAnalyzeLogFile (main-tests.go 153-156). *)
Definition testLogContent : string :=
"2024-01-01 00:00:00.000 | INFO | app.module: function: 123 - User logged in
2024-01-01 00:01:00.000 | ERROR | app.module: function: 124 - Database connection failed
2024-01-01 00:02:00.000 | ERROR | app.module: function: 125 - Database connection failed".

Definition testLogFS : FileSystem := fun p => if String.eqb p "test.log" then Some testLogContent else None.

(** The file of TestAnalyzeLogFile gives, whatever the map iteration
    order, 3 entries, INFO 1, ERROR 2 and the top message "Database
    connection failed". *)
Lemma TestAnalyzeLogFile_every_map_order it :
  exists a, analyzeLogFile testLogFS it "test.log" = Ok a /\ numEntries a = 3 /\
    info (logSeverityFrequency a) = 1 /\ error (logSeverityFrequency a) = 2 /\
    head (topFiveLogMessages a) = Some "Database connection failed".
Proof.
  rewrite (analyzeLogFile_eq _ _ _ (mkTime 63839664000 0) (mkTime 63839664120 0))
    by (vm_compute; reflexivity).
  eexists. split; [reflexivity|]. cbn [numEntries logSeverityFrequency topFiveLogMessages].
  split; [vm_compute; reflexivity|]. split; [vm_compute; reflexivity|].
  split; [vm_compute; reflexivity|].
  apply getTopFiveLogMessages_head.
  - apply (bool_decide_unpack _). vm_compute. reflexivity.
  - intros m Hm Hne. rewrite <- elem_of_map_keys in Hm. revert m Hm Hne.
    apply (Forall_forall (fun m => m <> "Database connection failed" ->
      count_of (rankLogMessages (parseLogFile testLogFS "test.log")) m <
      count_of (rankLogMessages (parseLogFile testLogFS "test.log")) "Database connection failed")).
    apply (bool_decide_unpack _). vm_compute. reflexivity.
Qed.

(** The records of TestGetStartAndEndTime (main-tests.go 115-119). *)
Definition test_time_logs : list LogMessage :=
  (fun ts => mkLogMessage ts "" "" "" 0 "") <$>
  ["2024-01-01 00:00:00.000"; "2024-01-01 12:00:00.000"; "2024-01-02 00:00:00.000"].

End AnalyzeFile.

End Aggregator.
