(* ===== verification/Reducer.v ===== *)
(** * The cross-file reducer (src/main.go 199-267)

    [analyzeTopFiveLogMessages] (main.go 199-232) sums, per message, the
    frequencies of the (at most) five slots of every analysis into a
    [map[string]int64], ranges over it (a [MapIter]), sorts stably by the
    sums and keeps five messages; the indexing of the frequency slice
    panics when it is shorter than the message slice.  Its
    [fmt.Println] of the slice (main.go 230) is a line of the output of
    [Printer.main_prints]: the slice it prints is the top five of the
    analysis the reducer returns.  [analyzelogAnalyses]
    (main.go 234-267) panics on an empty slice, takes the start and end
    time of the first analysis, copies the global top five and folds every
    analysis into the sums and the minimum start / maximum end time. *)

From S2P Require Import Prelude GoStrings GoTime GoSort Parser Aggregator.
Import GoTime GoSort Aggregator.

#[local] Set Warnings "-clear-no-such-hyp".

Module Reducer.

#[local] Open Scope Z_scope.

(** [for index := 0; index < n; index++ { out = append(out, l[index]) }]. *)
Definition copy_prefix (n : nat) (l : list string) : list string :=
  fold_left (fun out index => out ++ [nth index l ""]) (seq 0 n) [].

(** [maxMessages] of a slice: [min(5, len)]. *)
Definition maxMessages {A} (l : list A) : nat :=
  if (5 <=? length l)%nat then 5%nat else length l.

(** One iteration of the inner loop of [analyzeTopFiveLogMessages]:
    [rankedLogMessages[tops[index]] += freqs[index]]. *)
Definition add_slot (a : LogAnalysis) (acc : result (gmap string Z) Panic) (index : nat)
    : result (gmap string Z) Panic :=
  let* ranked := acc in
  let m := nth index (topFiveLogMessages a) "" in
  match topFiveLogMessageFrequencies a !! index with
  | None => Err (GoPanic "runtime error: index out of range")
  | Some f => Ok (<[m := add64 (count_of ranked m) f]> ranked)
  end.

(** The outer loop's body: the slots of one analysis. *)
Definition add_analysis (acc : result (gmap string Z) Panic) (a : LogAnalysis)
    : result (gmap string Z) Panic :=
  fold_left (add_slot a) (seq 0 (maxMessages (topFiveLogMessages a))) acc.

Definition analyzeTopFiveLogMessages (it : MapIter) (logAnalyses : list LogAnalysis)
    : result (list string) Panic :=
  let* ranked := fold_left add_analysis logAnalyses (Ok ∅) in
  let messages := sort_stable (count_of ranked) (iter_keys it ranked) in
  Ok (copy_prefix (maxMessages messages) messages).

(** One iteration of the last loop of [analyzelogAnalyses]. *)
Definition merge_analysis (fin a : LogAnalysis) : LogAnalysis :=
  let f := logSeverityFrequency fin in
  let g := logSeverityFrequency a in
  mkAnalysis
    (add64 (numEntries fin) (numEntries a))
    (mkFreq (add64 (debug f) (debug g)) (add64 (info f) (info g))
            (add64 (warning f) (warning g)) (add64 (error f) (error g)))
    (topFiveLogMessages fin) (topFiveLogMessageFrequencies fin)
    (if After (startTime fin) (startTime a) then startTime a else startTime fin)
    (if Before (endTime fin) (endTime a) then endTime a else endTime fin).

Definition analyzelogAnalyses (it : MapIter) (logAnalyses : list LogAnalysis)
    : result LogAnalysis Panic :=
  match logAnalyses with
  | [] => Err (GoPanic "No analysis found")
  | a0 :: _ =>
      let* top := analyzeTopFiveLogMessages it logAnalyses in
      let fin := mkAnalysis 0 zeroFreq (copy_prefix (maxMessages top) top) []
                   (startTime a0) (endTime a0) in
      Ok (fold_left merge_analysis logAnalyses fin)
  end.

(** ** The copy loops and the merge loop *)

Section Loops.

Lemma maxMessages_min {A} (l : list A) : maxMessages l = Nat.min 5 (length l).
Proof. unfold maxMessages. destruct (Nat.leb_spec 5 (length l)); lia. Qed.

Lemma copy_prefix_take n l : (n <= length l)%nat -> copy_prefix n l = take n l.
Proof.
  induction n as [|n IH]; intros Hn; [done|].
  unfold copy_prefix. rewrite seq_S, fold_left_app. simpl.
  change (fold_left _ (seq 0 n) []) with (copy_prefix n l). rewrite IH by lia.
  destruct (nth_lookup_or_length l n "") as [Hl|]; [|lia].
  by rewrite (take_S_r _ _ _ Hl).
Qed.

Lemma copy_prefix_max l : copy_prefix (maxMessages l) l = take 5 l.
Proof.
  unfold maxMessages. destruct (5 <=? length l)%nat eqn:E.
  - apply Nat.leb_le in E. by apply copy_prefix_take.
  - apply Nat.leb_gt in E. rewrite copy_prefix_take by lia.
    rewrite !take_ge by lia. done.
Qed.

Definition min_fold (S : list Time) (t0 : Time) : Time :=
  fold_left (fun cur x => if After cur x then x else cur) S t0.

Definition max_fold (S : list Time) (t0 : Time) : Time :=
  fold_left (fun cur x => if Before cur x then x else cur) S t0.

(** The merge loop adds the counters as Go int64s and keeps the earliest
    start and the latest end. *)
Lemma fold_merge_analysis L fin :
  in_int64 (numEntries fin) -> freq_in_range (logSeverityFrequency fin) ->
  let r := fold_left merge_analysis L fin in
  let f := logSeverityFrequency fin in
  numEntries r = wrap64 (numEntries fin + sumZ numEntries L) /\
  logSeverityFrequency r =
    mkFreq (wrap64 (debug f + sumZ (fun a => debug (logSeverityFrequency a)) L))
           (wrap64 (info f + sumZ (fun a => info (logSeverityFrequency a)) L))
           (wrap64 (warning f + sumZ (fun a => warning (logSeverityFrequency a)) L))
           (wrap64 (error f + sumZ (fun a => error (logSeverityFrequency a)) L)) /\
  topFiveLogMessages r = topFiveLogMessages fin /\
  topFiveLogMessageFrequencies r = topFiveLogMessageFrequencies fin /\
  startTime r = min_fold (startTime <$> L) (startTime fin) /\
  endTime r = max_fold (endTime <$> L) (endTime fin).
Proof.
  revert fin. induction L as [|a L IH]; intros fin Hn Hf; simpl.
  - destruct fin as [n [d i w e] t fs st et], Hf as (?&?&?&?); simpl in *.
    unfold sumZ; simpl. rewrite !Z.add_0_r, !wrap64_small by done. by repeat split.
  - destruct (IH (merge_analysis fin a)) as (H1 & H2 & H3 & H4 & H5 & H6);
      [simpl; auto with loga|unfold freq_in_range; simpl; split_and!; auto with loga|].
    rewrite H1, H2, H3, H4, H5, H6. simpl. int64_norm.
    unfold sumZ; simpl. repeat split; try (f_equal; lia); f_equal; f_equal; lia.
Qed.

End Loops.

(** ** Summing the slots *)

Section Slots.

(** The (message, frequency) slots of an analysis. *)
Definition slot_pairs (a : LogAnalysis) : list (string * Z) :=
  zip (topFiveLogMessages a) (topFiveLogMessageFrequencies a).

(** [ranked[m] += f] for one slot. *)
Definition add_pair (ranked : gmap string Z) (p : string * Z) : gmap string Z :=
  <[p.1 := add64 (count_of ranked p.1) p.2]> ranked.

Definition add_pairs (ranked : gmap string Z) (ps : list (string * Z)) : gmap string Z :=
  fold_left add_pair ps ranked.

Lemma add_slots_Err a idx e : fold_left (add_slot a) idx (Err e) = Err e.
Proof. induction idx as [|i idx IH]; simpl; done. Qed.

Lemma add_analysis_Err L e : fold_left add_analysis L (Err e) = Err e.
Proof.
  induction L as [|a L IH]; simpl; [done|].
  unfold add_analysis at 2. by rewrite add_slots_Err.
Qed.

(** A well-formed analysis adds its five slots and does not panic. *)
Lemma add_analysis_wf r a :
  wf_analysis a -> add_analysis (Ok r) a = Ok (add_pairs r (slot_pairs a)).
Proof.
  intros [Ht Hf]. unfold add_analysis, maxMessages. rewrite Ht.
  replace (if (5 <=? 5)%nat then 5%nat else 5%nat) with 5%nat by reflexivity.
  assert (Hgen : forall n, (n <= 5)%nat ->
            fold_left (add_slot a) (seq 0 n) (Ok r) = Ok (add_pairs r (take n (slot_pairs a)))).
  { induction n as [|n IH]; intros Hn; [done|].
    rewrite seq_S, fold_left_app, IH by lia. simpl.
    destruct (nth_lookup_or_length (topFiveLogMessages a) n "") as [Hm|]; [|lia].
    destruct (lookup_lt_is_Some_2 (topFiveLogMessageFrequencies a) n) as [f Hfn]; [lia|].
    rewrite Hfn.
    assert (Hz : slot_pairs a !! n = Some (nth n (topFiveLogMessages a) "", f)).
    { unfold slot_pairs. rewrite lookup_zip_with, Hm, Hfn. done. }
    rewrite (take_S_r _ _ _ Hz). unfold add_pairs. by rewrite fold_left_app. }
  rewrite Hgen by lia. rewrite take_ge; [done|].
  unfold slot_pairs. rewrite length_zip_with. lia.
Qed.

Lemma fold_add_analysis_wf L r :
  Forall wf_analysis L ->
  fold_left add_analysis L (Ok r) = Ok (add_pairs r (L ≫= slot_pairs)).
Proof.
  revert r. induction L as [|a L IH]; intros r HL; simpl; [done|].
  apply Forall_cons in HL as [Ha HL].
  rewrite add_analysis_wf, IH by done. unfold add_pairs. by rewrite fold_left_app.
Qed.

(** The map of the reducer: each message's count is the sum, as a Go
    int64, of the frequencies of its slots in all analyses. *)
Lemma add_pairs_count ps r m :
  (forall k, in_int64 (count_of r k)) ->
  count_of (add_pairs r ps) m
  = wrap64 (count_of r m + sumZ snd (filter (fun p => p.1 = m) ps)).
Proof.
  revert r. induction ps as [|[k f] ps IH]; intros r Hr; simpl.
  - unfold sumZ. rewrite ?filter_nil. simpl. rewrite Z.add_0_r. symmetry. apply wrap64_small, Hr.
  - rewrite IH.
    + unfold add_pair, count_of at 1. simpl. rewrite lookup_insert, filter_cons.
      case_decide as Hk; simpl.
      * subst. rewrite decide_True by done. unfold sumZ. simpl.
        int64_norm. f_equal. lia.
      * by rewrite decide_False.
    + intros k'. unfold add_pair, count_of. simpl. rewrite lookup_insert.
      case_decide; cbn [default id]; [auto with loga|apply Hr].
Qed.

Lemma add_pairs_keys ps r m :
  is_Some (add_pairs r ps !! m) <-> is_Some (r !! m) \/ m ∈ ps.*1.
Proof.
  revert r. induction ps as [|[k f] ps IH]; intros r; simpl.
  - set_solver.
  - unfold add_pairs in *. simpl. rewrite IH. unfold add_pair. simpl.
    rewrite lookup_insert. case_decide; subst.
    + split; [intros _; right; left|intros _; by left].
    + rewrite elem_of_cons. naive_solver.
Qed.

(** The global map of [analyzeTopFiveLogMessages] on well-formed
    analyses. *)
Definition global_ranked (L : list LogAnalysis) : gmap string Z :=
  add_pairs ∅ (L ≫= slot_pairs).

Lemma analyzeTopFiveLogMessages_wf it L :
  Forall wf_analysis L ->
  analyzeTopFiveLogMessages it L
  = Ok (take 5 (sort_stable (count_of (global_ranked L)) (iter_keys it (global_ranked L)))).
Proof.
  intros HL. unfold analyzeTopFiveLogMessages.
  rewrite fold_add_analysis_wf by done. simpl. by rewrite copy_prefix_max.
Qed.

End Slots.

(** ** The global analysis *)

Section Global.

Lemma analyzelogAnalyses_ok_inv it L r :
  analyzelogAnalyses it L = Ok r ->
  exists a0 L' top,
    L = a0 :: L' /\ analyzeTopFiveLogMessages it L = Ok top /\
    r = fold_left merge_analysis L
          (mkAnalysis 0 zeroFreq (take 5 top) [] (startTime a0) (endTime a0)).
Proof.
  unfold analyzelogAnalyses. destruct L as [|a0 L']; [done|].
  destruct (analyzeTopFiveLogMessages it (a0 :: L')) as [top|] eqn:Ht; [|done].
  simpl. intros [= <-]. exists a0, L', top. by rewrite copy_prefix_max.
Qed.

Lemma fold_merge_top L fin :
  topFiveLogMessages (fold_left merge_analysis L fin) = topFiveLogMessages fin.
Proof. revert fin. induction L as [|a L IH]; intros fin; [done|]. simpl. by rewrite IH. Qed.

Lemma analyzeTopFiveLogMessages_take it L top :
  analyzeTopFiveLogMessages it L = Ok top -> take 5 top = top.
Proof.
  unfold analyzeTopFiveLogMessages. destruct (fold_left add_analysis L (Ok ∅)); [|done].
  simpl. intros [= <-]. by rewrite copy_prefix_max, take_take, Nat.min_id.
Qed.

(** The slice [analyzeTopFiveLogMessages] prints (main.go 230) is the
    top five of the analysis [analyzelogAnalyses] returns. *)
Lemma analyzelogAnalyses_printed_top it L r top :
  analyzelogAnalyses it L = Ok r -> analyzeTopFiveLogMessages it L = Ok top ->
  topFiveLogMessages r = top.
Proof.
  intros H Ht. destruct (analyzelogAnalyses_ok_inv _ _ _ H) as (a0 & L' & top' & -> & Ht' & ->).
  rewrite Ht in Ht'. injection Ht' as <-. rewrite fold_merge_top. simpl.
  exact (analyzeTopFiveLogMessages_take _ _ _ Ht).
Qed.

Lemma zero_counters_in_range : in_int64 0 /\ freq_in_range zeroFreq.
Proof. unfold freq_in_range, in_int64. simpl. lia. Qed.

(** On well-formed analyses the reducer returns the fold of the merge
    over the global top five. *)
Lemma analyzelogAnalyses_wf_eq it a0 L :
  Forall wf_analysis (a0 :: L) ->
  analyzelogAnalyses it (a0 :: L) =
  Ok (fold_left merge_analysis (a0 :: L)
        (mkAnalysis 0 zeroFreq
           (take 5 (take 5 (sort_stable (count_of (global_ranked (a0 :: L)))
                             (iter_keys it (global_ranked (a0 :: L))))))
           [] (startTime a0) (endTime a0))).
Proof.
  intros HL. unfold analyzelogAnalyses. rewrite analyzeTopFiveLogMessages_wf by done.
  simpl. by rewrite copy_prefix_max.
Qed.

(** C15: a batch of well-formed per-file analyses (five message and five
    frequency slots, as [analyzeLogFile] returns) is reduced without
    panic. *)
Theorem analyzelogAnalyses_no_panic it L :
  Forall wf_analysis L -> L <> [] -> exists r, analyzelogAnalyses it L = Ok r.
Proof.
  intros HL Hne. destruct L as [|a0 L']; [done|].
  rewrite analyzelogAnalyses_wf_eq by done. by eexists.
Qed.

(** The global top five: the first five keys of the summed map, in map
    iteration order stably sorted by sum; no frequencies. *)
Lemma analyzelogAnalyses_ok_top it L r :
  Forall wf_analysis L -> analyzelogAnalyses it L = Ok r ->
  topFiveLogMessages r =
    take 5 (sort_stable (count_of (global_ranked L)) (iter_keys it (global_ranked L))) /\
  topFiveLogMessageFrequencies r = [].
Proof.
  intros HL H. destruct L as [|a0 L']; [done|].
  rewrite analyzelogAnalyses_wf_eq in H by done. injection H as <-.
  destruct zero_counters_in_range as [H0 Hf].
  destruct (fold_merge_analysis (a0 :: L') (mkAnalysis 0 zeroFreq (take 5 (take 5
    (sort_stable (count_of (global_ranked (a0 :: L'))) (iter_keys it (global_ranked (a0 :: L'))))))
    [] (startTime a0) (endTime a0)) H0 Hf) as (_ & _ & H3 & H4 & _).
  cbn [fold_left] in H3, H4. rewrite H3, H4. simpl. by rewrite take_take, Nat.min_id.
Qed.

(** C32: the slice [analyzeTopFiveLogMessages] prints on standard
    output (main.go 230) holds at most five messages and is the top five
    of the analysis [analyzelogAnalyses] returns, whatever the batch and
    the map order. *)
Theorem analyzeTopFiveLogMessages_printed_slice it L r top :
  analyzelogAnalyses it L = Ok r -> analyzeTopFiveLogMessages it L = Ok top ->
  topFiveLogMessages r = top /\ (length top <= 5)%nat.
Proof.
  intros H Ht. split; [exact (analyzelogAnalyses_printed_top _ _ _ _ H Ht)|].
  rewrite <- (analyzeTopFiveLogMessages_take _ _ _ Ht), length_take. lia.
Qed.

Lemma global_ranked_count L m :
  count_of (global_ranked L) m = wrap64 (sumZ snd (filter (fun p => p.1 = m) (L ≫= slot_pairs))).
Proof.
  unfold global_ranked. rewrite add_pairs_count.
  - unfold count_of. by rewrite lookup_empty.
  - intros k. unfold count_of, in_int64. rewrite lookup_empty. simpl. lia.
Qed.

Lemma global_ranked_keys L m :
  is_Some (global_ranked L !! m) <-> m ∈ (L ≫= slot_pairs).*1.
Proof.
  unfold global_ranked. rewrite add_pairs_keys, lookup_empty.
  split; [intros [[? ?]|?]; done|by right].
Qed.

(** The global map depends only on the multiset of the slots. *)
Lemma global_ranked_slots_perm L1 L2 :
  L1 ≫= slot_pairs ≡ₚ L2 ≫= slot_pairs -> global_ranked L1 = global_ranked L2.
Proof.
  intros Hp. apply map_eq. intros m.
  pose proof (global_ranked_count L1 m) as C1. pose proof (global_ranked_count L2 m) as C2.
  pose proof (global_ranked_keys L1 m) as K1. pose proof (global_ranked_keys L2 m) as K2.
  rewrite Hp in C1, K1. rewrite <- C2 in C1. rewrite <- K2 in K1. unfold count_of in C1.
  destruct (global_ranked L1 !! m) eqn:E1, (global_ranked L2 !! m) eqn:E2; simpl in *.
  - by subst.
  - destruct (proj1 K1 ltac:(by eexists)) as [? ?]. done.
  - destruct (proj2 K1 ltac:(by eexists)) as [? ?]. done.
  - done.
Qed.

(** The counters and times of the global analysis: sums as Go int64s,
    the earliest start and the latest end. *)
Lemma analyzelogAnalyses_ok_fields it L r :
  analyzelogAnalyses it L = Ok r ->
  numEntries r = wrap64 (sumZ numEntries L) /\
  logSeverityFrequency r =
    mkFreq (wrap64 (sumZ (fun a => debug (logSeverityFrequency a)) L))
           (wrap64 (sumZ (fun a => info (logSeverityFrequency a)) L))
           (wrap64 (sumZ (fun a => warning (logSeverityFrequency a)) L))
           (wrap64 (sumZ (fun a => error (logSeverityFrequency a)) L)) /\
  is_min_time (startTime r) (startTime <$> L) /\ is_max_time (endTime r) (endTime <$> L).
Proof.
  intros H. destruct (analyzelogAnalyses_ok_inv _ _ _ H) as (a0 & L' & top & -> & _ & ->).
  destruct zero_counters_in_range as [H0 Hf].
  destruct (fold_merge_analysis (a0 :: L')
    (mkAnalysis 0 zeroFreq (take 5 top) [] (startTime a0) (endTime a0)) H0 Hf)
    as (H1 & H2 & _ & _ & H5 & H6).
  rewrite H1, H2, H5, H6. cbn [startTime endTime]. split; [done|]. split; [done|]. split.
  - rewrite <- (is_min_time_cons_elem _ (startTime a0)) by set_solver.
    apply fold_min_time.
  - rewrite <- (is_max_time_cons_elem _ (endTime a0)) by set_solver.
    apply fold_max_time.
Qed.

(** What the reducer computes besides the top five: the counters, the
    start and the end time. *)
Definition stats (a : LogAnalysis) : Z * LogSeverityFrequency * Time * Time :=
  (numEntries a, logSeverityFrequency a, startTime a, endTime a).

(** The counters and times of the global analysis depend only on the
    multiset of the counters and times of the analyses. *)
Lemma analyzelogAnalyses_stats_perm it1 it2 L1 L2 r1 r2 :
  stats <$> L1 ≡ₚ stats <$> L2 ->
  analyzelogAnalyses it1 L1 = Ok r1 -> analyzelogAnalyses it2 L2 = Ok r2 ->
  stats r1 = stats r2.
Proof.
  intros Hp H1 H2.
  destruct (analyzelogAnalyses_ok_fields _ _ _ H1) as (Hn1 & Hs1 & Ht1 & He1).
  destruct (analyzelogAnalyses_ok_fields _ _ _ H2) as (Hn2 & Hs2 & Ht2 & He2).
  assert (Hsum : forall g : _ -> Z, sumZ (fun a => g (stats a)) L1 = sumZ (fun a => g (stats a)) L2).
  { intros g. rewrite <- !(sumZ_fmap g stats). by rewrite Hp. }
  assert (Hmap : forall g : _ -> Time, (g ∘ stats) <$> L1 ≡ₚ (g ∘ stats) <$> L2).
  { intros g. rewrite !list_fmap_compose. by rewrite Hp. }
  change (startTime <$> L1) with ((fun s => s.1.2) ∘ stats <$> L1) in Ht1.
  change (endTime <$> L1) with ((fun s => s.2) ∘ stats <$> L1) in He1.
  rewrite Hmap in Ht1, He1.
  unfold stats. rewrite Hn1, Hn2, Hs1, Hs2.
  rewrite (is_min_time_unique _ _ _ Ht1 Ht2), (is_max_time_unique _ _ _ He1 He2).
  rewrite (Hsum (fun s => s.1.1.1) : sumZ numEntries L1 = _),
    (Hsum (fun s => debug s.1.1.2) : sumZ (fun a => debug (logSeverityFrequency a)) L1 = _),
    (Hsum (fun s => info s.1.1.2) : sumZ (fun a => info (logSeverityFrequency a)) L1 = _),
    (Hsum (fun s => warning s.1.1.2) : sumZ (fun a => warning (logSeverityFrequency a)) L1 = _),
    (Hsum (fun s => error s.1.1.2) : sumZ (fun a => error (logSeverityFrequency a)) L1 = _).
  done.
Qed.

(** C10: the global entry count and severity counts are the sums, as Go
    int64s, of the per-file ones. *)
Theorem analyzelogAnalyses_counts it L r :
  analyzelogAnalyses it L = Ok r ->
  numEntries r = wrap64 (sumZ numEntries L) /\
  logSeverityFrequency r =
    mkFreq (wrap64 (sumZ (fun a => debug (logSeverityFrequency a)) L))
           (wrap64 (sumZ (fun a => info (logSeverityFrequency a)) L))
           (wrap64 (sumZ (fun a => warning (logSeverityFrequency a)) L))
           (wrap64 (sumZ (fun a => error (logSeverityFrequency a)) L)).
Proof. intros H. by destruct (analyzelogAnalyses_ok_fields _ _ _ H) as (? & ? & _). Qed.

(** C11: the global start time is the earliest per-file start time and the
    global end time the latest per-file end time (Go's [Before]). *)
Theorem analyzelogAnalyses_times it L r :
  analyzelogAnalyses it L = Ok r ->
  is_min_time (startTime r) (startTime <$> L) /\ is_max_time (endTime r) (endTime <$> L).
Proof. intros H. by destruct (analyzelogAnalyses_ok_fields _ _ _ H) as (_ & _ & ? & ?). Qed.

(** C12: the order in which the per-file analyses arrive changes neither
    the counts nor the start and end time of the global analysis, whatever
    the map iteration orders. *)
Theorem analyzelogAnalyses_order_independent it1 it2 L1 L2 r1 r2 :
  L1 ≡ₚ L2 ->
  analyzelogAnalyses it1 L1 = Ok r1 -> analyzelogAnalyses it2 L2 = Ok r2 ->
  numEntries r1 = numEntries r2 /\ logSeverityFrequency r1 = logSeverityFrequency r2 /\
  startTime r1 = startTime r2 /\ endTime r1 = endTime r2.
Proof.
  intros Hp H1 H2.
  pose proof (analyzelogAnalyses_stats_perm _ _ _ _ _ _ (fmap_Permutation stats _ _ Hp) H1 H2) as Hs.
  unfold stats in Hs. simplify_eq. done.
Qed.

(** C13: the global top five are the first five keys of the map of summed
    slot frequencies, in map iteration order stably sorted by sum; the
    empty placeholder slots are keys too; the global analysis carries no
    frequencies. *)
Theorem analyzelogAnalyses_top_five it L r :
  Forall wf_analysis L ->
  analyzelogAnalyses it L = Ok r ->
  let R := global_ranked L in
  topFiveLogMessages r = take 5 (sort_stable (count_of R) (iter_keys it R)) /\
  topFiveLogMessageFrequencies r = [] /\
  (forall m, count_of R m = wrap64 (sumZ snd (filter (fun p => p.1 = m) (L ≫= slot_pairs)))) /\
  (forall m, is_Some (R !! m) <-> m ∈ (L ≫= slot_pairs).*1).
Proof.
  intros HL H. destruct (analyzelogAnalyses_ok_top _ _ _ HL H) as [H1 H2].
  split; [done|]. split; [done|]. split.
  - intros m. apply global_ranked_count.
  - intros m. apply global_ranked_keys.
Qed.

(** C14: an analysis with no record (an empty or unreadable file) makes
    the global start time the zero time, 1 January of year 1, as soon as
    no start time is before it: the zero value takes part in the minimum. *)
Theorem analyzelogAnalyses_zero_start it L r :
  emptyAnalysis ∈ L ->
  Forall (fun a => Before (startTime a) zeroTime = false) L ->
  analyzelogAnalyses it L = Ok r ->
  startTime r = zeroTime.
Proof.
  intros He Hall H. destruct (analyzelogAnalyses_ok_fields _ _ _ H) as (_ & _ & Hmin & _).
  apply (is_min_time_unique _ _ (startTime <$> L)); [done|]. split.
  - apply list_elem_of_fmap. by exists emptyAnalysis.
  - intros x Hx. apply list_elem_of_fmap in Hx as (a & -> & Ha).
    rewrite Forall_forall in Hall. by apply Hall.
Qed.

(** ** Witnesses on concrete analyses *)

(** The analysis of the first file of TestAnalyzeLogFiles. *)
Definition sampleAnalysis : LogAnalysis :=
  mkAnalysis 2 (mkFreq 0 1 0 1) ["User logged in"; "Database error"; ""; ""; ""] [1; 1; 0; 0; 0]
    (mkTime 63839664000 0) (mkTime 63839664060 0).

Definition sampleBatch : list LogAnalysis := [sampleAnalysis; emptyAnalysis].

Definition sampleGlobal : LogAnalysis :=
  match analyzelogAnalyses canonical_iter sampleBatch with Ok a => a | Err _ => emptyAnalysis end.

Lemma sampleBatch_ok : analyzelogAnalyses canonical_iter sampleBatch = Ok sampleGlobal.
Proof. vm_compute. reflexivity. Qed.

Lemma sampleBatch_wf : Forall wf_analysis sampleBatch.
Proof. Forall_by (split; reflexivity). Qed.

Lemma analyzeTopFiveLogMessages_printed_slice_witness :
  (analyzelogAnalyses canonical_iter sampleBatch = Ok sampleGlobal /\
   analyzeTopFiveLogMessages canonical_iter sampleBatch = Ok (topFiveLogMessages sampleGlobal)) /\
  topFiveLogMessages sampleGlobal = topFiveLogMessages sampleGlobal /\
  (length (topFiveLogMessages sampleGlobal) <= 5)%nat.
Proof.
  assert (H : analyzeTopFiveLogMessages canonical_iter sampleBatch = Ok (topFiveLogMessages sampleGlobal))
    by (vm_compute; reflexivity).
  split; [split; [exact sampleBatch_ok|exact H]|].
  exact (analyzeTopFiveLogMessages_printed_slice _ _ _ _ sampleBatch_ok H).
Defined.

Lemma analyzelogAnalyses_no_panic_witness :
  exists r, analyzelogAnalyses canonical_iter sampleBatch = Ok r.
Proof. apply analyzelogAnalyses_no_panic; [exact sampleBatch_wf|discriminate]. Defined.

Lemma analyzelogAnalyses_counts_witness :
  numEntries sampleGlobal = wrap64 (sumZ numEntries sampleBatch) /\
  logSeverityFrequency sampleGlobal =
    mkFreq (wrap64 (sumZ (fun a => debug (logSeverityFrequency a)) sampleBatch))
           (wrap64 (sumZ (fun a => info (logSeverityFrequency a)) sampleBatch))
           (wrap64 (sumZ (fun a => warning (logSeverityFrequency a)) sampleBatch))
           (wrap64 (sumZ (fun a => error (logSeverityFrequency a)) sampleBatch)).
Proof. apply (analyzelogAnalyses_counts canonical_iter). exact sampleBatch_ok. Defined.

Lemma analyzelogAnalyses_times_witness :
  is_min_time (startTime sampleGlobal) (startTime <$> sampleBatch) /\
  is_max_time (endTime sampleGlobal) (endTime <$> sampleBatch).
Proof. apply (analyzelogAnalyses_times canonical_iter). exact sampleBatch_ok. Defined.

Definition sampleGlobalRev : LogAnalysis :=
  match analyzelogAnalyses (iter_of_order [""]) (reverse sampleBatch) with
  | Ok a => a
  | Err _ => emptyAnalysis
  end.

(** The reversed batch, reduced with another map order, has the same
    counters and times. *)
Lemma analyzelogAnalyses_order_independent_witness :
  numEntries sampleGlobalRev = numEntries sampleGlobal /\
  logSeverityFrequency sampleGlobalRev = logSeverityFrequency sampleGlobal /\
  startTime sampleGlobalRev = startTime sampleGlobal /\ endTime sampleGlobalRev = endTime sampleGlobal.
Proof.
  apply (analyzelogAnalyses_order_independent (iter_of_order [""]) canonical_iter
    (reverse sampleBatch) sampleBatch).
  - by rewrite reverse_Permutation.
  - vm_compute. reflexivity.
  - exact sampleBatch_ok.
Defined.

Lemma analyzelogAnalyses_top_five_witness :
  let R := global_ranked sampleBatch in
  topFiveLogMessages sampleGlobal = take 5 (sort_stable (count_of R) (iter_keys canonical_iter R)) /\
  topFiveLogMessageFrequencies sampleGlobal = [] /\
  (forall m, count_of R m = wrap64 (sumZ snd (filter (fun p => p.1 = m) (sampleBatch ≫= slot_pairs)))) /\
  (forall m, is_Some (R !! m) <-> m ∈ (sampleBatch ≫= slot_pairs).*1).
Proof. apply analyzelogAnalyses_top_five; [exact sampleBatch_wf|exact sampleBatch_ok]. Defined.

(** With an empty file in the batch the global start time is year 1. *)
Lemma analyzelogAnalyses_zero_start_witness :
  startTime sampleGlobal = zeroTime.
Proof.
  apply (analyzelogAnalyses_zero_start canonical_iter sampleBatch).
  - right. left.
  - Forall_by (vm_compute; reflexivity).
  - exact sampleBatch_ok.
Defined.

End Global.

End Reducer.
