(* ===== verification/Dispatcher.v ===== *)
(** * The concurrent dispatcher (src/main.go 166-176, 269-286)

    [analyzeLogFiles] runs [waitGroup.Add(1); go analyzeLogFile(path, ch)]
    for every path, receives [len(logPaths)] analyses from the unbuffered
    channel in arrival order, waits on the package-level [waitGroup],
    closes the channel and reduces.  Each goroutine computes its analysis
    ([Aggregator.analyzeLogFile]), blocks on the send until the main
    goroutine receives, then calls [waitGroup.Done()].  A panic in a
    goroutine ends the process.

    The model is a step relation [step] on a [World]: the main goroutine's
    program point ([mstate]), the goroutines in the order they were
    started ([gstate]), the [WaitGroup] counter, the slice of received
    analyses and the panic that ended the process, if any.  A goroutine's
    step chooses the map iteration order of its [getTopFiveLogMessages]
    ([MapIter]); the scheduler chooses which goroutine moves and which
    sender the main goroutine receives from.  The file system is fixed. *)

From S2P Require Import Prelude GoStrings GoTime GoSort Parser Aggregator Reducer.
Import GoTime GoSort Parser Aggregator Reducer.

#[local] Set Warnings "-clear-no-such-hyp".

Module Dispatcher.

#[local] Open Scope Z_scope.

(** A goroutine [go analyzeLogFile(path, logAnalysisChan)]. *)
Inductive gstate : Type :=
| GRunning (path : string)                  (* computing its analysis *)
| GSending (path : string) (a : LogAnalysis)  (* blocked on [logAnalysisChan <- a] *)
| GSent (path : string) (a : LogAnalysis)     (* sent; [waitGroup.Done()] next *)
| GExited (path : string) (a : LogAnalysis).  (* returned *)

Definition gpath (g : gstate) : string :=
  match g with
  | GRunning p | GSending p _ | GSent p _ | GExited p _ => p
  end.

(** The main goroutine inside [analyzeLogFiles]. *)
Inductive mstate : Type :=
| MSpawn (rest : list string)          (* the [go] loop, [rest] still to start *)
| MRecv (k : nat)                      (* the receive loop, [k] receives left *)
| MWait                                (* [waitGroup.Wait()] *)
| MDone (r : result LogAnalysis Panic). (* [close]; [analyzelogAnalyses] returned or panicked *)

Record World : Type := mkWorld {
  w_paths : list string;
  w_main : mstate;
  w_gs : list gstate;
  w_wg : Z;
  w_collected : list LogAnalysis;
  w_crash : option Panic
}.

(** [analyzeLogFiles(logPaths)] is called; the package-level counter is
    zero. *)
Definition init (logPaths : list string) : World :=
  mkWorld logPaths (MSpawn logPaths) [] 0 [] None.

Section Step.

Variable fs : FileSystem.

Inductive step : World -> World -> Prop :=
(** [waitGroup.Add(1); go analyzeLogFile(logPath, logAnalysisChan)] *)
| step_spawn ps p rest gs wg col :
    step (mkWorld ps (MSpawn (p :: rest)) gs wg col None)
         (mkWorld ps (MSpawn rest) (gs ++ [GRunning p]) (wg + 1) col None)
| step_spawn_end ps gs wg col :
    step (mkWorld ps (MSpawn []) gs wg col None)
         (mkWorld ps (MRecv (length ps)) gs wg col None)
(** a goroutine computes its analysis, then blocks on the send *)
| step_run ps m gs wg col i p it a :
    gs !! i = Some (GRunning p) ->
    analyzeLogFile fs it p = Ok a ->
    step (mkWorld ps m gs wg col None)
         (mkWorld ps m (<[i := GSending p a]> gs) wg col None)
(** a goroutine panics: the process ends *)
| step_run_panic ps m gs wg col i p it e :
    gs !! i = Some (GRunning p) ->
    analyzeLogFile fs it p = Err e ->
    step (mkWorld ps m gs wg col None) (mkWorld ps m gs wg col (Some e))
(** [logAnalysis := <- logAnalysisChan; logAnalyses = append(logAnalyses, logAnalysis)] *)
| step_recv ps k gs wg col i p a :
    gs !! i = Some (GSending p a) ->
    step (mkWorld ps (MRecv (S k)) gs wg col None)
         (mkWorld ps (MRecv k) (<[i := GSent p a]> gs) wg (col ++ [a]) None)
(** [waitGroup.Done()] *)
| step_done ps m gs wg col i p a :
    gs !! i = Some (GSent p a) ->
    step (mkWorld ps m gs wg col None)
         (mkWorld ps m (<[i := GExited p a]> gs) (wg - 1) col None)
| step_recv_end ps gs wg col :
    step (mkWorld ps (MRecv 0) gs wg col None) (mkWorld ps MWait gs wg col None)
(** [waitGroup.Wait()] returns at zero; [close]; [analyzelogAnalyses] *)
| step_reduce ps gs col it :
    step (mkWorld ps MWait gs 0 col None)
         (mkWorld ps (MDone (analyzelogAnalyses it col)) gs 0 col None).

Definition reachable (logPaths : list string) (w : World) : Prop :=
  rtc step (init logPaths) w.

(** The process has ended: [analyzeLogFiles] returned or panicked, or a
    goroutine panicked. *)
Definition final (w : World) : Prop :=
  (exists r, w_main w = MDone r) \/ w_crash w <> None.

End Step.

(** ** Counting the goroutines *)

(** The (path, analysis) a goroutine has handed to the main goroutine. *)
Definition delivered (g : gstate) : option (string * LogAnalysis) :=
  match g with
  | GSent p a | GExited p a => Some (p, a)
  | _ => None
  end.

(** A goroutine whose analysis has not been received yet. *)
Definition pending_n (g : gstate) : nat :=
  match g with GRunning _ | GSending _ _ => 1 | _ => 0 end.

(** A goroutine that has not called [waitGroup.Done()]. *)
Definition live_n (g : gstate) : nat :=
  match g with GExited _ _ => 0 | _ => 1 end.

(** The steps a goroutine has left. *)
Definition gmeasure (g : gstate) : nat :=
  match g with GRunning _ => 3 | GSending _ _ => 2 | GSent _ _ => 1 | GExited _ _ => 0 end.

Definition mmeasure (m : mstate) : nat :=
  match m with
  | MSpawn rest => 4 * length rest + 3
  | MRecv _ => 2
  | MWait => 1
  | MDone _ => 0
  end.

(** A bound on the number of steps left. *)
Definition measure (w : World) : nat :=
  match w_crash w with
  | Some _ => 0
  | None => mmeasure (w_main w) + sum_list (gmeasure <$> w_gs w)
  end%nat.

Definition spawn_rest (m : mstate) : list string :=
  match m with MSpawn rest => rest | _ => [] end.

Section Invariant.

Variable fs : FileSystem.

(** [a] is an analysis the goroutine for [p] can send. *)
Definition file_analysis (p : string) (a : LogAnalysis) : Prop :=
  exists it, analyzeLogFile fs it p = Ok a.

Definition g_ok (g : gstate) : Prop :=
  match g with
  | GRunning _ => True
  | GSending p a | GSent p a | GExited p a => file_analysis p a
  end.

Definition main_inv (m : mstate) (gs : list gstate) (col : list LogAnalysis) : Prop :=
  match m with
  | MSpawn _ => omap delivered gs = []
  | MRecv k => k = sum_list (pending_n <$> gs)
  | MWait => sum_list (pending_n <$> gs) = 0%nat
  | MDone r => sum_list (live_n <$> gs) = 0%nat /\ exists it, r = analyzelogAnalyses it col
  end.

(** The invariant of [analyzeLogFiles]: one goroutine per path, started
    in order; the counter counts the goroutines that have not called
    [Done]; the received analyses are those delivered, in some order;
    every analysis is one its goroutine computed; the main goroutine's
    loop counters agree with the goroutines' states. *)
Record inv (w : World) : Prop := {
  inv_paths : (gpath <$> w_gs w) ++ spawn_rest (w_main w) = w_paths w;
  inv_wg : w_wg w = Z.of_nat (sum_list (live_n <$> w_gs w));
  inv_col : w_collected w ≡ₚ (omap delivered (w_gs w)).*2;
  inv_ok : Forall g_ok (w_gs w);
  inv_main : main_inv (w_main w) (w_gs w) (w_collected w)
}.

End Invariant.

(** ** The invariant holds in every reachable world *)

Section InvariantProof.

Variable fs : FileSystem.

Lemma sum_insert_same (f : gstate -> nat) (gs : list gstate) (i : nat) x y :
  gs !! i = Some y -> f x = f y -> sum_list (f <$> <[i := x]> gs) = sum_list (f <$> gs).
Proof. intros Hi Hf. pose proof (sum_list_fmap_insert f gs i x y Hi). lia. Qed.

Lemma omap_insert_same (gs : list gstate) (i : nat) x y :
  gs !! i = Some y -> delivered x = delivered y ->
  omap delivered (<[i := x]> gs) ≡ₚ omap delivered gs.
Proof.
  intros Hi Hd. pose proof (omap_insert_perm delivered gs i x y Hi) as Hp.
  rewrite Hd, (Permutation_app_comm (option_list _)) in Hp.
  by apply Permutation_app_inv_r in Hp.
Qed.

Lemma omap_insert_deliver (gs : list gstate) (i : nat) x y d :
  gs !! i = Some y -> delivered y = None -> delivered x = Some d ->
  omap delivered (<[i := x]> gs) ≡ₚ d :: omap delivered gs.
Proof.
  intros Hi Hy Hx. pose proof (omap_insert_perm delivered gs i x y Hi) as Hp.
  by rewrite Hy, Hx, app_nil_r in Hp.
Qed.

Lemma gpaths_insert (gs : list gstate) (i : nat) x y :
  gs !! i = Some y -> gpath x = gpath y -> gpath <$> <[i := x]> gs = gpath <$> gs.
Proof.
  intros Hi Hp. rewrite list_fmap_insert, Hp. apply list_insert_id.
  by rewrite list_lookup_fmap, Hi.
Qed.

(** A goroutine's step that keeps the counts of pending goroutines and the
    received analyses keeps the main goroutine's part of the invariant. *)
Lemma main_inv_same m gs gs' col :
  sum_list (pending_n <$> gs') = sum_list (pending_n <$> gs) ->
  (sum_list (live_n <$> gs) = 0%nat -> sum_list (live_n <$> gs') = 0%nat) ->
  omap delivered gs' ≡ₚ omap delivered gs ->
  main_inv m gs col -> main_inv m gs' col.
Proof.
  intros Hp Hl Hd. destruct m; simpl.
  - intros Hn. rewrite Hn in Hd. by apply Permutation_nil_r in Hd.
  - lia.
  - lia.
  - intros [H0 Hr]. auto.
Qed.

Lemma inv_init ps : inv fs (init ps).
Proof. by constructor. Qed.

Lemma step_inv w w' : step fs w w' -> inv fs w -> inv fs w'.
Proof.
  destruct 1 as [ps p rest gs wg col|ps gs wg col|ps m gs wg col i p it a Hi Ha
    |ps m gs wg col i p it e Hi Ha|ps k gs wg col i p a Hi|ps m gs wg col i p a Hi
    |ps gs wg col|ps gs col it];
    intros [Hp Hw Hc Hok Hm]; constructor; simpl in *; try done.
  (* go *)
  - by rewrite fmap_app, <- app_assoc.
  - rewrite fmap_app, sum_list_with_app. simpl. lia.
  - by rewrite omap_app, app_nil_r.
  - apply Forall_app. by split; [|constructor].
  - by rewrite omap_app, Hm.
  (* end of the go loop: nothing has been delivered yet *)
  - rewrite app_nil_r in Hp. rewrite <- Hp, length_fmap. clear -Hm.
    induction gs as [|[] gs IH]; simplify_eq/=; auto.
  (* a goroutine computes its analysis *)
  - by rewrite (gpaths_insert _ _ _ (GRunning p)).
  - by rewrite (sum_insert_same _ _ _ _ (GRunning p)).
  - by rewrite (omap_insert_same _ _ _ (GRunning p)).
  - apply Forall_insert; [done|]. by exists it.
  - eapply main_inv_same; [| |apply (omap_insert_same _ _ _ (GRunning p))|]; try done;
      rewrite (sum_insert_same _ _ _ _ (GRunning p)); done.
  (* a receive *)
  - by rewrite (gpaths_insert _ _ _ (GSending p a)).
  - by rewrite (sum_insert_same _ _ _ _ (GSending p a)).
  - rewrite (omap_insert_deliver _ _ _ (GSending p a) (p, a)) by done. simpl.
    by rewrite <- Hc, Permutation_app_comm.
  - apply Forall_insert; [done|]. exact (Forall_lookup_1 _ _ _ _ Hok Hi).
  - pose proof (sum_list_fmap_insert pending_n gs i (GSent p a) _ Hi). simpl in *. lia.
  (* [waitGroup.Done()] *)
  - by rewrite (gpaths_insert _ _ _ (GSent p a)).
  - pose proof (sum_list_fmap_insert live_n gs i (GExited p a) _ Hi). simpl in *. lia.
  - by rewrite (omap_insert_same _ _ _ (GSent p a)).
  - apply Forall_insert; [done|]. exact (Forall_lookup_1 _ _ _ _ Hok Hi).
  - eapply main_inv_same; [| |apply (omap_insert_same _ _ _ (GSent p a))|]; try done.
    + by rewrite (sum_insert_same _ _ _ _ (GSent p a)).
    + pose proof (lookup_sum_list_le live_n gs i _ Hi). simpl in *. lia.
  (* [waitGroup.Wait()] and the reduction *)
  - split; [lia|by exists it].
Qed.

Lemma rtc_step_inv w w' : rtc (step fs) w w' -> inv fs w -> inv fs w'.
Proof.
  induction 1 as [|w1 w2 w3 Hs _ IH]; [done|]. intros H. apply IH. by eapply step_inv.
Qed.

Lemma rtc_step_paths w w' : rtc (step fs) w w' -> w_paths w' = w_paths w.
Proof. induction 1 as [|w1 w2 w3 Hs _ IH]; [done|]. rewrite IH. by destruct Hs. Qed.

Lemma reachable_inv ps w : reachable fs ps w -> inv fs w.
Proof. intros Hr. eapply rtc_step_inv; [exact Hr|apply inv_init]. Qed.

End InvariantProof.

(** ** The runs depend on the file system only at the paths *)

Section Locality.

Variables fs1 fs2 : FileSystem.

Lemma step_ext w w' :
  inv fs1 w -> (forall p, p ∈ w_paths w -> fs1 p = fs2 p) -> step fs1 w w' -> step fs2 w w'.
Proof.
  intros [Hp _ _ _ _] Hfs Hs.
  destruct Hs as [ps p rest gs wg col|ps gs wg col|ps m gs wg col i p it a Hi Ha
    |ps m gs wg col i p it e Hi Ha|ps k gs wg col i p a Hi|ps m gs wg col i p a Hi
    |ps gs wg col|ps gs col it]; try by constructor.
  all: assert (Hin : p ∈ ps) by (simpl in Hp; rewrite <- Hp; apply elem_of_app; left;
         apply list_elem_of_fmap; exists (GRunning p); split; [done|by eapply list_elem_of_lookup_2]).
  - eapply step_run; [done|]. by rewrite <- (analyzeLogFile_ext fs1 fs2 it p p (Hfs p Hin)).
  - eapply step_run_panic; [done|]. by rewrite <- (analyzeLogFile_ext fs1 fs2 it p p (Hfs p Hin)).
Qed.

Lemma rtc_step_ext w w' :
  rtc (step fs1) w w' -> inv fs1 w -> (forall p, p ∈ w_paths w -> fs1 p = fs2 p) ->
  rtc (step fs2) w w'.
Proof.
  induction 1 as [|w0 w1 w2 Hs _ IH]; intros Hinv Hfs; [apply rtc_refl|].
  apply (rtc_l _ _ w1); [by apply step_ext|].
  apply IH; [by eapply step_inv|]. intros p Hp. apply Hfs.
  by rewrite <- (rtc_step_paths fs1 w0 w1 (rtc_once _ _ Hs)).
Qed.

(** Two file systems that agree on the paths have the same runs. *)
Lemma reachable_ext ps w :
  (forall p, p ∈ ps -> fs1 p = fs2 p) -> reachable fs1 ps w -> reachable fs2 ps w.
Proof. intros Hfs Hr. apply rtc_step_ext; [done|apply inv_init|done]. Qed.

End Locality.

(** ** Termination, progress and the result *)

Section Progress.

Variable fs : FileSystem.

Lemma step_measure w w' : step fs w w' -> (measure w' < measure w)%nat.
Proof.
  destruct 1 as [ps p rest gs wg col|ps gs wg col|ps m gs wg col i p it a Hi Ha
    |ps m gs wg col i p it e Hi Ha|ps k gs wg col i p a Hi|ps m gs wg col i p a Hi
    |ps gs wg col|ps gs col it]; unfold measure; simpl.
  - rewrite fmap_app, sum_list_with_app. simpl. lia.
  - lia.
  - pose proof (sum_list_fmap_insert gmeasure gs i (GSending p a) _ Hi). simpl in *. lia.
  - pose proof (lookup_sum_list_le gmeasure gs i _ Hi). simpl in *. lia.
  - pose proof (sum_list_fmap_insert gmeasure gs i (GSent p a) _ Hi). simpl in *. lia.
  - pose proof (sum_list_fmap_insert gmeasure gs i (GExited p a) _ Hi). simpl in *. lia.
  - lia.
  - lia.
Qed.

(** A running goroutine can always move: it computes its analysis, with
    any map iteration order, and either blocks on the send or panics. *)
Lemma run_can_step ps m gs wg col i p :
  gs !! i = Some (GRunning p) -> exists w', step fs (mkWorld ps m gs wg col None) w'.
Proof.
  intros Hi. destruct (analyzeLogFile fs canonical_iter p) as [a|e] eqn:Ha; eexists.
  - by eapply step_run.
  - by eapply step_run_panic.
Qed.

(** No reachable world is stuck unless the process has ended. *)
Lemma step_progress ps w : reachable fs ps w -> final w \/ exists w', step fs w w'.
Proof.
  intros Hr. destruct (reachable_inv _ _ _ Hr) as [Hp Hw Hc Hok Hm].
  destruct w as [ps' m gs wg col [e|]]; [by left; right|]. simpl in *.
  destruct m as [[|p rest]|[|k]| |r]; simpl in Hm.
  - right. eexists. apply step_spawn_end.
  - right. eexists. apply step_spawn.
  - right. eexists. apply step_recv_end.
  - right. destruct (sum_list_pos_lookup pending_n gs) as (i & [p|p a|p a|p a] & Hi & Hg);
      [lia| | | |]; simpl in Hg; [by eapply run_can_step|eexists; by eapply step_recv|lia|lia].
  - right. destruct (decide (sum_list (live_n <$> gs) = 0%nat)) as [H0|H0].
    + rewrite H0 in Hw. simpl in Hw. subst wg. eexists. apply (step_reduce _ _ _ _ canonical_iter).
    + destruct (sum_list_pos_lookup live_n gs H0) as (i & [p|p a|p a|p a] & Hi & Hg).
      * by eapply run_can_step.
      * pose proof (lookup_sum_list_le pending_n gs i _ Hi). simpl in *. lia.
      * eexists. by eapply step_done.
      * simpl in Hg. lia.
  - left. left. by eexists.
Qed.

(** An ended process makes no further step. *)
Lemma final_stuck ps w w' : reachable fs ps w -> final w -> ~ step fs w w'.
Proof.
  intros Hr Hf Hs. destruct (reachable_inv _ _ _ Hr) as [_ _ _ _ Hm].
  destruct Hs as [ps' p rest gs wg col|ps' gs wg col|ps' m gs wg col i p it a Hi Ha
    |ps' m gs wg col i p it e Hi Ha|ps' k gs wg col i p a Hi|ps' m gs wg col i p a Hi
    |ps' gs wg col|ps' gs col it];
    destruct Hf as [[r Hd]|Hc]; simpl in *; try done; subst m; simpl in Hm;
    destruct Hm as [H0 _]; pose proof (lookup_sum_list_le live_n gs i _ Hi) as Hle;
    simpl in *; rewrite H0 in Hle; lia.
Qed.

Lemma sum_live_le gs : (sum_list (live_n <$> gs) <= length gs)%nat.
Proof. induction gs as [|g gs IH]; [done|]. rewrite fmap_cons. destruct g; cbn [sum_list_with live_n id Datatypes.length]; lia. Qed.

(** The counters and times of a file's analysis do not depend on the map
    iteration order. *)
Lemma file_analysis_stats p a1 a2 :
  file_analysis fs p a1 -> file_analysis fs p a2 -> stats a1 = stats a2.
Proof.
  intros [it1 H1] [it2 H2].
  destruct (analyzeLogFile_ok _ _ _ _ H1) as (Hn1 & Hs1 & _ & _ & Ht1 & He1).
  destruct (analyzeLogFile_ok _ _ _ _ H2) as (Hn2 & Hs2 & _ & _ & Ht2 & He2).
  unfold stats. rewrite Hn1, Hn2, Hs1, Hs2.
  rewrite Ht1 in Ht2. rewrite He1 in He2. injection Ht2 as Ht. injection He2 as He.
  by rewrite Ht, He.
Qed.

Lemma file_analysis_wf p a : file_analysis fs p a -> wf_analysis a.
Proof. intros [it H]. by destruct (analyzeLogFile_ok _ _ _ _ H) as (_ & _ & _ & ? & _). Qed.

(** With at most five distinct messages in a file, the slots of its
    analysis are the same, up to order, whatever the map iteration
    order. *)
Lemma file_analysis_slots p a1 a2 :
  (map_size (rankLogMessages (parseLogFile fs p)) <= 5)%nat ->
  file_analysis fs p a1 -> file_analysis fs p a2 -> slot_pairs a1 ≡ₚ slot_pairs a2.
Proof.
  intros H5 [it1 H1] [it2 H2].
  destruct (analyzeLogFile_ok _ _ _ _ H1) as (_ & _ & Ht1 & _).
  destruct (analyzeLogFile_ok _ _ _ _ H2) as (_ & _ & Ht2 & _).
  pose proof (getTopFiveLogMessages_slots_small it1 (parseLogFile fs p) H5) as P1.
  pose proof (getTopFiveLogMessages_slots_small it2 (parseLogFile fs p) H5) as P2.
  rewrite <- Ht1 in P1. rewrite <- Ht2 in P2. unfold slot_pairs. simpl in P1, P2.
  by rewrite P1, P2.
Qed.

(** The goroutines have all exited: their analyses, in path order. *)
Lemma exited_analyses gs :
  sum_list (live_n <$> gs) = 0%nat -> Forall (g_ok fs) gs ->
  Forall2 (file_analysis fs) (gpath <$> gs) ((omap delivered gs).*2).
Proof.
  induction gs as [|[p|p a|p a|p a] gs IH]; simpl; intros H0 Hok; try discriminate;
    [constructor|].
  apply Forall_cons in Hok as [Ha Hok]. constructor; [done|]. by apply IH.
Qed.

(** When every goroutine has called [Done] and the [go] loop is over,
    the received analyses are one per path, in the order they arrived. *)
Lemma all_exited_collected ps w :
  reachable fs ps w -> spawn_rest (w_main w) = [] -> w_wg w = 0 ->
  exists L, Forall2 (file_analysis fs) ps L /\ w_collected w ≡ₚ L.
Proof.
  intros Hr Hs Hw. destruct (reachable_inv _ _ _ Hr) as [Hp Hwg Hc Hok _].
  rewrite Hs, app_nil_r, (rtc_step_paths _ _ _ Hr) in Hp. simpl in Hp.
  exists ((omap delivered (w_gs w)).*2). split; [|done].
  rewrite <- Hp. apply exited_analyses; [lia|done].
Qed.

(** When [waitGroup.Wait()] can return, the analyses of all the paths
    have been received. *)
Lemma wait_collected ps w :
  reachable fs ps w -> w_main w = MWait -> w_wg w = 0 ->
  exists L, Forall2 (file_analysis fs) ps L /\ w_collected w ≡ₚ L.
Proof. intros Hr Hm. apply all_exited_collected; [done|by rewrite Hm]. Qed.

(** When [analyzeLogFiles] has returned, it has reduced the analyses of
    the paths, one per path, in the order they arrived. *)
Lemma done_collected ps w r :
  reachable fs ps w -> w_main w = MDone r ->
  exists L it, Forall2 (file_analysis fs) ps L /\ w_collected w ≡ₚ L /\
    r = analyzelogAnalyses it (w_collected w).
Proof.
  intros Hr Hd. destruct (reachable_inv _ _ _ Hr) as [_ Hw _ _ Hm].
  rewrite Hd in Hm. destruct Hm as [H0 [it ->]].
  destruct (all_exited_collected ps w) as (L & HL & Hp); [done|by rewrite Hd|lia|].
  by exists L, it.
Qed.

(** A goroutine panic is the panic of [analyzeLogFile] on one of the
    paths, in some map order. *)
Lemma reachable_crash ps w e :
  reachable fs ps w -> w_crash w = Some e ->
  exists p it, p ∈ ps /\ analyzeLogFile fs it p = Err e.
Proof.
  intros Hr He. destruct (rtc_inv_r _ _ Hr) as [<-|(y & Hy & Hs)]; [done|].
  pose proof (inv_paths _ _ (reachable_inv _ _ _ Hy)) as Hp.
  rewrite (rtc_step_paths _ _ _ Hy) in Hp. simpl in Hp.
  destruct Hs; simpl in *; try discriminate.
  injection He as <-. exists p, it. split; [|done].
  rewrite <- Hp. apply elem_of_app. left. apply list_elem_of_fmap. exists (GRunning p).
  split; [done|]. by eapply list_elem_of_lookup_2.
Qed.

(** [analyzeLogFiles] returns only after [waitGroup.Wait()] has
    returned: every run to a returned world passes through a world where
    the main goroutine waits on a zero counter. *)
Lemma done_after_wait ps w r :
  reachable fs ps w -> w_main w = MDone r ->
  exists w0, reachable fs ps w0 /\ w_main w0 = MWait /\ w_wg w0 = 0 /\ w_crash w0 = None /\
    rtc (step fs) w0 w.
Proof.
  unfold reachable. intros Hr. revert w Hr r.
  apply (rtc_ind_r (fun w => forall r, w_main w = MDone r -> exists w0,
    rtc (step fs) (init ps) w0 /\ w_main w0 = MWait /\ w_wg w0 = 0 /\ w_crash w0 = None /\
    rtc (step fs) w0 w)); [done|].
  intros y z Hy Hs IH r Hd.
  inversion Hs; subst; simpl in Hd; try discriminate.
  all: try (destruct (IH r Hd) as (w0 & ? & ? & ? & ? & ?); exists w0; split_and!;
            [done..|by eapply rtc_r]).
  eexists; split_and!; [exact Hy|done..|by apply rtc_once].
Qed.

(** Files with at most five distinct messages have their slots
    determined up to order, whatever the map iteration orders. *)
Lemma slots_small_perm ps L T :
  Forall (fun p => map_size (rankLogMessages (parseLogFile fs p)) <= 5)%nat ps ->
  Forall2 (file_analysis fs) ps L -> Forall2 (file_analysis fs) ps T ->
  L ≫= slot_pairs ≡ₚ T ≫= slot_pairs.
Proof.
  intros Hs HL. revert T. induction HL as [|p a ps L Ha _ IH]; intros T HT;
    inversion HT as [|? b ? T' Hb HT']; subst; [done|].
  apply Forall_cons in Hs as [H5 Hs]. simpl.
  by rewrite (file_analysis_slots _ _ _ H5 Ha Hb), (IH Hs T' HT').
Qed.

(** When every file has at most five distinct messages, the outcome of
    every run is the reduction, with some map iteration order, of
    analyses with the counters and times of any one choice [T] of
    per-file analyses, and its top five are taken from the map that [T]
    gives. *)
Lemma done_small_files ps T w r :
  Forall (fun p => map_size (rankLogMessages (parseLogFile fs p)) <= 5)%nat ps ->
  Forall2 (file_analysis fs) ps T -> ps <> [] ->
  reachable fs ps w -> w_main w = MDone r ->
  exists it col a, r = Ok a /\ analyzelogAnalyses it col = Ok a /\
    stats <$> col ≡ₚ stats <$> T /\
    topFiveLogMessages a =
      take 5 (sort_stable (count_of (global_ranked T)) (iter_keys it (global_ranked T))).
Proof.
  intros Hs HT Hne Hr Hd.
  destruct (done_collected _ _ _ Hr Hd) as (L & it & HL & Hp & ->).
  assert (Hwf : Forall wf_analysis (w_collected w)).
  { rewrite Hp. clear -HL. induction HL; constructor; eauto using file_analysis_wf. }
  assert (Hok : exists a, analyzelogAnalyses it (w_collected w) = Ok a).
  { destruct (w_collected w) as [|c0 col]; [|rewrite analyzelogAnalyses_wf_eq by done; by eexists].
    apply Permutation_nil_l in Hp. subst L. apply Forall2_nil_inv_r in HL. done. }
  destruct Hok as [a Ha]. exists it, (w_collected w), a. do 2 (split; [done|]). split.
  - rewrite Hp. erewrite Forall2_fmap_det; [done|apply file_analysis_stats|exact HL|exact HT].
  - destruct (analyzelogAnalyses_ok_top _ _ _ Hwf Ha) as [Htop _]. rewrite Htop.
    rewrite (global_ranked_slots_perm _ T); [done|].
    rewrite Hp. by apply (slots_small_perm ps).
Qed.

End Progress.

(** ** What [analyzeLogFiles] guarantees *)

Section Claims.

Variable fs : FileSystem.

(** The contract of [analyzeLogFiles]: the reduction, for some map
    iteration order, of one analysis per path in some order. *)
Definition analyzeLogFiles_spec (ps : list string) (r : result LogAnalysis Panic) : Prop :=
  exists L L' it, Forall2 (file_analysis fs) ps L /\ L' ≡ₚ L /\ r = analyzelogAnalyses it L'.

(** C6: the package-level [WaitGroup] counter is the number of goroutines
    that have not called [Done]; it stays between zero and the number of
    paths, so [Done] never makes it negative (a Go panic) and [Wait]
    returns once every goroutine has called [Done]. *)
Theorem analyzeLogFiles_waitgroup ps w :
  reachable fs ps w ->
  w_wg w = Z.of_nat (sum_list (live_n <$> w_gs w)) /\ 0 <= w_wg w <= Z.of_nat (length ps).
Proof.
  intros Hr. destruct (reachable_inv _ _ _ Hr) as [Hp Hw _ _ _]. split; [done|].
  rewrite (rtc_step_paths _ _ _ Hr) in Hp. simpl in Hp.
  rewrite <- Hp, length_app, length_fmap, Hw. pose proof (sum_live_le (w_gs w)). lia.
Qed.

(** C4: [analyzeLogFiles] terminates: there is no infinite sequence of
    steps, whatever the scheduler and the map iteration orders. *)
Theorem analyzeLogFiles_terminates : well_founded (fun w' w => step fs w w').
Proof.
  apply (wf_projected (<)%nat measure); [intros ??; apply step_measure|apply lt_wf].
Qed.

(** C3: no deadlock: a reachable world has no step exactly when the
    process has ended ([analyzeLogFiles] has returned or panicked, or a
    goroutine has panicked). *)
Theorem analyzeLogFiles_no_deadlock ps w :
  reachable fs ps w -> (final w <-> forall w', ~ step fs w w').
Proof.
  intros Hr. split.
  - intros Hf w'. by eapply final_stuck.
  - intros Hs. destruct (step_progress _ _ _ Hr) as [|[w' Hw']]; [done|]. by destruct (Hs w').
Qed.

(** C5: from every reachable world, some continuation ends the process. *)
Theorem analyzeLogFiles_completes ps w :
  reachable fs ps w -> exists w', rtc (step fs) w w' /\ final w'.
Proof.
  intros Hr. remember (measure w) as n eqn:Hn. revert w Hr Hn.
  induction (lt_wf n) as [n _ IH]. intros w Hr ->.
  destruct (step_progress _ _ _ Hr) as [Hf|[w' Hs]]; [by exists w|].
  destruct (IH (measure w') (step_measure _ _ _ Hs) w') as (w'' & Hr' & Hf); [|done|].
  - by eapply rtc_r.
  - exists w''. split; [by eapply rtc_l|done].
Qed.

(** C1: when [analyzeLogFiles] returns or panics in the reduction, the
    outcome meets its contract: the reduction of one analysis per path, in
    arrival order, a permutation of the path order. *)
Theorem analyzeLogFiles_refines ps w r :
  reachable fs ps w -> w_main w = MDone r -> analyzeLogFiles_spec ps r.
Proof.
  intros Hr Hd. destruct (done_collected _ _ _ _ Hr Hd) as (L & it & HL & Hp & ->).
  by exists L, (w_collected w), it.
Qed.

(** Two runs on the same paths that reduce without a panic agree on the
    counts and times. *)
Lemma done_stats_eq ps w1 w2 a1 a2 :
  reachable fs ps w1 -> reachable fs ps w2 ->
  w_main w1 = MDone (Ok a1) -> w_main w2 = MDone (Ok a2) -> stats a1 = stats a2.
Proof.
  intros Hr1 Hr2 Hd1 Hd2.
  destruct (done_collected _ _ _ _ Hr1 Hd1) as (L1 & it1 & HL1 & Hp1 & Ha1).
  destruct (done_collected _ _ _ _ Hr2 Hd2) as (L2 & it2 & HL2 & Hp2 & Ha2).
  assert (Hs : stats <$> L1 = stats <$> L2).
  { eapply Forall2_fmap_det; [|exact HL1|exact HL2]. apply file_analysis_stats. }
  eapply analyzelogAnalyses_stats_perm; [|symmetry; exact Ha1|symmetry; exact Ha2].
  by rewrite Hp1, Hs, <- Hp2.
Qed.

(** C2: every schedule and every map iteration order gives the same
    entry count, severity counts, start and end time. *)
Theorem analyzeLogFiles_deterministic ps w1 w2 a1 a2 :
  reachable fs ps w1 -> reachable fs ps w2 ->
  w_main w1 = MDone (Ok a1) -> w_main w2 = MDone (Ok a2) ->
  numEntries a1 = numEntries a2 /\ logSeverityFrequency a1 = logSeverityFrequency a2 /\
  startTime a1 = startTime a2 /\ endTime a1 = endTime a2.
Proof.
  intros Hr1 Hr2 Hd1 Hd2. pose proof (done_stats_eq _ _ _ _ _ Hr1 Hr2 Hd1 Hd2) as Hst.
  unfold stats in Hst. simplify_eq. done.
Qed.

(** C8: with no path, [analyzeLogFiles] panics with "No analysis
    found". *)
Theorem analyzeLogFiles_no_paths w r :
  reachable fs [] w -> w_main w = MDone r -> r = Err (GoPanic "No analysis found").
Proof.
  intros Hr Hd. destruct (done_collected _ _ _ _ Hr Hd) as (L & it & HL & Hp & ->).
  apply Forall2_nil_inv_l in HL. subst L. apply Permutation_nil_r in Hp. by rewrite Hp.
Qed.

(** C31: [analyzeLogFiles] returns (or panics in the reduction) only
    after [waitGroup.Wait()] has returned: every run to a returned world
    passes through a world where the main goroutine waits, the counter
    is zero, no goroutine has yet to call [Done], and the analyses of
    all the paths, one per path, have been received. *)
Theorem analyzeLogFiles_returns_after_wait ps w r :
  reachable fs ps w -> w_main w = MDone r ->
  exists w0, reachable fs ps w0 /\ rtc (step fs) w0 w /\ w_main w0 = MWait /\ w_wg w0 = 0 /\
    sum_list (live_n <$> w_gs w0) = 0%nat /\
    exists L, Forall2 (file_analysis fs) ps L /\ w_collected w0 ≡ₚ L.
Proof.
  intros Hr Hd. destruct (done_after_wait _ _ _ _ Hr Hd) as (w0 & Hr0 & Hm & Hw & _ & Hs).
  exists w0. split_and!; try done.
  - pose proof (inv_wg _ _ (reachable_inv _ _ _ Hr0)) as Hwg. lia.
  - by apply wait_collected.
Qed.

End Claims.

(** ** TestAnalyzeLogFiles *)

Section TestAnalyzeLogFiles.

(** The two files of TestAnalyzeLogFiles (main-tests.go 185-196), at
    the paths ["a"] and ["b"]. *)
Definition log1Content : string :=
"2024-01-01 00:00:00.000 | INFO | app.module: function: 123 - User logged in
2024-01-01 00:01:00.000 | ERROR | app.module: function: 124 - Database error".

Definition log2Content : string :=
"2024-01-01 00:02:00.000 | WARNING | app.module: function: 125 - Low memory
2024-01-01 00:03:00.000 | ERROR | app.module: function: 126 - Database error".

Definition testFS : FileSystem := fun p =>
  if String.eqb p "a" then Some log1Content
  else if String.eqb p "b" then Some log2Content
  else None.

Definition testAnalysis (p : string) : LogAnalysis :=
  match analyzeLogFile testFS canonical_iter p with Ok a => a | Err _ => emptyAnalysis end.

Definition testGlobal : LogAnalysis :=
  match analyzelogAnalyses canonical_iter [testAnalysis "a"; testAnalysis "b"] with
  | Ok a => a
  | Err _ => emptyAnalysis
  end.

Definition testRanked : gmap string Z := global_ranked [testAnalysis "a"; testAnalysis "b"].

(** Every schedule and map order of [analyzeLogFiles] on the files of
    TestAnalyzeLogFiles returns 4 entries, INFO 1, WARNING 1, ERROR 2,
    the top message "Database error", and the empty placeholder of the
    per-file slots among the global top five. *)
Lemma TestAnalyzeLogFiles_every_schedule fs p1 p2 w r :
  fs p1 = Some log1Content -> fs p2 = Some log2Content ->
  reachable fs [p1; p2] w -> w_main w = MDone r ->
  exists a, r = Ok a /\ numEntries a = 4 /\ logSeverityFrequency a = mkFreq 0 1 1 2 /\
    head (topFiveLogMessages a) = Some "Database error" /\ "" ∈ topFiveLogMessages a.
Proof.
  intros H1 H2 Hr Hd.
  assert (Hsmall : Forall (fun p => map_size (rankLogMessages (parseLogFile fs p)) <= 5)%nat
                     [p1; p2]).
  { constructor; [|constructor; [|constructor]]; cbv beta;
      [rewrite (parseLogFile_ext fs testFS p1 "a") by (rewrite H1; reflexivity)
      |rewrite (parseLogFile_ext fs testFS p2 "b") by (rewrite H2; reflexivity)];
      apply Nat.leb_le; vm_compute; reflexivity. }
  assert (HT : Forall2 (file_analysis fs) [p1; p2] [testAnalysis "a"; testAnalysis "b"]).
  { constructor; [|constructor; [|constructor]]; exists canonical_iter;
      [rewrite (analyzeLogFile_ext fs testFS _ p1 "a") by (rewrite H1; reflexivity)
      |rewrite (analyzeLogFile_ext fs testFS _ p2 "b") by (rewrite H2; reflexivity)];
      vm_compute; reflexivity. }
  destruct (done_small_files _ _ _ _ _ Hsmall HT ltac:(done) Hr Hd)
    as (it & col & a & -> & Ha & Hstats & Htop).
  exists a. split; [done|].
  assert (Hs : stats a = stats testGlobal).
  { apply (analyzelogAnalyses_stats_perm _ canonical_iter _ _ _ _ Hstats Ha).
    vm_compute. reflexivity. }
  assert (Hn : numEntries a = numEntries testGlobal) by exact (f_equal (fun s => s.1.1.1) Hs).
  assert (Hf : logSeverityFrequency a = logSeverityFrequency testGlobal)
    by exact (f_equal (fun s => s.1.1.2) Hs).
  rewrite Hn, Hf.
  split; [vm_compute; reflexivity|]. split; [vm_compute; reflexivity|].
  change (global_ranked [testAnalysis "a"; testAnalysis "b"]) with testRanked in Htop.
  rewrite Htop.
  pose proof (iter_keys_perm it testRanked) as Hk.
  set (sorted := sort_stable (count_of testRanked) (iter_keys it testRanked)).
  assert (Hsp : sorted ≡ₚ (map_to_list testRanked).*1)
    by (unfold sorted; by rewrite sort_stable_perm).
  assert (Hh : head sorted = Some "Database error").
  { apply sort_stable_head_max; [apply _| |].
    - rewrite Hk. apply (bool_decide_unpack _). vm_compute. reflexivity.
    - intros x Hx. rewrite Hk in Hx. revert x Hx.
      apply (Forall_forall (fun x => x <> "Database error" ->
        count_of testRanked x < count_of testRanked "Database error")).
      apply (bool_decide_unpack _). vm_compute. reflexivity. }
  split.
  - clearbody sorted. destruct sorted as [|h t]; [done|]. simpl in Hh |- *. congruence.
  - rewrite take_ge by (rewrite Hsp; apply Nat.leb_le; vm_compute; reflexivity).
    rewrite Hsp. apply (bool_decide_unpack _). vm_compute. reflexivity.
Qed.

(** ** Runs of [analyzeLogFiles] on concrete inputs *)

(** Both goroutines have exited, the analyses arrived in path order and
    the main goroutine has reduced them, ranging over its map in the
    order [it]. *)
Definition test_final_it (it : MapIter) : World :=
  mkWorld ["a"; "b"] (MDone (analyzelogAnalyses it [testAnalysis "a"; testAnalysis "b"]))
    [GExited "a" (testAnalysis "a"); GExited "b" (testAnalysis "b")] 0
    [testAnalysis "a"; testAnalysis "b"] None.

Definition test_final : World := test_final_it canonical_iter.

Lemma run_file_step ps m gs wg col i p :
  gs !! i = Some (GRunning p) ->
  analyzeLogFile testFS canonical_iter p = Ok (testAnalysis p) ->
  step testFS (mkWorld ps m gs wg col None)
    (mkWorld ps m (<[i := GSending p (testAnalysis p)]> gs) wg col None).
Proof. intros Hi Ha. by eapply step_run. Qed.

(** One schedule: start both goroutines, let both compute, receive in
    path order, both call [Done], reduce. *)
Lemma test_run it : reachable testFS ["a"; "b"] (test_final_it it).
Proof.
  unfold reachable, init.
  eapply rtc_l; [apply step_spawn|]. eapply rtc_l; [apply step_spawn|].
  eapply rtc_l; [apply step_spawn_end|].
  eapply rtc_l; [apply (run_file_step _ _ _ _ _ 0 "a"); [reflexivity|vm_compute; reflexivity]|].
  eapply rtc_l; [apply (run_file_step _ _ _ _ _ 1 "b"); [reflexivity|vm_compute; reflexivity]|].
  eapply rtc_l; [apply (step_recv _ _ _ _ _ _ 0 "a"); reflexivity|].
  eapply rtc_l; [apply (step_recv _ _ _ _ _ _ 1 "b"); reflexivity|].
  eapply rtc_l; [apply (step_done _ _ _ _ _ _ 0 "a"); reflexivity|].
  eapply rtc_l; [apply (step_done _ _ _ _ _ _ 1 "b"); reflexivity|].
  eapply rtc_l; [apply step_recv_end|].
  eapply rtc_l; [apply (step_reduce _ _ _ _ it)|].
  apply rtc_refl.
Qed.

Lemma test_final_ok : w_main test_final = MDone (Ok testGlobal).
Proof. vm_compute. reflexivity. Qed.

Lemma analyzeLogFiles_waitgroup_witness :
  w_wg test_final = Z.of_nat (sum_list (live_n <$> w_gs test_final)) /\
  0 <= w_wg test_final <= Z.of_nat (length ["a"; "b"]).
Proof. apply (analyzeLogFiles_waitgroup testFS ["a"; "b"]). exact (test_run canonical_iter). Defined.

Lemma analyzeLogFiles_no_deadlock_witness :
  final test_final <-> forall w', ~ step testFS test_final w'.
Proof. apply (analyzeLogFiles_no_deadlock testFS ["a"; "b"]). exact (test_run canonical_iter). Defined.

Lemma analyzeLogFiles_completes_witness :
  exists w', rtc (step testFS) (init ["a"; "b"]) w' /\ final w'.
Proof. apply (analyzeLogFiles_completes testFS ["a"; "b"]). apply rtc_refl. Defined.

Lemma analyzeLogFiles_refines_witness :
  analyzeLogFiles_spec testFS ["a"; "b"] (Ok testGlobal).
Proof. apply (analyzeLogFiles_refines testFS ["a"; "b"] test_final); [exact (test_run canonical_iter)|exact test_final_ok]. Defined.

Lemma analyzeLogFiles_deterministic_witness :
  numEntries testGlobal = numEntries testGlobal /\
  logSeverityFrequency testGlobal = logSeverityFrequency testGlobal /\
  startTime testGlobal = startTime testGlobal /\ endTime testGlobal = endTime testGlobal.
Proof.
  apply (analyzeLogFiles_deterministic testFS ["a"; "b"] test_final test_final);
    [exact (test_run canonical_iter)|exact (test_run canonical_iter)|exact test_final_ok|exact test_final_ok].
Defined.

(** C9: the main goroutine reduces the analyses in the order they arrive,
    not in the order of the paths: in a schedule of TestAnalyzeLogFiles
    where the second goroutine sends first, the reducer receives the
    analysis of ["b"] before that of ["a"]. *)
Theorem analyzeLogFiles_arrival_order :
  exists w, reachable testFS ["a"; "b"] w /\
    w_collected w = [testAnalysis "b"; testAnalysis "a"] /\ final w.
Proof.
  eexists. split.
  { unfold reachable, init.
  eapply rtc_l; [apply step_spawn|]. eapply rtc_l; [apply step_spawn|].
  eapply rtc_l; [apply step_spawn_end|].
  eapply rtc_l; [apply (run_file_step _ _ _ _ _ 0 "a"); [reflexivity|vm_compute; reflexivity]|].
  eapply rtc_l; [apply (run_file_step _ _ _ _ _ 1 "b"); [reflexivity|vm_compute; reflexivity]|].
  eapply rtc_l; [apply (step_recv _ _ _ _ _ _ 1 "b"); reflexivity|].
  eapply rtc_l; [apply (step_recv _ _ _ _ _ _ 0 "a"); reflexivity|].
  eapply rtc_l; [apply (step_done _ _ _ _ _ _ 0 "a"); reflexivity|].
  eapply rtc_l; [apply (step_done _ _ _ _ _ _ 1 "b"); reflexivity|].
  eapply rtc_l; [apply step_recv_end|].
  eapply rtc_l; [apply (step_reduce _ _ _ _ canonical_iter)|].
  apply rtc_refl. }
  split; [reflexivity|left; by eexists].
Qed.

(** With no path: the [go] loop and the receive loop do nothing, [Wait]
    returns at once and the reduction panics. *)
Definition empty_final : World :=
  mkWorld [] (MDone (analyzelogAnalyses canonical_iter [])) [] 0 [] None.

Lemma empty_run : reachable testFS [] empty_final.
Proof.
  unfold reachable, init.
  eapply rtc_l; [apply step_spawn_end|]. eapply rtc_l; [apply step_recv_end|].
  eapply rtc_l; [apply (step_reduce _ _ _ _ canonical_iter)|]. apply rtc_refl.
Qed.

Lemma analyzeLogFiles_returns_after_wait_witness :
  (reachable testFS ["a"; "b"] test_final /\ w_main test_final = MDone (Ok testGlobal)) /\
  exists w0, reachable testFS ["a"; "b"] w0 /\ rtc (step testFS) w0 test_final /\
    w_main w0 = MWait /\ w_wg w0 = 0 /\ sum_list (live_n <$> w_gs w0) = 0%nat /\
    exists L, Forall2 (file_analysis testFS) ["a"; "b"] L /\ w_collected w0 ≡ₚ L.
Proof.
  split; [split; [exact (test_run canonical_iter)|exact test_final_ok]|].
  exact (analyzeLogFiles_returns_after_wait testFS _ _ _ (test_run canonical_iter) test_final_ok).
Defined.

Lemma analyzeLogFiles_no_paths_witness :
  analyzelogAnalyses canonical_iter [] = Err (GoPanic "No analysis found").
Proof. apply (analyzeLogFiles_no_paths testFS empty_final); [exact empty_run|reflexivity]. Defined.

End TestAnalyzeLogFiles.

End Dispatcher.
