(* ===== verification/Printer.v ===== *)
(** * The output: printLogAnalysis and main (src/main.go 178-197, 230, 288-292)

    [printLogAnalysis] prints the entry count, the four severity counts
    with [strconv.FormatInt] ([GoStrings.FormatInt]), the top messages
    numbered from 1, at most five of them, and the start and end time
    with [Format] ([GoFormat.Format]).  Standard output is the list of
    the lines [fmt.Println] writes; a Go panic stops the printing, the
    lines already written stay written.  [main] runs [analyzeLogFiles]
    on [os.Args[1:]] (a run of [Dispatcher.step]); its reduction prints
    the slice of [analyzeTopFiveLogMessages] (main.go 230), then [main]
    prints the analysis it returns.  The read-error line of
    [parseLogFile] (main.go 78) carries an [os] error text the model
    does not have: [main_prints] is stated for readable files. *)

From S2P Require Import Prelude GoStrings GoTime GoFormat GoSort Parser Aggregator Reducer Dispatcher.
Import GoStrings GoTime GoFormat GoSort Parser Aggregator Reducer Dispatcher.

Module Printer.

#[local] Open Scope Z_scope.
#[local] Open Scope string_scope.

(** Standard output so far and the panic that stopped the program. *)
Definition Output : Type := list string * option Panic.

(** One iteration of the loop of [printLogAnalysis]:
    [fmt.Println("   " + strconv.Itoa(index + 1) + ". " + topFiveLogMessages[index])],
    where the indexing panics out of range. *)
Definition print_slot (top : list string) (o : Output) (index : nat) : Output :=
  match o with
  | (out, Some e) => (out, Some e)
  | (out, None) =>
      match top !! index with
      | None => (out, Some (GoPanic "runtime error: index out of range"))
      | Some m => (out ++ ["   " ++ FormatInt (Z.of_nat index + 1) ++ ". " ++ m]%string, None)%list
      end
  end.

(** [printLogAnalysis(logAnalysis)]. *)
Definition printLogAnalysis (logAnalysis : LogAnalysis) : Output :=
  let f := logSeverityFrequency logAnalysis in
  let header :=
    ["Number of Entries: " ++ FormatInt (numEntries logAnalysis);
     "Log Severity Frequency: ";
     "   DEBUG: " ++ FormatInt (debug f);
     "   INFO: " ++ FormatInt (info f);
     "   WARNING: " ++ FormatInt (warning f);
     "   ERROR: " ++ FormatInt (error f);
     "Top Five Log Messages: "] in
  let top := topFiveLogMessages logAnalysis in
  match fold_left (print_slot top) (seq 0 (maxMessages top)) (header, None) with
  | (out, Some e) => (out, Some e)
  | (out, None) =>
      (out ++ ["Start Date/Time: " ++ Format (startTime logAnalysis);
               "End Date/Time: " ++ Format (endTime logAnalysis)]%string, None)%list
  end.

(** [fmt.Println(topFiveLogMessages)] at the end of
    [analyzeTopFiveLogMessages] (main.go 230): a [[]string] prints as its
    elements separated by spaces between brackets. *)
Definition println_strings (l : list string) : string :=
  "[" ++ String.concat " " l ++ "]".

(** [main()] (main.go 288-292): with the command line [args]
    ([os.Args], the program name first) naming readable files, some run
    of [analyzeLogFiles(os.Args[1:])] reduces the collected analyses in
    the map order [it]; [analyzeTopFiveLogMessages] prints its slice
    (main.go 230), then [printLogAnalysis] writes the rest of [out]. *)
Definition main_prints (fs : FileSystem) (args : list string) (out : Output) : Prop :=
  Forall (fun p => is_Some (fs p)) (drop 1 args) /\
  exists w it la top,
    reachable fs (drop 1 args) w /\ w_main w = MDone (Ok la) /\
    analyzelogAnalyses it (w_collected w) = Ok la /\
    analyzeTopFiveLogMessages it (w_collected w) = Ok top /\
    out = ((println_strings top :: (printLogAnalysis la).1)%list, (printLogAnalysis la).2).

(** ** What [printLogAnalysis] prints *)

Section Print.

(** The line of slot [index]. *)
Definition slot_line (top : list string) (index : nat) : string :=
  "   " ++ FormatInt (Z.of_nat index + 1) ++ ". " ++ nth index top "".

(** The loop over the slots, while the index is in range. *)
Lemma fold_print_slot top k n out :
  (k + n <= length top)%nat ->
  fold_left (print_slot top) (seq k n) (out, None) = (app out (map (slot_line top) (seq k n)), None).
Proof.
  revert k out. induction n as [|n IH]; intros k out Hk; simpl; [by rewrite app_nil_r|].
  destruct (lookup_lt_is_Some_2 top k) as [m Hm]; [lia|]. rewrite Hm, IH by lia.
  rewrite <- app_assoc. unfold slot_line. by rewrite (nth_lookup_Some _ _ _ _ Hm).
Qed.

(** The header, the slot lines and the two time lines. *)
Lemma printLogAnalysis_lines la :
  let f := logSeverityFrequency la in
  printLogAnalysis la =
  (app ["Number of Entries: " ++ FormatInt (numEntries la); "Log Severity Frequency: ";
        "   DEBUG: " ++ FormatInt (debug f); "   INFO: " ++ FormatInt (info f);
        "   WARNING: " ++ FormatInt (warning f); "   ERROR: " ++ FormatInt (error f);
        "Top Five Log Messages: "]
   (app (map (slot_line (topFiveLogMessages la)) (seq 0 (maxMessages (topFiveLogMessages la))))
        ["Start Date/Time: " ++ Format (startTime la); "End Date/Time: " ++ Format (endTime la)]),
   None).
Proof.
  unfold printLogAnalysis. rewrite fold_print_slot by (rewrite maxMessages_min; lia).
  by rewrite <- app_assoc.
Qed.

(** C17: [printLogAnalysis] never panics: the loop stops at
    [min(5, len(topFiveLogMessages))], so [topFiveLogMessages[index]] is
    in range; it prints seven header lines, one line per slot up to
    five, and the start and end time. *)
Theorem printLogAnalysis_no_panic la :
  exists out, printLogAnalysis la = (out, None) /\
    length out = (9 + Nat.min 5 (length (topFiveLogMessages la)))%nat.
Proof.
  eexists. rewrite printLogAnalysis_lines. split; [done|].
  rewrite !length_app, length_map, length_seq, maxMessages_min. simpl. lia.
Qed.

(** C18: every one of the first five slots is printed as a numbered
    line, the empty placeholder slots included: slot [i] holding [m] is
    the line ["   " + strconv.Itoa(i + 1) + ". " + m] after the seven
    header lines. *)
Theorem printLogAnalysis_prints_slot la i m :
  (i < 5)%nat -> topFiveLogMessages la !! i = Some m ->
  (printLogAnalysis la).1 !! (7 + i)%nat = Some ("   " ++ FormatInt (Z.of_nat i + 1) ++ ". " ++ m).
Proof.
  intros Hi Hm. pose proof (lookup_lt_Some _ _ _ Hm) as Hl.
  rewrite printLogAnalysis_lines. cbn [fst].
  rewrite lookup_app_r by (simpl; lia). replace (7 + i - _)%nat with i by (simpl; lia).
  rewrite lookup_app_l by (rewrite length_map, length_seq, maxMessages_min; lia).
  rewrite list_lookup_fmap, lookup_seq_lt by (rewrite maxMessages_min; lia). simpl.
  unfold slot_line. by rewrite (nth_lookup_Some _ _ _ _ Hm).
Qed.

(** C20: the start and end time lines read back: the text after
    "Start Date/Time: " and "End Date/Time: " parses with the program's
    layout to the start and end time truncated to the millisecond, for
    times of the years 0 to 9999. *)
Theorem printLogAnalysis_times_roundtrip la :
  0 <= t_nsec (startTime la) < 10 ^ 9 -> 0 <= Year (startTime la) <= 9999 ->
  0 <= t_nsec (endTime la) < 10 ^ 9 -> 0 <= Year (endTime la) <= 9999 ->
  exists out s e,
    printLogAnalysis la = (app out ["Start Date/Time: " ++ s; "End Date/Time: " ++ e], None) /\
    parse_time s = Some (mkTime (t_sec (startTime la)) (t_nsec (startTime la) / 10 ^ 6 * 10 ^ 6)) /\
    parse_time e = Some (mkTime (t_sec (endTime la)) (t_nsec (endTime la) / 10 ^ 6 * 10 ^ 6)).
Proof.
  intros Hs1 Hs2 He1 He2. rewrite printLogAnalysis_lines. cbv zeta.
  do 3 eexists. split; [by rewrite app_assoc|].
  split; apply parse_time_Format; done.
Qed.

End Print.

(** ** What [main] prints *)

Section Main.

Variable fs : FileSystem.

(** What a returning run of [main] writes: the slice of main.go 230,
    which is the top five of the printed analysis, then the lines of
    [printLogAnalysis]. *)
Lemma main_prints_lines args out :
  main_prints fs args out ->
  exists w la, reachable fs (drop 1 args) w /\ w_main w = MDone (Ok la) /\
    let top := topFiveLogMessages la in
    let f := logSeverityFrequency la in
    (length top <= 5)%nat /\
    out = (println_strings top ::
           app ["Number of Entries: " ++ FormatInt (numEntries la); "Log Severity Frequency: ";
                "   DEBUG: " ++ FormatInt (debug f); "   INFO: " ++ FormatInt (info f);
                "   WARNING: " ++ FormatInt (warning f); "   ERROR: " ++ FormatInt (error f);
                "Top Five Log Messages: "]
           (app (map (slot_line top) (seq 0 (length top)))
                ["Start Date/Time: " ++ Format (startTime la); "End Date/Time: " ++ Format (endTime la)]),
           None).
Proof.
  intros (_ & w & it & la & top & Hr & Hd & Ha & Ht & ->). exists w, la.
  split; [done|]. split; [done|]. cbv zeta.
  assert (Hl : (length top <= 5)%nat)
    by (rewrite <- (analyzeTopFiveLogMessages_take _ _ _ Ht), length_take; lia).
  rewrite printLogAnalysis_lines, maxMessages_min, (analyzelogAnalyses_printed_top _ _ _ _ Ha Ht).
  split; [done|]. by replace (Nat.min 5 (length top)) with (length top) by lia.
Qed.

(** C16: whatever the schedule and the map iteration orders, two runs of
    [main] on the same command line of readable files print the same
    seven lines of counts and the same two lines of times; they can
    differ only in the ranked messages: the slice printed by
    [analyzeTopFiveLogMessages] (main.go 230) and the numbered lines,
    which number the same at most five messages of that slice. *)
Theorem main_output_stable args out1 out2 :
  main_prints fs args out1 -> main_prints fs args out2 ->
  exists top1 top2 pre post,
    out1 = (println_strings top1 :: app pre (app (map (slot_line top1) (seq 0 (length top1))) post), None) /\
    out2 = (println_strings top2 :: app pre (app (map (slot_line top2) (seq 0 (length top2))) post), None) /\
    length pre = 7%nat /\ length post = 2%nat /\ (length top1 <= 5)%nat /\ (length top2 <= 5)%nat.
Proof.
  intros H1 H2.
  destruct (main_prints_lines _ _ H1) as (w1 & a1 & Hr1 & Hd1 & Hl1 & ->).
  destruct (main_prints_lines _ _ H2) as (w2 & a2 & Hr2 & Hd2 & Hl2 & ->).
  pose proof (done_stats_eq _ _ _ _ _ _ Hr1 Hr2 Hd1 Hd2) as Hs. unfold stats in Hs.
  injection Hs as Hn Hf Hst Hen. rewrite Hn, Hf, Hst, Hen.
  do 4 eexists. split; [reflexivity|]. split; [reflexivity|]. auto.
Qed.

End Main.

Section TestMain.

(** [main] with the files of TestAnalyzeLogFiles on its command line;
    the reducer ranges over its map in the order [it]. *)
Definition test_args : list string := ["concurrent_log_analyzer"; "a"; "b"].

Definition testGlobal_it (it : MapIter) : LogAnalysis :=
  match analyzelogAnalyses it [testAnalysis "a"; testAnalysis "b"] with
  | Ok a => a
  | Err _ => emptyAnalysis
  end.

Definition testTop_it (it : MapIter) : list string :=
  match analyzeTopFiveLogMessages it [testAnalysis "a"; testAnalysis "b"] with
  | Ok t => t
  | Err _ => []
  end.

Definition test_output (it : MapIter) : Output :=
  ((println_strings (testTop_it it) :: (printLogAnalysis (testGlobal_it it)).1)%list,
   (printLogAnalysis (testGlobal_it it)).2).

Lemma test_main_prints it :
  analyzelogAnalyses it [testAnalysis "a"; testAnalysis "b"] = Ok (testGlobal_it it) ->
  analyzeTopFiveLogMessages it [testAnalysis "a"; testAnalysis "b"] = Ok (testTop_it it) ->
  main_prints testFS test_args (test_output it).
Proof.
  intros Ha Ht. split.
  { cbn [drop test_args]. do 2 (constructor; [eexists; reflexivity|]). constructor. }
  exists (test_final_it it), it, (testGlobal_it it), (testTop_it it).
  split; [apply test_run|].
  split; [unfold test_final_it; cbn [w_main]; rewrite Ha; reflexivity|].
  split; [exact Ha|]. split; [exact Ht|]. reflexivity.
Qed.

Lemma test_main_prints_canonical : main_prints testFS test_args (test_output canonical_iter).
Proof. apply test_main_prints; vm_compute; reflexivity. Qed.

Lemma main_output_stable_witness :
  main_prints testFS test_args (test_output canonical_iter) /\
  exists top1 top2 pre post,
    test_output canonical_iter =
      (println_strings top1 :: app pre (app (map (slot_line top1) (seq 0 (length top1))) post), None) /\
    test_output canonical_iter =
      (println_strings top2 :: app pre (app (map (slot_line top2) (seq 0 (length top2))) post), None) /\
    length pre = 7%nat /\ length post = 2%nat /\ (length top1 <= 5)%nat /\ (length top2 <= 5)%nat.
Proof.
  split; [exact test_main_prints_canonical|].
  exact (main_output_stable testFS test_args _ _ test_main_prints_canonical test_main_prints_canonical).
Defined.

(** C19: the output of [main] is not determined by its input: on the
    files of TestAnalyzeLogFiles, the map order of the reducer decides
    whether "User logged in" or "Low memory" is printed second. *)
Theorem main_output_nondeterministic :
  exists out1 out2, main_prints testFS test_args out1 /\ main_prints testFS test_args out2 /\
    (out1.1 !! 9%nat = Some "   2. User logged in") /\ (out2.1 !! 9%nat = Some "   2. Low memory").
Proof.
  exists (test_output canonical_iter), (test_output (iter_of_order ["Low memory"])).
  split; [exact test_main_prints_canonical|].
  split; [apply test_main_prints; vm_compute; reflexivity|].
  split; vm_compute; reflexivity.
Qed.

(** The line of the placeholder slot in the output of TestAnalyzeLogFiles:
    ["   4. "]. *)
Lemma printLogAnalysis_prints_slot_witness :
  ((3 < 5)%nat /\ topFiveLogMessages testGlobal !! 3%nat = Some "") /\
  (printLogAnalysis testGlobal).1 !! (7 + 3)%nat = Some ("   " ++ FormatInt (Z.of_nat 3 + 1) ++ ". " ++ "").
Proof.
  assert (H : (3 < 5)%nat /\ topFiveLogMessages testGlobal !! 3%nat = Some "")
    by (split; [lia|vm_compute; reflexivity]).
  split; [exact H|]. exact (printLogAnalysis_prints_slot testGlobal 3 "" (proj1 H) (proj2 H)).
Defined.

(** C21: every run of [main] on the files of TestAnalyzeLogFiles ends its
    output with the lines "Start Date/Time: 2024-01-01 00:00:00" and
    "End Date/Time: 2024-01-01 00:03:00": the timestamps of the input
    carry ".000", the output drops the fraction. *)
Theorem TestAnalyzeLogFiles_printed_times out :
  main_prints testFS test_args out ->
  exists pre, out = (app pre ["Start Date/Time: 2024-01-01 00:00:00";
                             "End Date/Time: 2024-01-01 00:03:00"], None).
Proof.
  intros H. destruct (main_prints_lines _ _ _ H) as (w & la & Hr & Hd & _ & ->).
  pose proof (done_stats_eq _ _ _ _ _ _ Hr (test_run canonical_iter) Hd test_final_ok) as Hs.
  assert (Hst : startTime la = startTime testGlobal) by exact (f_equal (fun s => s.1.2) Hs).
  assert (Hen : endTime la = endTime testGlobal) by exact (f_equal (fun s => s.2) Hs).
  cbv zeta. rewrite Hst, Hen.
  assert (H1 : Format (startTime testGlobal) = "2024-01-01 00:00:00") by (vm_compute; reflexivity).
  assert (H2 : Format (endTime testGlobal) = "2024-01-01 00:03:00") by (vm_compute; reflexivity).
  rewrite H1, H2. eexists. rewrite app_assoc, app_comm_cons. reflexivity.
Qed.

Lemma TestAnalyzeLogFiles_printed_times_witness :
  main_prints testFS test_args (test_output canonical_iter) /\
  exists pre, test_output canonical_iter =
    (app pre ["Start Date/Time: 2024-01-01 00:00:00"; "End Date/Time: 2024-01-01 00:03:00"], None).
Proof.
  split; [exact test_main_prints_canonical|].
  exact (TestAnalyzeLogFiles_printed_times _ test_main_prints_canonical).
Defined.

(** The times of TestAnalyzeLogFiles read back from the printed lines. *)
Lemma printLogAnalysis_times_roundtrip_witness :
  (0 <= t_nsec (startTime testGlobal) < 10 ^ 9 /\ 0 <= Year (startTime testGlobal) <= 9999 /\
   0 <= t_nsec (endTime testGlobal) < 10 ^ 9 /\ 0 <= Year (endTime testGlobal) <= 9999) /\
  exists out s e,
    printLogAnalysis testGlobal = (app out ["Start Date/Time: " ++ s; "End Date/Time: " ++ e], None) /\
    parse_time s = Some (mkTime (t_sec (startTime testGlobal)) (t_nsec (startTime testGlobal) / 10 ^ 6 * 10 ^ 6)) /\
    parse_time e = Some (mkTime (t_sec (endTime testGlobal)) (t_nsec (endTime testGlobal) / 10 ^ 6 * 10 ^ 6)).
Proof.
  assert (H : 0 <= t_nsec (startTime testGlobal) < 10 ^ 9 /\ 0 <= Year (startTime testGlobal) <= 9999 /\
              0 <= t_nsec (endTime testGlobal) < 10 ^ 9 /\ 0 <= Year (endTime testGlobal) <= 9999)
    by (vm_compute; repeat split; congruence).
  split; [exact H|]. destruct H as (H1 & H2 & H3 & H4).
  exact (printLogAnalysis_times_roundtrip testGlobal H1 H2 H3 H4).
Defined.

End TestMain.

End Printer.
