(* ===== verification/GoTests.v ===== *)
(** * The Go tests as programs (src/main-tests.go)

    The test functions themselves, not only their data: the table of
    TestParseLogMessage and its loop of checks; [createTestLogFile] as an
    update of the file system at the name [os.CreateTemp] chooses; the
    harness of TestAnalyzeLogFile, which starts [analyzeLogFile] as a
    goroutine with the package-level [waitGroup], receives once and
    waits, as the steps of [Dispatcher.step] before the reduction; the
    checks of TestAnalyzeLogFile and TestAnalyzeLogFiles.  The theorems
    say that TestAnalyzeLogFile and TestAnalyzeLogFiles pass whatever
    the file system the temporary files are created in, the names
    chosen for them, the schedule and the map iteration orders, and
    for which map orders TestGetTopFiveLogMessages passes.  [t.Fatal] on a failed write of a temporary
    file and the deferred [os.Remove] are not modelled: the writes are
    taken to succeed, and removal happens after the checks. *)

From S2P Require Import Prelude GoStrings GoTime GoSort Parser Aggregator Reducer Dispatcher.
Import GoStrings GoTime GoSort Parser Aggregator Reducer Dispatcher.

Module GoTests.

#[local] Open Scope Z_scope.
#[local] Open Scope string_scope.

(** ** TestParseLogMessage (main-tests.go 10-62) *)

(** One row of the test table. *)
Record parseTest : Type := mkParseTest {
  name : string;
  input : string;
  want : LogMessage;
  wantErr : bool
}.

Definition parseLogMessage_tests : list parseTest := [
  mkParseTest "valid log message"
    "2024-01-02 15:04:05.999 | INFO | app.module: function: 123 - User logged in"
    (mkLogMessage "2024-01-02 15:04:05.999" "INFO" "app.module" "function" 123 "User logged in")
    false;
  mkParseTest "empty message" "" zeroLogMessage true;
  mkParseTest "malformed message - missing severity"
    "2024-01-02 15:04:05.999 | | app.module: function: 123 - User logged in"
    zeroLogMessage true;
  mkParseTest "malformed message - missing line number"
    "2024-01-02 15:04:05.999 | INFO | app.module: function: - User logged in"
    zeroLogMessage true].

(** The body of [t.Run(tt.name, ...)]: [true] when no [t.Errorf] is
    reached. *)
Definition run_parseLogMessage_test (tt : parseTest) : bool :=
  let '(got, err) := parseLogMessage (input tt) in
  let gotErr := match err with Some _ => true | None => false end in
  if negb (Bool.eqb gotErr (wantErr tt)) then false
  else negb (negb (wantErr tt) && negb (bool_decide (got = want tt))).

Definition TestParseLogMessage : bool := forallb run_parseLogMessage_test parseLogMessage_tests.

(** ** TestGetLogSeverityFrequency (main-tests.go 64-86) *)

(** [true] when [reflect.DeepEqual(got, want)]. *)
Definition TestGetLogSeverityFrequency : bool :=
  let want := mkFreq 1 2 1 2 in
  let got := getLogSeverityFrequency test_severity_logs in
  bool_decide (got = want).

(** ** TestGetTopFiveLogMessages (main-tests.go 88-112) *)

(** The test run with the map iteration order [it] of
    [getTopFiveLogMessages]: [true] when both [reflect.DeepEqual] hold. *)
Definition TestGetTopFiveLogMessages (it : MapIter) : bool :=
  let wantMessages := ["Error 3"; "Error 1"; "Error 2"; "Error 4"; "Error 5"] in
  let wantFrequencies := [3; 2; 1; 1; 1] in
  let '(gotMessages, gotFrequencies) := getTopFiveLogMessages it test_top_five_logs in
  bool_decide (gotMessages = wantMessages) && bool_decide (gotFrequencies = wantFrequencies).

(** ** TestGetStartAndEndTime (main-tests.go 114-133) *)

(** [t, _ := time.Parse(layout, value)]: the error is dropped, and a
    failed parse gives the zero [Time]. *)
Definition parse_dropping_error (value : string) : Time :=
  match parse_time value with Some t => t | None => zeroTime end.

(** [true] when both [Equal] hold; a panic of [getStartTime] or
    [getEndTime] fails the test. *)
Definition TestGetStartAndEndTime : bool :=
  let expectedStart := parse_dropping_error "2024-01-01 00:00:00.000" in
  let expectedEnd := parse_dropping_error "2024-01-02 00:00:00.000" in
  match getStartTime test_time_logs, getEndTime test_time_logs with
  | Ok gotStart, Ok gotEnd => Equal gotStart expectedStart && Equal gotEnd expectedEnd
  | _, _ => false
  end.

(** ** createTestLogFile (main-tests.go 136-150) *)

(** [os.CreateTemp] returns a new file named [tmpName]; writing
    [content] and closing it changes the file system at that name. *)
Definition createTestLogFile (fs : FileSystem) (tmpName content : string) : FileSystem * string :=
  (fun p => if String.eqb p tmpName then Some content else fs p, tmpName).

Lemma createTestLogFile_at fs tmpName content :
  (createTestLogFile fs tmpName content).1 tmpName = Some content.
Proof. simpl. by rewrite String.eqb_refl. Qed.

Lemma createTestLogFile_other fs tmpName content p :
  p <> tmpName -> (createTestLogFile fs tmpName content).1 p = fs p.
Proof. intros Hp. simpl. by rewrite (proj2 (String.eqb_neq p tmpName) Hp). Qed.

(** ** TestAnalyzeLogFile (main-tests.go 152-182) *)

(** [waitGroup.Add(1); go analyzeLogFile(tmpFileName, logAnalysisChan)],
    [logAnalysis := <-logAnalysisChan] and [waitGroup.Wait()] returning:
    the steps of [analyzeLogFiles] on the one path [tmpFileName] up to its
    [Wait], with the counter at zero and no goroutine panicked. *)
Definition TestAnalyzeLogFile_waited (fs : FileSystem) (tmpFileName : string) (w : World) : Prop :=
  reachable fs [tmpFileName] w /\ w_main w = MWait /\ w_wg w = 0 /\ w_crash w = None.

(** The checks after [Wait] (main-tests.go 168-181): [true] when no
    [t.Errorf] is reached; the indexing [topFiveLogMessages[0]] would
    panic on an empty slice, which fails the test. *)
Definition TestAnalyzeLogFile_checks (logAnalysis : LogAnalysis) : bool :=
  (numEntries logAnalysis =? 3)%Z &&
  negb (negb (info (logSeverityFrequency logAnalysis) =? 1)%Z ||
        negb (error (logSeverityFrequency logAnalysis) =? 2)%Z) &&
  match topFiveLogMessages logAnalysis !! 0%nat with
  | Some m => String.eqb m "Database connection failed"
  | None => false
  end.

(** The file system after [createTestLogFile(t, logContent)]. *)
Definition TestAnalyzeLogFile_fs (fs0 : FileSystem) (tmpFileName : string) : FileSystem :=
  (createTestLogFile fs0 tmpFileName testLogContent).1.

(** ** TestAnalyzeLogFiles (main-tests.go 184-221) *)

(** The checks on the result of [analyzeLogFiles] (main-tests.go
    199-220); [reflect.DeepEqual] on the frequencies compares all four
    counters, DEBUG included. *)
Definition TestAnalyzeLogFiles_checks (analysis : LogAnalysis) : bool :=
  (numEntries analysis =? 4)%Z &&
  bool_decide (logSeverityFrequency analysis = mkFreq 0 1 1 2) &&
  match topFiveLogMessages analysis !! 0%nat with
  | Some m => String.eqb m "Database error"
  | None => false
  end.

(** The file system after the two calls of [createTestLogFile]. *)
Definition TestAnalyzeLogFiles_fs (fs0 : FileSystem) (tmpFile1 tmpFile2 : string) : FileSystem :=
  (createTestLogFile (createTestLogFile fs0 tmpFile1 log1Content).1 tmpFile2 log2Content).1.

(** ** The tests pass *)

Section Passes.

(** The harness of TestAnalyzeLogFile on a file whose analysis is [a]:
    start the goroutine, let it compute and send, receive, let it call
    [Done]; [Wait] can then return. *)
Lemma TestAnalyzeLogFile_run fs tmpFileName it a :
  analyzeLogFile fs it tmpFileName = Ok a ->
  exists w, TestAnalyzeLogFile_waited fs tmpFileName w /\ w_collected w = [a].
Proof.
  intros Ha. eexists. split; [split; [|split; [|split]]|].
  { unfold reachable, init.
    eapply rtc_l; [apply step_spawn|]. eapply rtc_l; [apply step_spawn_end|].
    eapply rtc_l; [eapply (step_run _ _ _ _ _ _ 0%nat); [reflexivity|exact Ha]|].
    eapply rtc_l; [apply (step_recv _ _ _ _ _ _ 0%nat tmpFileName a); reflexivity|].
    eapply rtc_l; [apply (step_done _ _ _ _ _ _ 0%nat tmpFileName a); reflexivity|].
    eapply rtc_l; [apply step_recv_end|]. apply rtc_refl. }
  all: reflexivity.
Qed.

(** C30: TestAnalyzeLogFile passes, whatever the file system the
    temporary file is created in, its name, the schedule and the map
    iteration order: no goroutine panics, some run reaches the return
    of [Wait], and every run that ends has passed through it (every run
    ends: [analyzeLogFiles_terminates], [analyzeLogFiles_completes]); whenever
    [Wait] returns the test has received exactly one analysis, which
    meets every check. *)
Theorem TestAnalyzeLogFile_passes fs0 tmpFileName :
  let fs := TestAnalyzeLogFile_fs fs0 tmpFileName in
  (exists w, TestAnalyzeLogFile_waited fs tmpFileName w) /\
  (forall w, reachable fs [tmpFileName] w -> final w ->
     w_crash w = None /\
     exists w0, TestAnalyzeLogFile_waited fs tmpFileName w0 /\ rtc (step fs) w0 w) /\
  forall w, TestAnalyzeLogFile_waited fs tmpFileName w ->
    exists la, w_collected w = [la] /\ TestAnalyzeLogFile_checks la = true.
Proof.
  cbv zeta. set (fs := TestAnalyzeLogFile_fs fs0 tmpFileName).
  assert (Hext : forall it, analyzeLogFile fs it tmpFileName = analyzeLogFile testLogFS it "test.log")
    by (intros it; apply analyzeLogFile_ext; unfold fs, TestAnalyzeLogFile_fs;
        by rewrite createTestLogFile_at).
  split; [|split].
  - destruct (TestAnalyzeLogFile_every_map_order canonical_iter) as (a & Ha & _).
    rewrite <- Hext in Ha. destruct (TestAnalyzeLogFile_run _ _ _ _ Ha) as (w & Hw & _).
    by exists w.
  - intros w Hr Hf. destruct (w_crash w) as [e|] eqn:Hc.
    + destruct (reachable_crash _ _ _ _ Hr Hc) as (p & it & Hp%list_elem_of_singleton & Ha).
      subst p. rewrite Hext in Ha.
      destruct (TestAnalyzeLogFile_every_map_order it) as (a & Ha' & _). congruence.
    + split; [done|]. destruct Hf as [[r Hd]|Hf]; [|done].
      destruct (done_after_wait _ _ _ _ Hr Hd) as (w0 & Hr0 & Hm & Hw & Hc0 & Hs).
      by exists w0.
  - intros w (Hr & Hm & Hw & _).
    destruct (wait_collected _ _ _ Hr Hm Hw) as (L & HL & Hp).
    inversion HL as [|? a ? ? [it Ha] HL']; subst. inversion HL'; subst.
    apply Permutation_singleton_r in Hp. exists a. split; [done|].
    rewrite Hext in Ha.
    destruct (TestAnalyzeLogFile_every_map_order it) as (a' & Ha' & Hn & Hi & He & Hh).
    rewrite Ha in Ha'. injection Ha' as <-.
    unfold TestAnalyzeLogFile_checks. rewrite Hn, Hi, He.
    destruct (topFiveLogMessages a) as [|m ms]; [done|]. simpl in Hh |- *. by simplify_eq.
Qed.

(** C7: TestAnalyzeLogFiles passes, whatever the file system the two
    temporary files are created in, their (distinct) names, the schedule
    and the map iteration orders; and the empty placeholder of the
    per-file slots is among the global top five it checks the head of. *)
Theorem TestAnalyzeLogFiles_passes fs0 tmpFile1 tmpFile2 w r :
  tmpFile1 <> tmpFile2 ->
  reachable (TestAnalyzeLogFiles_fs fs0 tmpFile1 tmpFile2) [tmpFile1; tmpFile2] w ->
  w_main w = MDone r ->
  exists a, r = Ok a /\ TestAnalyzeLogFiles_checks a = true /\ "" ∈ topFiveLogMessages a.
Proof.
  intros Hne Hr Hd.
  destruct (TestAnalyzeLogFiles_every_schedule (TestAnalyzeLogFiles_fs fs0 tmpFile1 tmpFile2)
    tmpFile1 tmpFile2 w r) as (a & -> & Hn & Hf & Hh & He);
    [|unfold TestAnalyzeLogFiles_fs; apply createTestLogFile_at|done|done|].
  { unfold TestAnalyzeLogFiles_fs. rewrite createTestLogFile_other by done.
    apply createTestLogFile_at. }
  exists a. split; [done|]. split; [|done].
  unfold TestAnalyzeLogFiles_checks. rewrite Hn, Hf, bool_decide_eq_true_2 by done.
  destruct (topFiveLogMessages a) as [|m ms]; [done|]. simpl in Hh |- *. by simplify_eq.
Qed.

(** C25: TestGetTopFiveLogMessages under every map iteration order of
    [getTopFiveLogMessages]: the frequencies are always [3,2,1,1,1]; the
    messages match, and the test passes, exactly when the order visits
    the four messages seen once as "Error 2", "Error 4", "Error 5",
    "Error 6", the order in which the test lists them (one order of the
    four in 24). *)
Theorem TestGetTopFiveLogMessages_passes_iff it :
  let ranked := rankLogMessages test_top_five_logs in
  (getTopFiveLogMessages it test_top_five_logs).2 = [3; 2; 1; 1; 1] /\
  (TestGetTopFiveLogMessages it = true <->
   filter (fun m => count_of ranked m = 1) (iter_keys it ranked) =
     ["Error 2"; "Error 4"; "Error 5"; "Error 6"]).
Proof.
  cbv zeta. unfold TestGetTopFiveLogMessages. rewrite getTopFiveLogMessages_spec.
  cbv zeta. cbn [snd]. cbv beta iota.
  pattern (iter_keys it (rankLogMessages test_top_five_logs)).
  apply (forall_permutations _ ((map_to_list (rankLogMessages test_top_five_logs)).*1));
    [vm_compute; reflexivity|apply iter_keys_perm].
Qed.

End Passes.

(** TestAnalyzeLogFiles with its files created at ["a"] and ["b"] of an
    empty file system, and the run of [Dispatcher.test_run]. *)
Lemma TestAnalyzeLogFiles_passes_witness :
  ("a" <> "b" /\ reachable (TestAnalyzeLogFiles_fs (fun _ => None) "a" "b") ["a"; "b"] test_final /\
   w_main test_final = MDone (Ok testGlobal)) /\
  exists a, (Ok testGlobal : result LogAnalysis Panic) = Ok a /\
    TestAnalyzeLogFiles_checks a = true /\ "" ∈ topFiveLogMessages a.
Proof.
  assert (H : "a" <> "b" /\ reachable (TestAnalyzeLogFiles_fs (fun _ => None) "a" "b") ["a"; "b"] test_final /\
              w_main test_final = MDone (Ok testGlobal)).
  { split; [done|]. split; [|exact test_final_ok].
    apply (reachable_ext testFS); [|exact (test_run canonical_iter)].
    intros p Hp. repeat (apply elem_of_cons in Hp as [->|Hp]); [reflexivity|reflexivity|].
    by apply elem_of_nil in Hp. }
  split; [exact H|]. destruct H as (H1 & H2 & H3).
  exact (TestAnalyzeLogFiles_passes _ _ _ _ _ H1 H2 H3).
Defined.

End GoTests.
